(** * XClone: the feed, search and relationship engine of [main.py]

    A shallow embedding of the queries and admission rules of [main.py]
    (a terminal client over an SQLite store), and the properties of its
    feed, search, retweet, compose, follow, id-assignment and favourites
    paths, of [login] and the form of [sign_up], and of the listings
    (followers, users, the tweets of a user, the favourite lists) with
    their paging loops, their selection and the details screen it opens.

    Conventions of the embedding.
    - A table is the list of its rows, in storage order.
    - Python [str] values are [string]s; the text helpers ([lower],
      [strip], the [\w] class) are the ASCII ones.
    - A function that talks to the terminal takes the lines typed by the
      user as a list and returns what it printed as a value.
    - A function that talks to the store runs in the [Txn] monad, which
      carries the committed and the pending contents of the store and the
      list of statements the store is going to reject. *)

From Stdlib Require Import ZArith NArith List String Ascii Bool Lia.
From Stdlib Require Import Sorted Permutation DecimalString.
Import ListNotations.

Local Open Scope Z_scope.
Local Open Scope list_scope.

(** ** Python text helpers *)

Module Py.

(** [c.isspace()] on ASCII: TAB, LF, VT, FF, CR, FS, GS, RS, US, SPACE. *)
Definition isspace (c : ascii) : bool :=
  let n := nat_of_ascii c in
  ((9 <=? n) && (n <=? 13) || (28 <=? n) && (n <=? 32))%nat.

Definition isdigit_char (c : ascii) : bool :=
  let n := nat_of_ascii c in ((48 <=? n) && (n <=? 57))%nat.

Definition isupper_char (c : ascii) : bool :=
  let n := nat_of_ascii c in ((65 <=? n) && (n <=? 90))%nat.

Definition islower_char (c : ascii) : bool :=
  let n := nat_of_ascii c in ((97 <=? n) && (n <=? 122))%nat.

(** The regular-expression class [\w]: letters, digits and the underscore. *)
Definition isword (c : ascii) : bool :=
  isupper_char c || islower_char c || isdigit_char c || Ascii.eqb c "_".

Definition lower_char (c : ascii) : ascii :=
  if isupper_char c then ascii_of_nat (nat_of_ascii c + 32) else c.

(** [s.lower()] *)
Fixpoint lower (s : string) : string :=
  match s with
  | EmptyString => EmptyString
  | String c s' => String (lower_char c) (lower s')
  end.

Fixpoint lstrip (s : string) : string :=
  match s with
  | EmptyString => EmptyString
  | String c s' => if isspace c then lstrip s' else s
  end.

Fixpoint rstrip (s : string) : string :=
  match s with
  | EmptyString => EmptyString
  | String c s' =>
      match rstrip s' with
      | EmptyString => if isspace c then EmptyString else String c EmptyString
      | r => String c r
      end
  end.

(** [s.strip()] *)
Definition strip (s : string) : string := rstrip (lstrip s).

(** [s.split(sep)] for a one-character separator: never the empty list. *)
Fixpoint split (sep : ascii) (s : string) : list string :=
  match s with
  | EmptyString => [EmptyString]
  | String c s' =>
      if Ascii.eqb c sep then EmptyString :: split sep s'
      else match split sep s' with
           | [] => [String c EmptyString]
           | w :: ws => String c w :: ws
           end
  end.

(** Truth value of a [str]: the empty string is false. *)
Definition truthy (s : string) : bool :=
  match s with EmptyString => false | _ => true end.

Fixpoint all_digits (s : string) : bool :=
  match s with
  | EmptyString => true
  | String c s' => isdigit_char c && all_digits s'
  end.

(** [s.isdigit()] *)
Definition isdigit (s : string) : bool := truthy s && all_digits s.

Fixpoint int_acc (acc : Z) (s : string) : Z :=
  match s with
  | EmptyString => acc
  | String c s' => int_acc (10 * acc + Z.of_nat (nat_of_ascii c - 48)) s'
  end.

(** [int(s)] on a string of digits. *)
Definition int (s : string) : Z := int_acc 0 s.

(** [str(n)] on an [int]. *)
Definition str (n : Z) : string := NilZero.string_of_int (Z.to_int n).

(** [l.count(x)] *)
Definition count (l : list string) (x : string) : nat :=
  count_occ string_dec l x.

(** [set(l)].  Python does not fix the order in which a set is walked;
    the elements are listed here in the order of their last occurrence. *)
Definition set (l : list string) : list string := nodup string_dec l.

(** [s[1:]] *)
Definition tail (s : string) : string :=
  match s with EmptyString => EmptyString | String _ s' => s' end.

(** The scanner of [re.findall(r"#\w+", s)].  [cur] is [Some w] when a
    ['#'] followed by the word characters [w] has just been read. *)
Definition flush (cur : option string) : list string :=
  match cur with
  | Some (String c w) => [String "#" (String c w)]
  | _ => []
  end.

Definition start (c : ascii) : option string :=
  if Ascii.eqb c "#" then Some EmptyString else None.

Fixpoint scan (cur : option string) (s : string) : list string :=
  match s with
  | EmptyString => flush cur
  | String c s' =>
      match cur with
      | Some w =>
          if isword c then scan (Some (w ++ String c EmptyString)%string) s'
          else flush cur ++ scan (start c) s'
      | None => scan (start c) s'
      end
  end.

Definition findall_hashtags (s : string) : list string := scan None s.

End Py.

(** ** SQL helpers *)

Module Sql.

(** [LOWER(s)]: SQLite folds the ASCII letters only. *)
Definition lower (s : string) : string := Py.lower s.

(** [txt LIKE pat], no escape character: ['%'] stands for any run of
    characters, ['_'] for any one character, every other character for
    itself up to ASCII case. *)
Fixpoint like (pat txt : string) : bool :=
  match pat with
  | EmptyString => negb (Py.truthy txt)
  | String p pat' =>
      if Ascii.eqb p "%" then
        (fix any (t : string) : bool :=
           like pat' t ||
           match t with
           | EmptyString => false
           | String _ t' => any t'
           end) txt
      else
        match txt with
        | EmptyString => false
        | String c txt' =>
            (Ascii.eqb p "_" || Ascii.eqb (Py.lower_char p) (Py.lower_char c))
            && like pat' txt'
        end
  end.

(** [MAX(col)]: [None] is the NULL of an empty table. *)
Fixpoint max (col : list Z) : option Z :=
  match col with
  | [] => None
  | x :: col' =>
      match max col' with
      | None => Some x
      | Some m => Some (Z.max x m)
      end
  end.

(** [COUNT( * )] *)
Definition count {A : Type} (rows : list A) : Z := Z.of_nat (List.length rows).

(** [ORDER BY d DESC, t DESC] on two text columns (binary collation):
    [desc_geb k1 k2] holds when a row of key [k1] may come before a row
    of key [k2]. *)
Definition desc_geb (k1 k2 : string * string) : bool :=
  String.ltb (fst k2) (fst k1)
  || (String.eqb (fst k1) (fst k2) && String.leb (snd k2) (snd k1)).

(** The sorter: rows that compare equal stay in the order they were
    produced in. *)
Fixpoint insert_by {A : Type} (geb : A -> A -> bool) (x : A) (l : list A)
  : list A :=
  match l with
  | [] => [x]
  | y :: l' => if geb x y then x :: l else y :: insert_by geb x l'
  end.

Definition order_by {A : Type} (geb : A -> A -> bool) (l : list A) : list A :=
  fold_right (insert_by geb) [] l.

(** [LIMIT n OFFSET k] *)
Definition limit_offset {A : Type} (n k : nat) (l : list A) : list A :=
  firstn n (skipn k l).

End Sql.

(** ** The store

    The schema is not part of [main.py]; the columns are the ones its
    statements name, the ids are integers and the dates and times are
    the ISO texts the program writes. *)

Record user_row := mkUser
  { usr : Z; name : string; email : string; phone : string; pwd : string }.

Record tweet_row := mkTweet
  { tid : Z; writer_id : Z; text : string; tdate : string; ttime : string;
    replyto_tid : option Z }.

Record retweet_row := mkRetweet
  { rt_tid : Z; retweeter_id : Z; rt_writer_id : Z; spam : Z; rdate : string }.

Record follow_row := mkFollow
  { flwer : Z; flwee : Z; start_date : string }.

Record mention_row := mkMention
  { hm_tid : Z; term : string }.

Record list_row := mkList
  { owner_id : Z; lname : string }.

Record include_row := mkInclude
  { inc_owner_id : Z; inc_lname : string; inc_tid : Z }.

Record Db := mkDb
  { users : list user_row;
    tweets : list tweet_row;
    retweets : list retweet_row;
    follows : list follow_row;
    hashtag_mentions : list mention_row;
    lists : list list_row;
    include : list include_row }.

Definition empty_db : Db := mkDb [] [] [] [] [] [] [].

(** What a function printed before it returned. *)
Inductive outcome :=
| DatabaseError
| RegistrationSuccessful (new_usr : Z)
| TweetCannotBeEmpty
| HashtagsDuplicated (dups : list string)
| TweetPosted
| AlreadyRetweeted
| TweetNotFound (t : Z)
| RetweetPosted
| CannotFollowYourself
| AlreadyFollowing
| NowFollowing
| ListNameCannotBeEmpty
| ListAlreadyExists
| ListCreated (l : string)
| NoListToAddTo
| SelectionCancelled
| SelectionIgnored
| AlreadyInList
| TweetAdded (l : string).

(** ** Connections and transactions

    A connection sees the committed store and its own pending writes.
    [rejects] lists, statement by statement, whether the store is going to
    raise [sqlite3.Error] on it; past the end of the list every statement
    is accepted. *)

Record conn := mkConn
  { committed : Db; pending : Db; in_transaction : bool; rejects : list bool }.

(** [None] is a raised [sqlite3.Error]. *)
Definition Txn (A : Type) : Type := conn -> option A * conn.

Definition ret {A : Type} (a : A) : Txn A := fun c => (Some a, c).

Definition bind {A B : Type} (m : Txn A) (k : A -> Txn B) : Txn B :=
  fun c => match m c with
           | (Some a, c') => k a c'
           | (None, c') => (None, c')
           end.

Declare Scope txn_scope.
Delimit Scope txn_scope with txn.
Notation "x <- m ;; k" := (bind m (fun x => k))
  (at level 61, m at next level, right associativity) : txn_scope.
Notation "m ;;; k" := (bind m (fun _ => k))
  (at level 61, right associativity) : txn_scope.

(** One statement reaches the store: it is accepted or rejected. *)
Definition statement : Txn unit :=
  fun c =>
    match rejects c with
    | true :: rj => (None, mkConn (committed c) (pending c) (in_transaction c) rj)
    | false :: rj => (Some tt, mkConn (committed c) (pending c) (in_transaction c) rj)
    | [] => (Some tt, c)
    end.

(** [cursor.execute("SELECT ...")] followed by a fetch. *)
Definition select {A : Type} (q : Db -> A) : Txn A :=
  bind statement (fun _ c => (Some (q (pending c)), c)).

(** [cursor.execute("INSERT ...")]: the write opens a transaction and stays
    pending until the next commit. *)
Definition insert (w : Db -> Db) : Txn unit :=
  bind statement
    (fun _ c => (Some tt, mkConn (committed c) (w (pending c)) true (rejects c))).

(** [conn.commit()] *)
Definition commit : Txn unit :=
  fun c =>
    if in_transaction c then
      bind statement
        (fun _ c' => (Some tt, mkConn (pending c') (pending c') false (rejects c'))) c
    else (Some tt, c).

(** [sqlite3.connect(db_file)] *)
Definition connect : Txn unit := statement.

(** [connect_db(db_file)]: connect, then the foreign-keys pragma. *)
Definition connect_db : Txn unit := bind connect (fun _ => statement).

(** [try: with <open> as conn: <body> except sqlite3.Error: print(...)]:
    leaving the block commits, an error inside it rolls back to the last
    commit and the [except] branch reports [failed]. *)
Definition run_with {A : Type} (failed : A) (open : Txn unit) (body : Txn A)
  (c : conn) : A * conn :=
  match open c with
  | (None, c1) => (failed, c1)
  | (Some _, c1) =>
      match body c1 with
      | (None, c2) =>
          (failed, mkConn (committed c2) (committed c2) false (rejects c2))
      | (Some o, c2) =>
          match commit c2 with
          | (Some _, c3) => (o, c3)
          | (None, c3) =>
              (failed, mkConn (committed c3) (committed c3) false (rejects c3))
          end
      end
  end.

(** [try: conn = <open>; try: <body> finally: conn.close() except ...]:
    closing drops what was not committed. *)
Definition run_close {A : Type} (failed : A) (open : Txn unit) (body : Txn A)
  (c : conn) : A * conn :=
  match open c with
  | (None, c1) => (failed, c1)
  | (Some _, c1) =>
      match body c1 with
      | (None, c2) =>
          (failed, mkConn (committed c2) (committed c2) false (rejects c2))
      | (Some o, c2) =>
          (o, mkConn (committed c2) (committed c2) false (rejects c2))
      end
  end.

Definition fresh_conn (db : Db) (rj : list bool) : conn := mkConn db db false rj.

(** The store after the call, and what the call printed. *)
Definition session {A : Type} (run : conn -> A * conn) (db : Db) (rj : list bool)
  : Db * A :=
  let (o, c) := run (fresh_conn db rj) in (committed c, o).

(** A call that opens a connection of its own while [c] is open on the same
    file and has nothing pending: what it commits is visible to [c]. *)
Definition nested {A : Type} (run : conn -> A * conn) : Txn A :=
  fun c =>
    let (o, c') := run (fresh_conn (committed c) (rejects c)) in
    (Some o, mkConn (committed c') (committed c') (in_transaction c) (rejects c')).

(** A transaction that, started with nothing pending on the store [d],
    ends with nothing pending, whatever the store rejects; [P] holds of
    what it returns and of the store it leaves. *)
Definition settles {A : Type} (m : Txn A) (d : Db) (P : option A -> Db -> Prop)
  : Prop :=
  forall rj, exists res d' rj',
    m (mkConn d d false rj) = (res, mkConn d' d' false rj') /\ P res d'.

(** [for x in xs: <body x>] *)
Fixpoint for_each {A : Type} (xs : list A) (body : A -> Txn unit) : Txn unit :=
  match xs with
  | [] => ret tt
  | x :: xs' => bind (body x) (fun _ => for_each xs' body)
  end.

(** ** Row writers: [INSERT INTO <table>] appends one row *)

Definition add_user (u : user_row) (db : Db) : Db :=
  mkDb (users db ++ [u]) (tweets db) (retweets db) (follows db)
       (hashtag_mentions db) (lists db) (include db).

Definition add_tweet (t : tweet_row) (db : Db) : Db :=
  mkDb (users db) (tweets db ++ [t]) (retweets db) (follows db)
       (hashtag_mentions db) (lists db) (include db).

Definition add_retweet (r : retweet_row) (db : Db) : Db :=
  mkDb (users db) (tweets db) (retweets db ++ [r]) (follows db)
       (hashtag_mentions db) (lists db) (include db).

Definition add_follow (f : follow_row) (db : Db) : Db :=
  mkDb (users db) (tweets db) (retweets db) (follows db ++ [f])
       (hashtag_mentions db) (lists db) (include db).

Definition add_mention (m : mention_row) (db : Db) : Db :=
  mkDb (users db) (tweets db) (retweets db) (follows db)
       (hashtag_mentions db ++ [m]) (lists db) (include db).

Definition add_list (l : list_row) (db : Db) : Db :=
  mkDb (users db) (tweets db) (retweets db) (follows db)
       (hashtag_mentions db) (lists db ++ [l]) (include db).

Definition add_include (i : include_row) (db : Db) : Db :=
  mkDb (users db) (tweets db) (retweets db) (follows db)
       (hashtag_mentions db) (lists db) (include db ++ [i]).

(** ** Rows of the two result sets *)

(** [type, tid, tdate, ttime, spam, text] *)
Record feed_row := mkFeedRow
  { f_type : string; f_tid : Z; f_tdate : string; f_ttime : string;
    f_spam : Z; f_text : string }.

(** [tid, writer_id, text, tdate, ttime] *)
Record search_row := mkSearchRow
  { s_tid : Z; s_writer_id : Z; s_text : string; s_tdate : string;
    s_ttime : string }.

Definition search_row_eq_dec (a b : search_row) : {a = b} + {a <> b}.
Proof. decide equality; try apply string_dec; apply Z.eq_dec. Defined.

(** [x IN (col)] *)
Definition in_col (x : Z) (col : list Z) : bool := existsb (Z.eqb x) col.

(** What one pass of the feed loop showed. *)
Inductive feed_view :=
| NoTweetsToDisplay
| NoMoreTweets
| FeedPage (first : nat) (rows : list feed_row) (more_tweets : bool)
| FeedDatabaseError.

Inductive feed_event :=
| Shown (v : feed_view)
| InvalidInput
| ExitingFeed.

Inductive search_result :=
| NoKeywordsProvided
| SearchDatabaseError
| NoTweetsFound
| SearchResults (rows : list search_row).

(** ** The operations of [main.py] *)

Section Engine.

(** The session's user id is the text typed at login; the id columns are
    integer columns.  [sql_int s] is the integer the store reads when the
    text [s] is bound against such a column. *)
Variable sql_int : string -> Z.

Local Open Scope txn_scope.

(** *** [sign_up]: the part after the prompts

    The two [except] branches (a taken email or phone, any other error of
    the store) both end the call without a new user; both are reported as
    [DatabaseError]. *)

(** [max_usr + 1 if max_usr else 1]: [None] and [0] are false. *)
Definition new_usr (max_usr : option Z) : Z :=
  match max_usr with
  | Some m => if m =? 0 then 1 else m + 1
  | None => 1
  end.

Definition sign_up (email_ phone_ name_ pwd_ : string) : conn -> outcome * conn :=
  run_with DatabaseError connect_db
    (max_usr <- select (fun db => Sql.max (map usr (users db))) ;;
     let new := new_usr max_usr in
     insert (add_user (mkUser new name_ email_ phone_ pwd_)) ;;;
     ret (RegistrationSuccessful new)).

(** *** [get_new_tid] *)

(** [(max_tid or 0) + 1] *)
Definition or_zero (max_tid : option Z) : Z :=
  match max_tid with
  | Some m => m
  | None => 0
  end.

Definition get_new_tid : Txn Z :=
  max_tid <- select (fun db => Sql.max (map tid (tweets db))) ;;
  ret (or_zero max_tid + 1).

(** *** [compose_tweet] *)

Definition duplicates (hashtags : list string) : list string :=
  filter (fun hashtag => (1 <? Py.count hashtags hashtag)%nat) hashtags.

Definition compose_body (usr_ tweet_text : string) (hashtags : list string)
  (tdate_ ttime_ : string) : Txn outcome :=
  new_tid <- get_new_tid ;;
  insert (add_tweet (mkTweet new_tid (sql_int usr_) tweet_text tdate_ ttime_ None)) ;;;
  for_each (Py.set hashtags)
    (fun hashtag => insert (add_mention (mkMention new_tid (Py.tail hashtag)))) ;;;
  commit ;;;
  ret TweetPosted.

Definition compose_tweet (usr_ line tdate_ ttime_ : string)
  : conn -> outcome * conn :=
  let tweet_text := Py.strip line in
  if negb (Py.truthy tweet_text) then fun c => (TweetCannotBeEmpty, c)
  else
    let hashtags := Py.findall_hashtags (Py.lower tweet_text) in
    match duplicates hashtags with
    | _ :: _ => fun c => (HashtagsDuplicated (Py.set (duplicates hashtags)), c)
    | [] =>
        run_with DatabaseError connect
          (compose_body usr_ tweet_text hashtags tdate_ ttime_)
    end.

(** *** [retweet] *)

Definition retweet (target : Z) (usr_ rdate_ : string) : conn -> outcome * conn :=
  run_close DatabaseError connect_db
    (already <- select (fun db =>
        Sql.count (filter (fun r => (rt_tid r =? target)
                                    && (retweeter_id r =? sql_int usr_))
                          (retweets db))) ;;
     if 0 <? already then ret AlreadyRetweeted
     else
       result <- select (fun db =>
         hd_error (map writer_id
                       (filter (fun t => tid t =? target) (tweets db)))) ;;
       match result with
       | None => ret (TweetNotFound target)
       | Some writer =>
           insert (add_retweet (mkRetweet target (sql_int usr_) writer 0 rdate_)) ;;;
           commit ;;;
           ret RetweetPosted
       end).

(** *** [follow_user] *)

Definition follow_user (current_usr : string) (target_usr : Z) (today : string)
  : conn -> outcome * conn :=
  if String.eqb current_usr (Py.str target_usr)
  then fun c => (CannotFollowYourself, c)
  else
    run_with DatabaseError connect_db
      (found <- select (fun db =>
          existsb (fun f => (flwer f =? sql_int current_usr)
                            && (flwee f =? target_usr))
                  (follows db)) ;;
       if found then ret AlreadyFollowing
       else
         insert (add_follow (mkFollow (sql_int current_usr) target_usr today)) ;;;
         commit ;;;
         ret NowFollowing).

(** *** [create_favorite_list] and [add_to_favorite_list] *)

Definition create_favorite_list (usr_ line : string) : conn -> outcome * conn :=
  run_with DatabaseError connect
    (let list_name := Py.strip line in
     if negb (Py.truthy list_name) then ret ListNameCannotBeEmpty
     else
       found <- select (fun db =>
          existsb (fun l => (owner_id l =? sql_int usr_)
                            && String.eqb (lname l) list_name)
                  (lists db)) ;;
       if found then ret ListAlreadyExists
       else
         insert (add_list (mkList (sql_int usr_) list_name)) ;;;
         commit ;;;
         ret (ListCreated list_name)).

Definition lists_of (usr_ : string) (db : Db) : list string :=
  map lname (filter (fun l => owner_id l =? sql_int usr_) (lists db)).

(** [name_line] is what the user types if asked for the name of a first
    list, [choice_line] what they type when asked to select a list. *)
Definition add_to_favorite_list (usr_ : string) (target : Z)
  (name_line choice_line : string) : conn -> outcome * conn :=
  run_with DatabaseError connect
    (fav_lists0 <- select (lists_of usr_) ;;
     fav_lists <-
       match fav_lists0 with
       | [] => nested (create_favorite_list usr_ name_line) ;;;
               select (lists_of usr_)
       | _ :: _ => ret fav_lists0
       end ;;
     match fav_lists with
     | [] => ret NoListToAddTo
     | _ :: _ =>
         let list_choice := Py.strip choice_line in
         if String.eqb (Py.lower list_choice) "q" then ret SelectionCancelled
         else if Py.isdigit list_choice then
           let list_idx := Py.int list_choice - 1 in
           if (0 <=? list_idx) && (list_idx <? Z.of_nat (List.length fav_lists))
           then
             match nth_error fav_lists (Z.to_nat list_idx) with
             | None => ret SelectionIgnored
             | Some chosen =>
                 found <- select (fun db =>
                    existsb (fun i => (inc_owner_id i =? sql_int usr_)
                                      && String.eqb (inc_lname i) chosen
                                      && (inc_tid i =? target))
                            (include db)) ;;
                 if found then ret AlreadyInList
                 else
                   insert (add_include (mkInclude (sql_int usr_) chosen target)) ;;;
                   commit ;;;
                   ret (TweetAdded chosen)
             end
           else ret SelectionIgnored
         else ret SelectionIgnored
     end).

(** *** [show_feed] *)

(** [SELECT flwee FROM follows WHERE flwer = ?] *)
Definition followees (usr_ : string) (db : Db) : list Z :=
  map flwee (filter (fun f => flwer f =? sql_int usr_) (follows db)).

(** First arm of the compound select. *)
Definition feed_tweets (usr_ : string) (db : Db) : list feed_row :=
  map (fun t => mkFeedRow "tweet" (tid t) (tdate t) (ttime t) 0 (text t))
      (filter (fun t => in_col (writer_id t) (followees usr_ db)) (tweets db)).

(** Second arm: [retweets r JOIN tweets t ON r.tid = t.tid WHERE ...]. *)
Definition feed_retweets (usr_ : string) (db : Db) : list feed_row :=
  map (fun rt => mkFeedRow "retweet" (rt_tid (fst rt)) (rdate (fst rt)) ""
                           (spam (fst rt)) (text (snd rt)))
      (filter (fun rt => in_col (retweeter_id (fst rt)) (followees usr_ db)
                         && (spam (fst rt) =? 0))
              (filter (fun rt => rt_tid (fst rt) =? tid (snd rt))
                      (list_prod (retweets db) (tweets db)))).

Definition feed_key (row : feed_row) : string * string :=
  (f_tdate row, f_ttime row).

Definition feed_geb (a b : feed_row) : bool :=
  Sql.desc_geb (feed_key a) (feed_key b).

(** [... UNION ALL ... ORDER BY tdate DESC, ttime DESC] *)
Definition feed_rows (usr_ : string) (db : Db) : list feed_row :=
  Sql.order_by feed_geb (feed_tweets usr_ db ++ feed_retweets usr_ db).

(** The whole of [query], run with the parameters [(usr, usr, offset)]. *)
Definition feed_query (usr_ : string) (offset : nat) (db : Db) : list feed_row :=
  Sql.limit_offset 5 offset (feed_rows usr_ db).

Definition nonempty {A : Type} (l : list A) : bool :=
  match l with [] => false | _ :: _ => true end.

(** One pass through the body of the [while True:] loop, up to the prompt. *)
Definition feed_pass (usr_ : string) (offset : nat) : Txn feed_view :=
  first_batch <- select (feed_query usr_ 0) ;;
  if negb (nonempty first_batch) then ret NoTweetsToDisplay
  else
    feed <- select (feed_query usr_ offset) ;;
    if negb (nonempty feed) then ret NoMoreTweets
    else
      more_tweets <- select (feed_query usr_ (offset + 5)) ;;
      ret (FeedPage (offset + 1) feed (nonempty more_tweets)).

Definition feed_view_at (usr_ : string) (db : Db) (offset : nat) (rj : list bool)
  : feed_view * list bool :=
  let (v, c) := run_with FeedDatabaseError connect_db (feed_pass usr_ offset)
                         (fresh_conn db rj) in
  (v, rejects c).

(** [input(...).strip().lower()] *)
Definition choice_of (line : string) : string := Py.lower (Py.strip line).

(** The prompt that only offers the dashboard and quitting. *)
Fixpoint prompt_back_or_quit (inputs : list string) : list feed_event :=
  match inputs with
  | [] => []
  | line :: rest =>
      if String.eqb (choice_of line) "b" then []
      else if String.eqb (choice_of line) "q" then [ExitingFeed]
      else InvalidInput :: prompt_back_or_quit rest
  end.

(** The page at [offset] is on the screen and more tweets follow it.
    Quitting hands over to [login_screen], which is not followed here. *)
Fixpoint feed_next (usr_ : string) (db : Db) (offset : nat) (rj : list bool)
  (inputs : list string) : list feed_event :=
  match inputs with
  | [] => []
  | line :: rest =>
      if String.eqb (choice_of line) "n" then
        let (v, rj') := feed_view_at usr_ db (offset + 5) rj in
        Shown v ::
        match v with
        | FeedPage _ _ true => feed_next usr_ db (offset + 5) rj' rest
        | FeedPage _ _ false => prompt_back_or_quit rest
        | NoTweetsToDisplay => prompt_back_or_quit rest
        | NoMoreTweets => prompt_back_or_quit rest
        | FeedDatabaseError => []
        end
      else if String.eqb (choice_of line) "b" then []
      else if String.eqb (choice_of line) "q" then [ExitingFeed]
      else InvalidInput :: feed_next usr_ db offset rj rest
  end.

Definition show_feed (usr_ : string) (db : Db) (rj : list bool)
  (inputs : list string) : list feed_event :=
  let (v, rj') := feed_view_at usr_ db 0 rj in
  Shown v ::
  match v with
  | FeedPage _ _ true => feed_next usr_ db 0 rj' inputs
  | FeedPage _ _ false => prompt_back_or_quit inputs
  | NoTweetsToDisplay => prompt_back_or_quit inputs
  | NoMoreTweets => prompt_back_or_quit inputs
  | FeedDatabaseError => []
  end.

(** The rows a run of the feed put on the screen, in order. *)
Definition shown_rows (events : list feed_event) : list feed_row :=
  flat_map (fun e => match e with
                     | Shown (FeedPage _ rows _) => rows
                     | _ => []
                     end) events.

(** *** [search_tweets]: up to [tweets = cursor.fetchall()] *)

Definition keywords_of (line : string) : list string :=
  map (fun kw => Py.lower (Py.strip kw))
      (filter (fun kw => Py.truthy (Py.strip kw))
              (Py.split "," (Py.strip line))).

Definition search_row_of (t : tweet_row) : search_row :=
  mkSearchRow (tid t) (writer_id t) (text t) (tdate t) (ttime t).

(** [WHERE LOWER(text) LIKE ? OR ...], parameters ["%kw%"]. *)
Definition text_arm (keywords : list string) (db : Db) : list search_row :=
  map search_row_of
      (filter (fun t =>
                 existsb (fun kw =>
                            Sql.like (String "%" (kw ++ "%")%string)
                                     (Sql.lower (text t)))
                         keywords)
              (tweets db)).

(** [tweets JOIN hashtag_mentions ... WHERE LOWER(term) IN (?, ...)] *)
Definition hashtag_arm (keywords : list string) (db : Db) : list search_row :=
  map (fun th => search_row_of (fst th))
      (filter (fun th => existsb (String.eqb (Sql.lower (term (snd th)))) keywords)
              (filter (fun th => tid (fst th) =? hm_tid (snd th))
                      (list_prod (tweets db) (hashtag_mentions db)))).

Definition search_key (row : search_row) : string * string :=
  (s_tdate row, s_ttime row).

Definition search_geb (a b : search_row) : bool :=
  Sql.desc_geb (search_key a) (search_key b).

(** [... UNION ... ORDER BY tdate DESC, ttime DESC] *)
Definition search_query (keywords : list string) (db : Db) : list search_row :=
  Sql.order_by search_geb
    (nodup search_row_eq_dec (text_arm keywords db ++ hashtag_arm keywords db)).

Definition search_tweets (line : string) : conn -> search_result * conn :=
  let keywords := keywords_of line in
  if negb (nonempty keywords) then fun c => (NoKeywordsProvided, c)
  else
    run_with SearchDatabaseError connect
      (found <- select (search_query keywords) ;;
       if negb (nonempty found) then ret NoTweetsFound
       else ret (SearchResults found)).

End Engine.

(** The store on concrete sessions.  SQLite gives a text that is bound
    against an integer column the affinity of the column: a text of digits
    is compared, and stored, as the integer it spells, leading zeros
    included.  This is what lets [login] find a user from the text typed
    at the prompt. *)
Definition int_of_digits (s : string) : Z := Py.int s.

(** [SELECT COUNT( * ) FROM retweets WHERE tid = ?] of [view_tweet_statistics]. *)
Definition retweet_count (target : Z) (db : Db) : Z :=
  Sql.count (filter (fun r => rt_tid r =? target) (retweets db)).

(** [m] is the greatest id of the column [ids]. *)
Definition is_max (m : Z) (ids : list Z) : Prop :=
  In m ids /\ forall x, In x ids -> x <= m.

(** The follow edges from [a] to [b]. *)
Definition edges (a b : Z) (db : Db) : list follow_row :=
  filter (fun f => (flwer f =? a) && (flwee f =? b)) (follows db).

(** In a stream ordered by date and then time, both descending, a row of
    key [k1] may stand before a row of key [k2]. *)
Definition not_after (k1 k2 : string * string) : Prop :=
  String.compare (fst k2) (fst k1) = Lt
  \/ (fst k1 = fst k2 /\ String.compare (snd k2) (snd k1) <> Gt).

(** The follow table holds an edge from [viewer] to [w]. *)
Definition is_followed_by (db : Db) (viewer w : Z) : Prop :=
  exists f, In f (follows db) /\ flwer f = viewer /\ flwee f = w.

(** Every retweet row names a tweet of the [tweets] table. *)
Definition references_tweets (db : Db) : Prop :=
  forall r, In r (retweets db) -> In (rt_tid r) (map tid (tweets db)).

(** The retweet rows of the pair (tid, retweeter). *)
Definition mine (sql_int : string -> Z) (target : Z) (usr_ : string)
  (r : retweet_row) : bool :=
  (rt_tid r =? target) && (retweeter_id r =? sql_int usr_).

(** The rows of [include] for the triple (owner, list, tweet). *)
Definition included (owner : Z) (l : string) (target : Z) (db : Db)
  : list include_row :=
  filter (fun i => (inc_owner_id i =? owner) && String.eqb (inc_lname i) l
                   && (inc_tid i =? target))
         (include db).

(** The store after a composition went through: the tweet row, then one
    mention row for each hashtag of [Py.set hashtags]. *)
Definition composed (sql_int : string -> Z) (db : Db)
  (usr_ tweet_text : string) (hashtags : list string) (tdate_ ttime_ : string) : Db :=
  let new_tid := or_zero (Sql.max (map tid (tweets db))) + 1 in
  fold_left (fun d hashtag => add_mention (mkMention new_tid (Py.tail hashtag)) d)
            (Py.set hashtags)
            (add_tweet (mkTweet new_tid (sql_int usr_) tweet_text tdate_ ttime_ None) db).

(** Every character of [s] passes the test [p]. *)
Fixpoint all_chars (p : ascii -> bool) (s : string) : bool :=
  match s with
  | EmptyString => true
  | String c s' => p c && all_chars p s'
  end.

(** [c] is left alone by [lower]. *)
Definition is_lowered (c : ascii) : bool := Ascii.eqb (Py.lower_char c) c.

(** A hashtag found by the scanner: ['#'] and then a non-empty word. *)
Definition hashtag_shape (p : ascii -> bool) (h : string) : Prop :=
  exists w, h = String "#" w /\ w <> EmptyString /\ all_chars p w = true.

(** [kw] occurs in [txt] as a substring, up to ASCII case. *)
Fixpoint starts_with_ci (kw txt : string) : bool :=
  match kw, txt with
  | EmptyString, _ => true
  | String _ _, EmptyString => false
  | String k kw', String c txt' =>
      Ascii.eqb (Py.lower_char k) (Py.lower_char c) && starts_with_ci kw' txt'
  end.

Fixpoint occurs_ci (kw txt : string) : bool :=
  starts_with_ci kw txt
  || match txt with
     | EmptyString => false
     | String _ txt' => occurs_ci kw txt'
     end.

(** The tweet [t] has a hashtag term equal, up to ASCII case, to a keyword. *)
Definition tagged_with (keywords : list string) (db : Db) (t : tweet_row) : bool :=
  existsb (fun m => (tid t =? hm_tid m)
                    && existsb (String.eqb (Py.lower (term m))) keywords)
          (hashtag_mentions db).

(** A keyword without the wildcards of [LIKE]. *)
Definition plain_char (c : ascii) : bool :=
  negb (Ascii.eqb c "%") && negb (Ascii.eqb c "_").

(** ** More of [main.py]: sessions, listings and their prompts *)

(** [c in s] for a character [c]. *)
Fixpoint has_char (c : ascii) (s : string) : bool :=
  match s with
  | EmptyString => false
  | String d s' => Ascii.eqb d c || has_char c s'
  end.

(** [rows[start:stop]] *)
Definition slice {A : Type} (rows : list A) (start stop : nat) : list A :=
  firstn (stop - start) (skipn start rows).

(** [enumerate(xs, start=n)] *)
Definition enumerate {A : Type} (xs : list A) (n : nat) : list (nat * A) :=
  combine (seq n (List.length xs)) xs.

(** What a "select by number" prompt was answered: [q], the number of a
    row, a number that is not the number of a row, something else, or
    nothing (the lines ran out).  Only [Picked] leads on to a detail view;
    [list_followers] alone prints a message on [OutOfRange]. *)
Inductive selection (A : Type) :=
| Quit
| Picked (row : A)
| OutOfRange
| NotANumber
| NoAnswer.

Arguments Quit {A}.
Arguments Picked {A} row.
Arguments OutOfRange {A}.
Arguments NotANumber {A}.
Arguments NoAnswer {A}.

(** [if choice.isdigit(): n = int(choice); if 1 <= n <= len(rows): ...
    rows[n - 1]] *)
Definition pick {A : Type} (choice : string) (rows : list A) : selection A :=
  if Py.isdigit choice then
    let n := Py.int choice in
    if (1 <=? n) && (n <=? Z.of_nat (List.length rows)) then
      match nth_error rows (Z.to_nat (n - 1)) with
      | Some row => Picked row
      | None => OutOfRange
      end
    else OutOfRange
  else NotANumber.

(** *** The paging loop of [list_followers], [search_users] and
    [view_more_tweets]

    [batch rows start_index] is what one pass prints: the rows from
    [start_index] to [min(start_index + 5, len(rows))], numbered from
    [start_index + 1]. *)
Definition batch {A : Type} (rows : list A) (start_index : nat) : list (nat * A) :=
  let end_index := Nat.min (start_index + 5) (List.length rows) in
  enumerate (slice rows start_index end_index) (start_index + 1).

(** The loop from the prompt "see more?" on: rows up to [start_index] are
    on the screen and [start_index < len(rows)].  Returns the batches that
    were printed and the lines that were not read. *)
Fixpoint more_batches {A : Type} (rows : list A) (start_index : nat)
  (inputs : list string) : list (list (nat * A)) * list string :=
  match inputs with
  | [] => ([], [])
  | line :: rest =>
      if String.eqb (choice_of line) "y" then
        let end_index := Nat.min (start_index + 5) (List.length rows) in
        if (end_index <? List.length rows)%nat then
          let (shown, unread) := more_batches rows end_index rest in
          (batch rows start_index :: shown, unread)
        else ([batch rows start_index], rest)
      else ([], rest)
  end.

Definition paging {A : Type} (rows : list A) (inputs : list string)
  : list (list (nat * A)) * list string :=
  if (0 <? List.length rows)%nat then
    let end_index := Nat.min (0 + 5) (List.length rows) in
    if (end_index <? List.length rows)%nat then
      let (shown, unread) := more_batches rows end_index inputs in
      (batch rows 0 :: shown, unread)
    else ([batch rows 0], inputs)
  else ([], inputs).

(** *** The paging loop of [search_tweets]

    [display_tweets(start_index)], then [while len(tweets) > start_index
    + 5:] ask, stop unless the answer is [y], advance by 5 and display. *)
Definition display_tweets {A : Type} (tweets_ : list A) (start_index : nat)
  : list (nat * A) :=
  let end_index := Nat.min (start_index + 5) (List.length tweets_) in
  combine (seq (start_index + 1) (end_index - start_index))
          (slice tweets_ start_index end_index).

Fixpoint display_more {A : Type} (tweets_ : list A) (start_index : nat)
  (inputs : list string) : list (list (nat * A)) * list string :=
  if (start_index + 5 <? List.length tweets_)%nat then
    match inputs with
    | [] => ([], [])
    | line :: rest =>
        if String.eqb (choice_of line) "y" then
          let (shown, unread) := display_more tweets_ (start_index + 5) rest in
          (display_tweets tweets_ (start_index + 5) :: shown, unread)
        else ([], rest)
    end
  else ([], inputs).

Definition display_all {A : Type} (tweets_ : list A) (inputs : list string)
  : list (list (nat * A)) * list string :=
  let (shown, unread) := display_more tweets_ 0 inputs in
  (display_tweets tweets_ 0 :: shown, unread).

(** The rows that a sequence of batches put on the screen. *)
Definition rows_shown {A : Type} (batches : list (list (nat * A))) : list A :=
  map snd (List.concat batches).

(** The numbers that a sequence of batches printed in front of the rows. *)
Definition numbers_shown {A : Type} (batches : list (list (nat * A))) : list nat :=
  map fst (List.concat batches).

(** *** [sign_up]: the prompts *)

(** ['@' in email and '.' in email.split('@')[-1]] *)
Definition valid_email (email_ : string) : bool :=
  has_char "@" email_ && has_char "." (last (Py.split "@" email_) EmptyString).

(** [while True: email = input("Email: ").strip().lower(); ...] *)
Fixpoint read_email (inputs : list string) : option (string * list string) :=
  match inputs with
  | [] => None
  | line :: rest =>
      let email_ := Py.lower (Py.strip line) in
      if valid_email email_ then Some (email_, rest) else read_email rest
  end.

(** [while True: phone = input(...).strip(); if phone.isdigit(): break] *)
Fixpoint read_phone (inputs : list string) : option (string * list string) :=
  match inputs with
  | [] => None
  | line :: rest =>
      let phone_ := Py.strip line in
      if Py.isdigit phone_ then Some (phone_, rest) else read_phone rest
  end.

(** The password is asked twice, until the two answers agree. *)
Fixpoint read_password (inputs : list string) : option (string * list string) :=
  match inputs with
  | pwd_ :: confirm :: rest =>
      if String.eqb pwd_ confirm then Some (pwd_, rest) else read_password rest
  | _ => None
  end.

(** What the prompts of [sign_up] hand to the store: [None] when the lines
    run out before the form is complete. *)
Record registration := mkRegistration
  { reg_email : string; reg_phone : string; reg_name : string; reg_pwd : string }.

Definition sign_up_prompts (inputs : list string) : option registration :=
  match read_email inputs with
  | None => None
  | Some (email_, rest1) =>
      match read_phone rest1 with
      | None => None
      | Some (phone_, rest2) =>
          match rest2 with
          | [] => None
          | line :: rest3 =>
              match read_password rest3 with
              | None => None
              | Some (pwd_, _) =>
                  Some (mkRegistration email_ phone_ (Py.strip line) pwd_)
              end
          end
      end
  end.

(** The whole of [sign_up] on the lines typed by the user. *)
Definition sign_up_session (inputs : list string) (db : Db) (rj : list bool)
  : option (Db * outcome) :=
  match sign_up_prompts inputs with
  | None => None
  | Some r =>
      Some (session (sign_up (reg_email r) (reg_phone r) (reg_name r) (reg_pwd r))
                    db rj)
  end.

Inductive login_result :=
| LoginDatabaseError
| InvalidCredentials
| Welcome (user_name : string) (session_usr : string).

(** [usr, name] of [list_followers] and [search_users]. *)
Definition user_line : Type := Z * string.

(** [tid, text, tdate, ttime] of [view_user_details] and [view_more_tweets]. *)
Record tweet_line := mkTweetLine
  { l_tid : Z; l_text : string; l_tdate : string; l_ttime : string }.

Inductive more_tweets_result :=
| NoTweetsAvailable
| MoreTweetsDatabaseError
| MoreTweets (shown : list (list (nat * tweet_line))).

(** [tweet_count, follower_count, following_count] and the recent tweets. *)
Record user_details := mkDetails
  { tweet_count : Z; follower_count : Z; following_count : Z;
    recent : list tweet_line }.

(** What the menu under the details of a user led to: [1] calls
    [follow_user], [2] calls [view_more_tweets], [3] goes back, anything
    else is an invalid choice; [NoChoice] when the lines ran out. *)
Inductive menu_result :=
| FollowChosen (printed : outcome)
| MoreTweetsChosen (listing : more_tweets_result)
| WentBack
| InvalidChoice
| NoChoice.

Inductive details_result :=
| DetailsDatabaseError
| DetailsShown (details : user_details) (chosen : menu_result).

(** A listing, the selection made in it and, for a row that was picked,
    what [view_user_details] did with it. *)
Inductive followers_result :=
| NoFollowers
| FollowersDatabaseError
| FollowersListed (shown : list (list (nat * user_line))) (chosen : selection Z)
    (viewed : option details_result).

Inductive users_result :=
| NoUsersFound
| UsersDatabaseError
| UsersListed (shown : list (list (nat * user_line))) (chosen : selection Z)
    (viewed : option details_result).

Inductive lists_result :=
| NoFavoriteLists
| ListsDatabaseError
| FavoriteLists (shown : list (string * list Z)).

(** [ORDER BY users.usr] *)
Definition usr_leb (a b : user_line) : bool := fst a <=? fst b.

(** [ORDER BY LENGTH(name) ASC] *)
Definition name_length_leb (a b : user_line) : bool :=
  (String.length (snd a) <=? String.length (snd b))%nat.

Definition line_key (l : tweet_line) : string * string := (l_tdate l, l_ttime l).

Definition line_geb (a b : tweet_line) : bool :=
  Sql.desc_geb (line_key a) (line_key b).

(** [SELECT tid, text, tdate, ttime FROM tweets WHERE writer_id = ?
    ORDER BY tdate DESC, ttime DESC] *)
Definition tweets_of (target_usr : Z) (db : Db) : list tweet_line :=
  Sql.order_by line_geb
    (map (fun t => mkTweetLine (tid t) (text t) (tdate t) (ttime t))
         (filter (fun t => writer_id t =? target_usr) (tweets db))).

(** The same query with [LIMIT 3]. *)
Definition recent_tweets (target_usr : Z) (db : Db) : list tweet_line :=
  firstn 3 (tweets_of target_usr db).

(** [SELECT COUNT( * ) FROM tweets WHERE replyto_tid = ?] *)
Definition reply_count (target : Z) (db : Db) : Z :=
  Sql.count (filter (fun t => match replyto_tid t with
                              | Some r => r =? target
                              | None => false
                              end)
                    (tweets db)).

(** [view_tweet_statistics], up to its menu: the retweet count and the
    reply count, or [None] for "Database error". *)
Definition view_tweet_statistics (target : Z) : conn -> option (Z * Z) * conn :=
  run_with None connect
    (bind (select (retweet_count target))
          (fun retweets_ =>
             bind (select (reply_count target))
                  (fun replies => ret (Some (retweets_, replies))))).

(** [view_user_details], up to its menu; [None] for "Database error". *)
Definition view_user_details (target_usr : Z) : conn -> option user_details * conn :=
  run_with None connect_db
    (bind (select (fun db =>
             (Sql.count (filter (fun t => writer_id t =? target_usr) (tweets db)),
              Sql.count (filter (fun f => flwee f =? target_usr) (follows db)),
              Sql.count (filter (fun f => flwer f =? target_usr) (follows db)))))
          (fun counts =>
             bind (select (recent_tweets target_usr))
                  (fun tweets_ =>
                     ret (Some (mkDetails (fst (fst counts)) (snd (fst counts))
                                          (snd counts) tweets_))))).

(** The details of [target_usr] on the store [db]. *)
Definition details_of (target_usr : Z) (db : Db) : user_details :=
  mkDetails (Sql.count (filter (fun t => writer_id t =? target_usr) (tweets db)))
            (Sql.count (filter (fun f => flwee f =? target_usr) (follows db)))
            (Sql.count (filter (fun f => flwer f =? target_usr) (follows db)))
            (recent_tweets target_usr db).

(** [view_more_tweets] *)
Definition view_more_tweets (target_usr : Z) (inputs : list string)
  : conn -> more_tweets_result * conn :=
  run_with MoreTweetsDatabaseError connect_db
    (bind (select (tweets_of target_usr))
          (fun tweets_ =>
             if negb (nonempty tweets_) then ret NoTweetsAvailable
             else ret (MoreTweets (fst (paging tweets_ inputs))))).

(** *** [list_favorite_lists] *)

(** [lists l LEFT JOIN include i ON l.owner_id = i.owner_id AND l.lname =
    i.lname]: a list without members gives one row with a NULL tid. *)
Definition joined (db : Db) (l : list_row) : list (list_row * option Z) :=
  match filter (fun i => (owner_id l =? inc_owner_id i)
                         && String.eqb (lname l) (inc_lname i))
               (include db) with
  | [] => [(l, None)]
  | members => map (fun i => (l, Some (inc_tid i))) members
  end.

Definition left_join_include (ls : list list_row) (db : Db)
  : list (list_row * option Z) :=
  flat_map (joined db) ls.

(** [ORDER BY l.lname] *)
Definition lname_leb (a b : string * option Z) : bool :=
  String.leb (fst a) (fst b).

(** The dict [fav_lists]: a key keeps the place of its first insertion. *)
Fixpoint dict_get (d : list (string * list Z)) (k : string) : option (list Z) :=
  match d with
  | [] => None
  | (k', v) :: d' => if String.eqb k' k then Some v else dict_get d' k
  end.

Fixpoint dict_append (d : list (string * list Z)) (k : string) (x : Z)
  : list (string * list Z) :=
  match d with
  | [] => []
  | (k', v) :: d' =>
      if String.eqb k' k then (k', v ++ [x]) :: d'
      else (k', v) :: dict_append d' k x
  end.

(** [if tid:]: NULL and 0 are false. *)
Definition tid_truthy (t : option Z) : option Z :=
  match t with
  | Some x => if x =? 0 then None else Some x
  | None => None
  end.

(** [for list_name, tid in results: ...] *)
Definition group_step (d : list (string * list Z)) (row : string * option Z)
  : list (string * list Z) :=
  let d1 := match dict_get d (fst row) with
            | None => d ++ [(fst row, [])]
            | Some _ => d
            end in
  match tid_truthy (snd row) with
  | Some x => dict_append d1 (fst row) x
  | None => d1
  end.

Definition group_lists (results : list (string * option Z)) : list (string * list Z) :=
  fold_left group_step results [].

Section Listings.

Variable sql_int : string -> Z.

(** What the store makes of a text bound against the integer column
    [usr]: [Some n] when the text reads as a number equal to the integer
    [n], [None] when the text stays a text, which equals no integer.  The
    line typed at the prompt of [login] is any text. *)
Variable sql_num : string -> option Z.

(** [WHERE usr = ? AND pwd = ?] *)
Definition credentials (usr_ pwd_ : string) (u : user_row) : bool :=
  match sql_num usr_ with
  | Some n => usr u =? n
  | None => false
  end && String.eqb (pwd u) pwd_.

(** *** [login], up to the call of [user_menu]

    [user[1]] is the name: the columns of [users] come in the order of the
    [INSERT] of [sign_up]. *)
Definition login (id_line pwd_ : string) : conn -> login_result * conn :=
  let usr_ := Py.strip id_line in
  run_with LoginDatabaseError connect_db
    (bind (select (fun db => find (credentials usr_ pwd_) (users db)))
          (fun user =>
             match user with
             | Some u => ret (Welcome (name u) usr_)
             | None => ret InvalidCredentials
             end)).

(** *** [list_followers] *)

(** [follows JOIN users ON follows.flwer = users.usr WHERE flwee = ?
    ORDER BY users.usr] *)
Definition followers_query (current_usr : string) (db : Db) : list user_line :=
  Sql.order_by usr_leb
    (map (fun fu => (usr (snd fu), name (snd fu)))
         (filter (fun fu => flwee (fst fu) =? sql_int current_usr)
                 (filter (fun fu => flwer (fst fu) =? usr (snd fu))
                         (list_prod (follows db) (users db))))).

(** *** [view_user_details], the whole of it

    The counts and the recent tweets, as in [view_user_details] above,
    then the menu: the call of [follow_user] or of [view_more_tweets] runs
    on a connection of its own while this one is open.  [today] is the
    [DATE('now')] of [follow_user]. *)
Definition view_user_details_menu (target_usr : Z) (current_usr today : string)
  (inputs : list string) : conn -> details_result * conn :=
  run_with DetailsDatabaseError connect_db
    (bind (select (fun db =>
             (Sql.count (filter (fun t => writer_id t =? target_usr) (tweets db)),
              Sql.count (filter (fun f => flwee f =? target_usr) (follows db)),
              Sql.count (filter (fun f => flwer f =? target_usr) (follows db)))))
          (fun counts =>
             bind (select (recent_tweets target_usr))
                  (fun tweets_ =>
                     let details :=
                       mkDetails (fst (fst counts)) (snd (fst counts)) (snd counts)
                                 tweets_ in
                     match inputs with
                     | [] => ret (DetailsShown details NoChoice)
                     | line :: rest =>
                         let choice := Py.strip line in
                         if String.eqb choice "1" then
                           bind (nested (follow_user sql_int current_usr target_usr today))
                                (fun printed =>
                                   ret (DetailsShown details (FollowChosen printed)))
                         else if String.eqb choice "2" then
                           bind (nested (view_more_tweets target_usr rest))
                                (fun listing =>
                                   ret (DetailsShown details (MoreTweetsChosen listing)))
                         else if String.eqb choice "3" then
                           ret (DetailsShown details WentBack)
                         else ret (DetailsShown details InvalidChoice)
                     end))).

Definition list_followers (current_usr today : string) (inputs : list string)
  : conn -> followers_result * conn :=
  run_with FollowersDatabaseError connect_db
    (bind (select (followers_query current_usr))
          (fun followers =>
             if negb (nonempty followers) then ret NoFollowers
             else
               let (shown, unread) := paging followers inputs in
               match unread with
               | [] => ret (FollowersListed shown NoAnswer None)
               | line :: rest =>
                   let choice := choice_of line in
                   if String.eqb choice "q" then ret (FollowersListed shown Quit None)
                   else
                     match pick choice (map fst followers) with
                     | Picked selected_usr =>
                         bind (nested (view_user_details_menu selected_usr current_usr
                                                              today rest))
                              (fun viewed =>
                                 ret (FollowersListed shown (Picked selected_usr)
                                                      (Some viewed)))
                     | chosen => ret (FollowersListed shown chosen None)
                     end
               end)).

(** *** [search_users] *)

(** [WHERE name COLLATE NOCASE LIKE ? ORDER BY LENGTH(name) ASC], with the
    parameter ["%" + keyword + "%"]. *)
Definition users_query (keyword : string) (db : Db) : list user_line :=
  Sql.order_by name_length_leb
    (map (fun u => (usr u, name u))
         (filter (fun u => Sql.like (String "%" (keyword ++ "%")%string) (name u))
                 (users db))).

Definition search_users (usr_ today keyword_line : string) (inputs : list string)
  : conn -> users_result * conn :=
  let keyword := Py.lower (Py.strip keyword_line) in
  run_with UsersDatabaseError connect_db
    (bind (select (users_query keyword))
          (fun found =>
             if negb (nonempty found) then ret NoUsersFound
             else
               let (shown, unread) := paging found inputs in
               match unread with
               | [] => ret (UsersListed shown NoAnswer None)
               | line :: rest =>
                   let user_choice := Py.strip line in
                   if String.eqb (Py.lower user_choice) "q"
                   then ret (UsersListed shown Quit None)
                   else
                     match pick user_choice (map fst found) with
                     | Picked selected_user_id =>
                         bind (nested (view_user_details_menu selected_user_id usr_
                                                              today rest))
                              (fun viewed =>
                                 ret (UsersListed shown (Picked selected_user_id)
                                                  (Some viewed)))
                     | chosen => ret (UsersListed shown chosen None)
                     end
               end)).

(** *** [list_favorite_lists] *)
(** [SELECT l.lname, i.tid ... WHERE l.owner_id = ?], before [ORDER BY],
    over the rows [ls] of [lists]. *)
Definition favorite_rows_of (usr_ : string) (ls : list list_row) (db : Db)
  : list (string * option Z) :=
  map (fun li : list_row * option Z => (lname (fst li), snd li))
      (filter (fun li : list_row * option Z => owner_id (fst li) =? sql_int usr_)
              (left_join_include ls db)).

Definition favorite_rows (usr_ : string) (db : Db) : list (string * option Z) :=
  Sql.order_by lname_leb (favorite_rows_of usr_ (lists db) db).

Definition list_favorite_lists (usr_ : string) : conn -> lists_result * conn :=
  run_with ListsDatabaseError connect
    (bind (select (favorite_rows usr_))
          (fun results =>
             if negb (nonempty results) then ret NoFavoriteLists
             else ret (FavoriteLists (group_lists results)))).

End Listings.

(** *** [search_tweets]: the pages and the selection that follow the query *)
Definition search_selection (found : list search_row) (inputs : list string)
  : list (list (nat * search_row)) * selection Z :=
  let (shown, unread) := display_all found inputs in
  (shown,
   match unread with
   | [] => NoAnswer
   | line :: _ =>
       let tweet_choice := Py.strip line in
       if String.eqb (Py.lower tweet_choice) "q" then Quit
       else pick tweet_choice (map s_tid found)
   end).

(** The reading of the store on the texts of digits, which it reads as the
    number they spell.  SQLite also reads texts such as [+7] or [7.0] as
    numbers; this reading is for sessions whose lines are made of digits,
    or are no number at all. *)
Definition num_of_digits (s : string) : option Z :=
  if Py.isdigit s then Some (Py.int s) else None.

(** The tids that the loop of [list_favorite_lists] appends under the key
    [k]: those of the rows named [k] that pass [if tid:]. *)
Definition tids_for (k : string) (results : list (string * option Z)) : list Z :=
  flat_map (fun row => if String.eqb (fst row) k
                       then match tid_truthy (snd row) with
                            | Some x => [x]
                            | None => []
                            end
                       else [])
           results.

(** The user of the session [usr_] owns a list named [l]. *)
Definition has_list (sql_int : string -> Z) (usr_ : string) (l : string) (db : Db)
  : bool :=
  existsb (fun r => (owner_id r =? sql_int usr_) && String.eqb (lname r) l) (lists db).

(** The second half of [add_to_favorite_list]: the lists are on the
    screen, the user selects one and the tweet is added to it. *)
Definition select_and_add (sql_int : string -> Z) (usr_ : string) (target : Z)
  (choice_line : string) (fav_lists : list string) : Txn outcome :=
  match fav_lists with
  | [] => ret NoListToAddTo
  | _ :: _ =>
      let list_choice := Py.strip choice_line in
      if String.eqb (Py.lower list_choice) "q" then ret SelectionCancelled
      else if Py.isdigit list_choice then
        let list_idx := Py.int list_choice - 1 in
        if (0 <=? list_idx) && (list_idx <? Z.of_nat (List.length fav_lists))
        then
          match nth_error fav_lists (Z.to_nat list_idx) with
          | None => ret SelectionIgnored
          | Some chosen =>
              bind (select (fun db =>
                      existsb (fun i => (inc_owner_id i =? sql_int usr_)
                                        && String.eqb (inc_lname i) chosen
                                        && (inc_tid i =? target))
                              (include db)))
                   (fun found =>
                      if found then ret AlreadyInList
                      else
                        bind (insert (add_include (mkInclude (sql_int usr_) chosen target)))
                             (fun _ => bind commit (fun _ => ret (TweetAdded chosen))))
          end
        else ret SelectionIgnored
      else ret SelectionIgnored
  end.

(** ** The keys and links of the store

    The identities the program relies on: user ids, tweet ids, the pairs
    of [retweets] and [follows], the pairs of [hashtag_mentions], the
    pairs of [lists] and the triples of [include] occur once; a retweet
    and a mention name a tweet of [tweets]; a membership names a list of
    its owner. *)
Record consistent (db : Db) : Prop := mkConsistent
  { key_users : NoDup (map usr (users db));
    key_tweets : NoDup (map tid (tweets db));
    key_retweets : NoDup (map (fun r => (rt_tid r, retweeter_id r)) (retweets db));
    key_follows : NoDup (map (fun f => (flwer f, flwee f)) (follows db));
    key_mentions : NoDup (map (fun m => (hm_tid m, term m)) (hashtag_mentions db));
    key_lists : NoDup (map (fun l => (owner_id l, lname l)) (lists db));
    key_include :
      NoDup (map (fun i => (inc_owner_id i, inc_lname i, inc_tid i)) (include db));
    link_retweets : references_tweets db;
    link_mentions :
      forall m, In m (hashtag_mentions db) -> In (hm_tid m) (map tid (tweets db));
    link_include :
      forall i, In i (include db) ->
                In (inc_owner_id i, inc_lname i)
                   (map (fun l => (owner_id l, lname l)) (lists db)) }.

(** The store [db'] is [db] with the one edge of a follow of [target_usr]
    that [follow_user] admits for the session [current_usr]. *)
Definition followed (sql_int : string -> Z) (current_usr today : string) (db : Db)
  (target_usr : Z) (db' : Db) : Prop :=
  current_usr <> Py.str target_usr
  /\ edges (sql_int current_usr) target_usr db = []
  /\ db' = add_follow (mkFollow (sql_int current_usr) target_usr today) db.

(** No follow edge leads from a user to themselves. *)
Definition no_self_follow (db : Db) : Prop :=
  forall f, In f (follows db) -> flwer f <> flwee f.

(** ** A small store to run the engine on

    Ann (3) follows Bob (7) and Cy (5).  Bob and Cy wrote seven tweets
    between them, Ann one; Cy retweeted tweet 1, and Bob's retweet of
    tweet 2 is flagged as spam.  Ann owns the list [favs]. *)
Definition example_db : Db :=
  mkDb
    [ mkUser 3 "Ann" "ann@x.org" "100" "pw";
      mkUser 7 "Bob" "bob@x.org" "200" "pw";
      mkUser 5 "Cy" "cy@x.org" "300" "pw" ]
    [ mkTweet 1 7 "hello #world" "2024-03-01" "09:00:00" None;
      mkTweet 2 5 "second" "2024-03-02" "08:00:00" None;
      mkTweet 3 3 "mine" "2024-03-02" "08:30:00" None;
      mkTweet 4 7 "third" "2024-03-02" "10:00:00" None;
      mkTweet 5 5 "fourth" "2024-03-03" "07:00:00" None;
      mkTweet 6 7 "fifth" "2024-03-04" "07:00:00" (Some 1);
      mkTweet 7 5 "sixth" "2024-03-05" "07:00:00" None;
      mkTweet 8 7 "seventh" "2024-03-06" "07:00:00" None ]
    [ mkRetweet 1 5 7 0 "2024-03-02";
      mkRetweet 2 7 5 1 "2024-03-03" ]
    [ mkFollow 3 7 "2024-02-01"; mkFollow 3 5 "2024-02-02" ]
    [ mkMention 1 "world" ]
    [ mkList 3 "favs" ]
    [].

(** A store with one tweet and no hashtag. *)
Definition one_tweet_db : Db :=
  mkDb [] [mkTweet 1 2 "hi" "2024-01-01" "10:00:00" None] [] [] [] [] [].

(** A store with favourite lists: Ann (3) owns [todo], holding tweet 2 and
    a tid 0, and the empty list [best]; Bob (7) owns a list [best] with
    tweet 1. *)
Definition shelf_db : Db :=
  mkDb
    [ mkUser 3 "Ann" "ann@x.org" "100" "pw";
      mkUser 7 "Bob" "bob@x.org" "200" "pw" ]
    [ mkTweet 1 7 "hello" "2024-03-01" "09:00:00" None;
      mkTweet 2 7 "again" "2024-03-02" "08:00:00" None ]
    []
    []
    []
    [ mkList 3 "todo"; mkList 3 "best"; mkList 7 "best" ]
    [ mkInclude 3 "todo" 2; mkInclude 3 "todo" 0; mkInclude 7 "best" 1 ].

(** A store where Ann (1) has six followers. *)
Definition crowd_db : Db :=
  mkDb
    [ mkUser 1 "Ann" "ann@x.org" "100" "pw";
      mkUser 2 "Bo" "bo@x.org" "200" "pw";
      mkUser 3 "Cyril" "cy@x.org" "300" "pw";
      mkUser 4 "Dee" "dee@x.org" "400" "pw";
      mkUser 5 "Ed" "ed@x.org" "500" "pw";
      mkUser 6 "Florence" "flo@x.org" "600" "pw";
      mkUser 7 "Gus" "gus@x.org" "700" "pw" ]
    []
    []
    [ mkFollow 7 1 "2024-02-01"; mkFollow 2 1 "2024-02-02";
      mkFollow 3 1 "2024-02-03"; mkFollow 4 1 "2024-02-04";
      mkFollow 6 1 "2024-02-05"; mkFollow 5 1 "2024-02-06" ]
    []
    []
    [].

(** * Properties *)

(** ** The text helpers on sample inputs *)

Example py_str_examples :
  Py.str 7 = "7"%string /\ Py.str 0 = "0"%string /\ Py.str (-12) = "-12"%string.
Proof. repeat split; reflexivity. Qed.

Example py_strip_example : Py.strip "  #Go #go  "%string = "#Go #go"%string.
Proof. reflexivity. Qed.

Example py_split_example :
  Py.split "," "a,,b ,"%string = ["a"; ""; "b "; ""]%string.
Proof. reflexivity. Qed.

Example py_findall_example :
  Py.findall_hashtags (Py.lower "#Go#go ##x #a_B1 # done"%string)
  = ["#go"; "#go"; "#x"; "#a_b1"]%string.
Proof. reflexivity. Qed.

Example sql_like_examples :
  Sql.like "%go%" "let's go!" = true /\ Sql.like "%a_c%" "xabcx" = true
  /\ Sql.like "%go%" "g o" = false /\ Sql.like "%" "" = true.
Proof. repeat split; reflexivity. Qed.

(** ** Identifier assignment *)

Lemma sql_max_nil_iff (ids : list Z) : Sql.max ids = None <-> ids = [].
Proof.
  destruct ids as [|x ids]; simpl; [tauto|].
  destruct (Sql.max ids); split; discriminate.
Qed.

Lemma sql_max_is_max (ids : list Z) (m : Z) :
  Sql.max ids = Some m -> is_max m ids.
Proof.
  revert m; induction ids as [|x ids IH]; simpl; intros m H; [discriminate|].
  destruct (Sql.max ids) as [m'|] eqn:E.
  - injection H as <-. destruct (IH m' eq_refl) as [Hin Hub]. split.
    + destruct (Z.max_spec x m') as [[_ ->]|[_ ->]]; [now right | now left].
    + intros y [<-|Hy]; [lia|]. specialize (Hub y Hy). lia.
  - injection H as <-. apply sql_max_nil_iff in E. subst ids. split.
    + now left.
    + intros y [<-|[]]. lia.
Qed.

Lemma is_max_unique (ids : list Z) (m m' : Z) :
  is_max m ids -> is_max m' ids -> m = m'.
Proof.
  intros [Hin Hub] [Hin' Hub']. specialize (Hub _ Hin'). specialize (Hub' _ Hin). lia.
Qed.

Lemma new_usr_spec (ids : list Z) :
  (ids = [] -> new_usr (Sql.max ids) = 1)
  /\ (forall m, is_max m ids -> new_usr (Sql.max ids) = m + 1).
Proof.
  split.
  - intros ->. reflexivity.
  - intros m Hm. destruct (Sql.max ids) as [m'|] eqn:E.
    + rewrite (is_max_unique _ _ _ Hm (sql_max_is_max _ _ E)). simpl.
      destruct (Z.eqb_spec m' 0) as [->|]; reflexivity.
    + apply sql_max_nil_iff in E. subst ids. destruct Hm as [[] _].
Qed.

Lemma or_zero_spec (ids : list Z) :
  (ids = [] -> or_zero (Sql.max ids) + 1 = 1)
  /\ (forall m, is_max m ids -> or_zero (Sql.max ids) + 1 = m + 1).
Proof.
  split.
  - intros ->. reflexivity.
  - intros m Hm. destruct (Sql.max ids) as [m'|] eqn:E.
    + now rewrite (is_max_unique _ _ _ Hm (sql_max_is_max _ _ E)).
    + apply sql_max_nil_iff in E. subst ids. destruct Hm as [[] _].
Qed.

(** C8. Ids are assigned by max-plus-one, per table: a sign-up that the
    store accepts creates the user under id 1 when [users] is empty and
    under [m + 1] when [m] is the greatest user id; [get_new_tid] answers 1
    when [tweets] is empty and [m + 1] when [m] is the greatest tweet id.
    Each id is a function of its own table only. *)
Theorem id_assignment_max_plus_one
  (db : Db) (email_ phone_ name_ pwd_ : string) :
  (exists uid,
      session (sign_up email_ phone_ name_ pwd_) db []
      = (add_user (mkUser uid name_ email_ phone_ pwd_) db,
         RegistrationSuccessful uid)
      /\ (users db = [] -> uid = 1)
      /\ (forall m, is_max m (map usr (users db)) -> uid = m + 1)
      /\ (is_max 7 (map usr (users db)) -> uid = 8))
  /\ (exists new_tid,
         get_new_tid (fresh_conn db []) = (Some new_tid, fresh_conn db [])
         /\ (tweets db = [] -> new_tid = 1)
         /\ (forall m, is_max m (map tid (tweets db)) -> new_tid = m + 1)
         /\ (is_max 7 (map tid (tweets db)) -> new_tid = 8)).
Proof.
  split.
  - exists (new_usr (Sql.max (map usr (users db)))).
    destruct (new_usr_spec (map usr (users db))) as [H0 Hm].
    split; [reflexivity|]. repeat split.
    + intros E. apply H0. now rewrite E.
    + exact Hm.
    + intros H7. now rewrite (Hm 7 H7).
  - exists (or_zero (Sql.max (map tid (tweets db))) + 1).
    destruct (or_zero_spec (map tid (tweets db))) as [H0 Hm].
    split; [reflexivity|]. repeat split.
    + intros E. apply H0. now rewrite E.
    + exact Hm.
    + intros H7. now rewrite (Hm 7 H7).
Qed.

(** ** Running a transaction that the store accepts *)

Ltac run_txn :=
  unfold session, run_with, run_close, connect_db, connect, select, insert,
    commit, bind, ret, statement, fresh_conn; cbn.

(** ** Following *)

Lemma edges_add_follow (a b : Z) (f : follow_row) (db : Db) :
  edges a b (add_follow f db)
  = edges a b db ++ (if (flwer f =? a) && (flwee f =? b) then [f] else []).
Proof. unfold edges, add_follow. cbn. now rewrite filter_app. Qed.

Lemma existsb_filter_nil {A : Type} (p : A -> bool) (l : list A) :
  existsb p l = false <-> filter p l = [].
Proof.
  induction l as [|x l IH]; cbn; [tauto|].
  destruct (p x); cbn; [split; discriminate | exact IH].
Qed.

Section Follow.

Variable sql_int : string -> Z.

Lemma follow_user_self (db : Db) (rj : list bool) (target_usr : Z) (today : string) :
  session (follow_user sql_int (Py.str target_usr) target_usr today) db rj
  = (db, CannotFollowYourself).
Proof. unfold follow_user. now rewrite String.eqb_refl. Qed.

Lemma follow_user_new (db : Db) (current_usr : string) (target_usr : Z)
  (today : string) :
  current_usr <> Py.str target_usr ->
  edges (sql_int current_usr) target_usr db = [] ->
  session (follow_user sql_int current_usr target_usr today) db []
  = (add_follow (mkFollow (sql_int current_usr) target_usr today) db, NowFollowing).
Proof.
  intros Hne Hnone. unfold follow_user.
  apply String.eqb_neq in Hne. rewrite Hne.
  apply existsb_filter_nil in Hnone. run_txn. now rewrite Hnone.
Qed.

Lemma follow_user_again (db : Db) (current_usr : string) (target_usr : Z)
  (today : string) :
  current_usr <> Py.str target_usr ->
  edges (sql_int current_usr) target_usr db <> [] ->
  session (follow_user sql_int current_usr target_usr today) db []
  = (db, AlreadyFollowing).
Proof.
  intros Hne Hsome. unfold follow_user.
  apply String.eqb_neq in Hne. rewrite Hne. run_txn.
  destruct (existsb _ (follows db)) eqn:E; [reflexivity|].
  apply existsb_filter_nil in E. contradiction.
Qed.

End Follow.

(** X28. Following, for a session whose id is the text [Py.str] gives the
    followee's id: the request is turned away whatever the follow table
    holds, and before the store is reached.  For any other session a follow
    that finds no edge appends the edge [(follower, followee, today)], and
    issuing the same follow a second time changes nothing: where the pair
    had at most one edge before, it has exactly one after the two calls. *)
Lemma follow_user_admission
  (sql_int : string -> Z) (db : Db) (rj : list bool)
  (current_usr : string) (target_usr : Z) (today today' : string) :
  session (follow_user sql_int (Py.str target_usr) target_usr today) db rj
  = (db, CannotFollowYourself)
  /\ (current_usr <> Py.str target_usr ->
      (edges (sql_int current_usr) target_usr db = [] ->
       session (follow_user sql_int current_usr target_usr today) db []
       = (add_follow (mkFollow (sql_int current_usr) target_usr today) db,
          NowFollowing))
      /\ ((List.length (edges (sql_int current_usr) target_usr db) <= 1)%nat ->
          let db1 := fst (session (follow_user sql_int current_usr target_usr today) db []) in
          let (db2, again) :=
            session (follow_user sql_int current_usr target_usr today') db1 [] in
          db2 = db1 /\ again = AlreadyFollowing
          /\ List.length (edges (sql_int current_usr) target_usr db2) = 1%nat)).
Proof.
  split; [apply follow_user_self|].
  intros Hne. split; [now apply follow_user_new|].
  intros Hle.
  destruct (edges (sql_int current_usr) target_usr db) as [|f fs] eqn:E.
  - rewrite (follow_user_new sql_int db current_usr target_usr today Hne E). cbn [fst].
    assert (E1 : edges (sql_int current_usr) target_usr
                   (add_follow (mkFollow (sql_int current_usr) target_usr today) db)
                 = [mkFollow (sql_int current_usr) target_usr today]).
    { rewrite edges_add_follow, E. cbn. now rewrite !Z.eqb_refl. }
    rewrite follow_user_again; [|assumption|rewrite E1; discriminate].
    rewrite E1. auto.
  - assert (Hsome : edges (sql_int current_usr) target_usr db <> [])
      by (rewrite E; discriminate).
    rewrite (follow_user_again sql_int db current_usr target_usr today Hne Hsome).
    cbn [fst].
    rewrite (follow_user_again sql_int db current_usr target_usr today' Hne Hsome).
    rewrite E in *. cbn in *. repeat split. lia.
Qed.

(** C6. Following oneself under another spelling of one's id.  The
    session id is the text typed at login, and the store reads the text
    [007] bound against an integer column as the integer 7: that is how
    login finds user 7, and what the follow table records.  For that
    session [follow_user] compares ["007"] with [str(7)], finds them
    different, and appends the edge from user 7 to user 7. *)
Theorem follow_user_respelled_self :
  int_of_digits "007" = 7
  /\ Py.str 7 = "7"%string
  /\ session (follow_user int_of_digits "007" 7 "2024-04-01") example_db []
     = (add_follow (mkFollow 7 7 "2024-04-01") example_db, NowFollowing)
  /\ session (follow_user int_of_digits "7" 7 "2024-04-01") example_db []
     = (example_db, CannotFollowYourself).
Proof. repeat split; reflexivity. Qed.

(** ** Retweeting *)

Lemma hd_error_map_filter {A B : Type} (f : A -> B) (p : A -> bool) (l : list A) :
  hd_error (map f (filter p l)) = option_map f (find p l).
Proof.
  induction l as [|x l IH]; cbn; [reflexivity|]. now destruct (p x).
Qed.

Lemma find_none_not_in (target : Z) (l : list tweet_row) :
  ~ In target (map tid l) -> find (fun t => tid t =? target) l = None.
Proof.
  induction l as [|x l IH]; cbn; intros H; [reflexivity|].
  destruct (Z.eqb_spec (tid x) target) as [E|_]; [tauto|]. apply IH. tauto.
Qed.

Lemma count_pos_iff {A : Type} (l : list A) : (0 <? Sql.count l) = nonempty l.
Proof. destruct l; reflexivity. Qed.

Lemma retweet_count_add (target : Z) (r : retweet_row) (db : Db) :
  retweet_count target (add_retweet r db)
  = retweet_count target db + (if rt_tid r =? target then 1 else 0).
Proof.
  unfold retweet_count, Sql.count, add_retweet. cbn.
  rewrite filter_app, length_app. cbn.
  destruct (rt_tid r =? target); cbn; lia.
Qed.

Section Retweet.

Variable sql_int : string -> Z.

Lemma retweet_duplicate (db : Db) (target : Z) (usr_ rdate_ : string) :
  filter (mine sql_int target usr_) (retweets db) <> [] ->
  session (retweet sql_int target usr_ rdate_) db [] = (db, AlreadyRetweeted).
Proof.
  intros H. unfold retweet. run_txn. rewrite count_pos_iff.
  fold (mine sql_int target usr_).
  destruct (filter (mine sql_int target usr_) (retweets db)); [contradiction|reflexivity].
Qed.

Lemma retweet_not_found (db : Db) (target : Z) (usr_ rdate_ : string) :
  filter (mine sql_int target usr_) (retweets db) = [] ->
  ~ In target (map tid (tweets db)) ->
  session (retweet sql_int target usr_ rdate_) db [] = (db, TweetNotFound target).
Proof.
  intros Hnone Habsent. unfold retweet. run_txn. rewrite count_pos_iff.
  fold (mine sql_int target usr_). rewrite Hnone. cbn.
  rewrite hd_error_map_filter, (find_none_not_in _ _ Habsent). reflexivity.
Qed.

Lemma retweet_posted (db : Db) (target : Z) (usr_ rdate_ : string) (t : tweet_row) :
  filter (mine sql_int target usr_) (retweets db) = [] ->
  find (fun t => tid t =? target) (tweets db) = Some t ->
  session (retweet sql_int target usr_ rdate_) db []
  = (add_retweet (mkRetweet target (sql_int usr_) (writer_id t) 0 rdate_) db,
     RetweetPosted).
Proof.
  intros Hnone Hfound. unfold retweet. run_txn. rewrite count_pos_iff.
  fold (mine sql_int target usr_). rewrite Hnone. cbn.
  rewrite hd_error_map_filter, Hfound. reflexivity.
Qed.

Lemma no_row_for_missing_tweet (db : Db) (target : Z) (usr_ : string) :
  references_tweets db ->
  ~ In target (map tid (tweets db)) ->
  filter (mine sql_int target usr_) (retweets db) = [].
Proof.
  intros Href Habsent.
  destruct (filter (mine sql_int target usr_) (retweets db)) as [|r rs] eqn:E; [reflexivity|].
  assert (Hr : In r (filter (mine sql_int target usr_) (retweets db)))
    by (rewrite E; now left).
  apply filter_In in Hr. destruct Hr as [Hin Hmine].
  unfold mine in Hmine. apply andb_true_iff in Hmine. destruct Hmine as [Ht _].
  apply Z.eqb_eq in Ht. specialize (Href r Hin). rewrite Ht in Href. contradiction.
Qed.

End Retweet.

(** C4. Retweet admission.  With retweet rows that name existing tweets, a
    target id that is not in [tweets] is answered "not found" and the store
    is left as it was.  A pair (tid, retweeter) that already has a row is
    answered "already retweeted" and the store is left as it was.  Otherwise
    one row is appended, with spam 0, the current date and the writer of
    the target tweet; a second retweet by the same user then changes
    nothing, and a tweet that had no retweet has a retweet count of 1
    before and after that second call. *)
Theorem retweet_admission
  (sql_int : string -> Z) (db : Db) (target : Z) (usr_ rdate_ rdate' : string) :
  (references_tweets db ->
   ~ In target (map tid (tweets db)) ->
   session (retweet sql_int target usr_ rdate_) db [] = (db, TweetNotFound target))
  /\ (filter (mine sql_int target usr_) (retweets db) <> [] ->
      session (retweet sql_int target usr_ rdate_) db [] = (db, AlreadyRetweeted))
  /\ (forall t,
         filter (mine sql_int target usr_) (retweets db) = [] ->
         find (fun t => tid t =? target) (tweets db) = Some t ->
         let db1 :=
           add_retweet (mkRetweet target (sql_int usr_) (writer_id t) 0 rdate_) db in
         session (retweet sql_int target usr_ rdate_) db [] = (db1, RetweetPosted)
         /\ session (retweet sql_int target usr_ rdate') db1 [] = (db1, AlreadyRetweeted)
         /\ List.length (filter (mine sql_int target usr_) (retweets db1)) = 1%nat
         /\ (retweet_count target db = 0 -> retweet_count target db1 = 1)).
Proof.
  split; [|split].
  - intros Href Habsent. apply retweet_not_found; [|assumption].
    now apply no_row_for_missing_tweet.
  - apply retweet_duplicate.
  - intros t Hnone Hfound db1.
    assert (Hrows : filter (mine sql_int target usr_) (retweets db1)
                    = [mkRetweet target (sql_int usr_) (writer_id t) 0 rdate_]).
    { unfold db1, add_retweet. cbn. rewrite filter_app, Hnone. cbn.
      unfold mine. cbn. now rewrite !Z.eqb_refl. }
    split; [now apply retweet_posted|]. split; [|split].
    + apply retweet_duplicate. rewrite Hrows. discriminate.
    + now rewrite Hrows.
    + intros H0. unfold db1. rewrite retweet_count_add, H0. cbn.
      now rewrite Z.eqb_refl.
Qed.

(** ** Favourite lists *)

Lemma digit_lower_char (c : ascii) :
  Py.isdigit_char c = true -> Py.lower_char c = c /\ c <> "q"%char.
Proof.
  unfold Py.isdigit_char, Py.lower_char, Py.isupper_char. intros H.
  apply andb_true_iff in H. destruct H as [H1 H2].
  apply Nat.leb_le in H1. apply Nat.leb_le in H2. split.
  - destruct (65 <=? nat_of_ascii c)%nat eqn:E; [|reflexivity].
    apply Nat.leb_le in E. lia.
  - intros ->. cbn in H2. lia.
Qed.

Lemma isdigit_not_q (s : string) :
  Py.isdigit s = true -> String.eqb (Py.lower s) "q" = false.
Proof.
  unfold Py.isdigit. destruct s as [|c s]; cbn; [discriminate|].
  intros H. apply andb_true_iff in H. destruct H as [Hc _].
  destruct (digit_lower_char c Hc) as [-> Hq].
  apply Ascii.eqb_neq in Hq. now rewrite Hq.
Qed.

Section Favorites.

Variable sql_int : string -> Z.

Lemma add_to_existing_list (db : Db) (usr_ : string) (target : Z)
  (name_line choice_line : string) (k : nat) (chosen : string) :
  nth_error (lists_of sql_int usr_ db) k = Some chosen ->
  Py.isdigit (Py.strip choice_line) = true ->
  Py.int (Py.strip choice_line) = Z.of_nat k + 1 ->
  included (sql_int usr_) chosen target db = [] ->
  session (add_to_favorite_list sql_int usr_ target name_line choice_line) db []
  = (add_include (mkInclude (sql_int usr_) chosen target) db, TweetAdded chosen).
Proof.
  intros Hnth Hdigit Hint Hnew.
  assert (Hlen : (k < List.length (lists_of sql_int usr_ db))%nat)
    by (apply nth_error_Some; rewrite Hnth; discriminate).
  unfold add_to_favorite_list. run_txn.
  destruct (lists_of sql_int usr_ db) as [|l0 ls] eqn:El; [cbn in Hlen; lia|].
  cbn. rewrite (isdigit_not_q _ Hdigit), Hdigit, Hint.
  replace (Z.of_nat k + 1 - 1) with (Z.of_nat k) by lia.
  rewrite Nat2Z.id.
  destruct (0 <=? Z.of_nat k) eqn:E0; [|apply Z.leb_gt in E0; lia].
  cbn in Hlen.
  match goal with
  | |- context [Z.of_nat k <? ?n] => destruct (Z.ltb_spec (Z.of_nat k) n); [|lia]
  end.
  cbn [andb]. rewrite Hnth.
  apply existsb_filter_nil in Hnew. unfold included in Hnew. cbn.
  rewrite Hnew. reflexivity.
Qed.

End Favorites.

(** C10. Adding to a favourite list never looks the tweet id up: for a
    tweet id that is not in [tweets], once the user picks one of their
    lists by its number and the triple (owner, list, tid) has no row yet,
    the call reports success and the membership row is appended: [include]
    is what it was with the row (owner, list, tid) at its end, the triple
    has that one row, and [tweets] is as before, still without the tid. *)
Theorem add_to_favorite_list_no_tweet_check
  (sql_int : string -> Z) (db : Db) (usr_ : string) (target : Z)
  (name_line choice_line : string) (k : nat) (chosen : string) :
  ~ In target (map tid (tweets db)) ->
  nth_error (lists_of sql_int usr_ db) k = Some chosen ->
  Py.isdigit (Py.strip choice_line) = true ->
  Py.int (Py.strip choice_line) = Z.of_nat k + 1 ->
  included (sql_int usr_) chosen target db = [] ->
  let (db', printed) :=
    session (add_to_favorite_list sql_int usr_ target name_line choice_line) db [] in
  printed = TweetAdded chosen
  /\ db' = add_include (mkInclude (sql_int usr_) chosen target) db
  /\ include db' = include db ++ [mkInclude (sql_int usr_) chosen target]
  /\ included (sql_int usr_) chosen target db' = [mkInclude (sql_int usr_) chosen target]
  /\ tweets db' = tweets db
  /\ ~ In target (map tid (tweets db')).
Proof.
  intros Habsent Hnth Hdigit Hint Hnew.
  rewrite (add_to_existing_list sql_int db usr_ target name_line choice_line k chosen
             Hnth Hdigit Hint Hnew).
  split; [reflexivity|]. split; [reflexivity|]. split; [reflexivity|].
  split; [|split; [reflexivity|exact Habsent]].
  unfold included in *. cbn [include add_include]. rewrite filter_app, Hnew.
  cbn [filter inc_owner_id inc_lname inc_tid app].
  now rewrite !Z.eqb_refl, String.eqb_refl.
Qed.

(** ** Composing a tweet *)

Lemma duplicates_nil_iff (l : list string) : duplicates l = [] <-> NoDup l.
Proof.
  unfold duplicates, Py.count. rewrite (NoDup_count_occ string_dec). split.
  - intros H x. destruct (in_dec string_dec x l) as [Hin|Hout].
    + destruct (1 <? count_occ string_dec l x)%nat eqn:E.
      * assert (Hx : In x (filter (fun h => (1 <? count_occ string_dec l h)%nat) l))
          by (apply filter_In; auto).
        rewrite H in Hx. destruct Hx.
      * apply Nat.ltb_ge in E. exact E.
    + apply (count_occ_not_In string_dec) in Hout. lia.
  - intros H.
    destruct (filter (fun h => (1 <? count_occ string_dec l h)%nat) l) as [|x xs] eqn:E;
      [reflexivity|].
    assert (Hx : In x (filter (fun h => (1 <? count_occ string_dec l h)%nat) l))
      by (rewrite E; now left).
    apply filter_In in Hx. destruct Hx as [_ Hx]. apply Nat.ltb_lt in Hx.
    specialize (H x). lia.
Qed.

Lemma lower_char_idempotent (c : ascii) : is_lowered (Py.lower_char c) = true.
Proof. destruct c as [[] [] [] [] [] [] [] []]; reflexivity. Qed.

Lemma all_chars_lower (s : string) : all_chars is_lowered (Py.lower s) = true.
Proof.
  induction s as [|c s IH]; cbn; [reflexivity|].
  now rewrite lower_char_idempotent, IH.
Qed.

Lemma all_chars_app (p : ascii -> bool) (s1 s2 : string) :
  all_chars p (s1 ++ s2)%string = all_chars p s1 && all_chars p s2.
Proof.
  induction s1 as [|c s1 IH]; cbn; [reflexivity|]. now rewrite IH, andb_assoc.
Qed.

Lemma lowered_fixed (s : string) : all_chars is_lowered s = true -> Py.lower s = s.
Proof.
  induction s as [|c s IH]; cbn; [reflexivity|]. intros H.
  apply andb_true_iff in H. destruct H as [Hc Hs].
  apply Ascii.eqb_eq in Hc. now rewrite Hc, IH.
Qed.

Lemma flush_shape (p : ascii -> bool) (cur : option string) :
  (forall w, cur = Some w -> all_chars p w = true) ->
  Forall (hashtag_shape p) (Py.flush cur).
Proof.
  intros H. destruct cur as [[|c w]|]; cbn; constructor; [|constructor].
  exists (String c w). repeat split; [discriminate | now apply H].
Qed.

Lemma scan_shape (p : ascii -> bool) (s : string) :
  all_chars p s = true ->
  forall cur, (forall w, cur = Some w -> all_chars p w = true) ->
  Forall (hashtag_shape p) (Py.scan cur s).
Proof.
  induction s as [|c s IH]; cbn; intros Hs cur Hcur.
  - now apply flush_shape.
  - apply andb_true_iff in Hs. destruct Hs as [Hc Hs].
    assert (Hstart : forall w, Py.start c = Some w -> all_chars p w = true).
    { unfold Py.start. intros w. destruct (Ascii.eqb c "#"); [|discriminate].
      now intros [= <-]. }
    destruct cur as [w|].
    + destruct (Py.isword c).
      * apply IH; [assumption|]. intros w' [= <-].
        rewrite all_chars_app. cbn. rewrite (Hcur w eq_refl), Hc. reflexivity.
      * apply Forall_app. split; [now apply flush_shape | now apply IH].
    + now apply IH.
Qed.

Lemma findall_hashtags_shape (s : string) :
  Forall (hashtag_shape is_lowered) (Py.findall_hashtags (Py.lower s)).
Proof.
  apply scan_shape; [apply all_chars_lower | discriminate].
Qed.

Lemma tail_injective_on_hashtags (p : ascii -> bool) (l : list string) :
  Forall (hashtag_shape p) l -> NoDup l -> NoDup (map Py.tail l).
Proof.
  intros Hshape Hnd. induction Hnd as [|h l Hout Hnd IH]; cbn; constructor.
  - intros Hin. apply in_map_iff in Hin. destruct Hin as [h' [Heq Hin']].
    apply Forall_cons_iff in Hshape. destruct Hshape as [[w [-> _]] Hl].
    rewrite Forall_forall in Hl. destruct (Hl h' Hin') as [w' [-> _]].
    cbn in Heq. subst w'. contradiction.
  - apply IH. now apply Forall_cons_iff in Hshape.
Qed.

Lemma statement_eq (cm pd : Db) (tx : bool) (rj : list bool) :
  statement (mkConn cm pd tx rj)
  = (if hd false rj then None else Some tt, mkConn cm pd tx (tl rj)).
Proof. destruct rj as [|[] rj]; reflexivity. Qed.

Lemma bind_eq {A B : Type} (m : Txn A) (k : A -> Txn B) (c : conn) :
  bind m k c = match m c with
               | (Some a, c') => k a c'
               | (None, c') => (None, c')
               end.
Proof. reflexivity. Qed.

Lemma select_eq {A : Type} (q : Db -> A) (cm pd : Db) (tx : bool) (rj : list bool) :
  select q (mkConn cm pd tx rj)
  = (if hd false rj then None else Some (q pd), mkConn cm pd tx (tl rj)).
Proof. destruct rj as [|[] rj]; reflexivity. Qed.

Lemma insert_eq (w : Db -> Db) (cm pd : Db) (tx : bool) (rj : list bool) :
  insert w (mkConn cm pd tx rj)
  = if hd false rj then (None, mkConn cm pd tx (tl rj))
    else (Some tt, mkConn cm (w pd) true (tl rj)).
Proof. destruct rj as [|[] rj]; reflexivity. Qed.

Lemma commit_eq (cm pd : Db) (rj : list bool) :
  commit (mkConn cm pd true rj)
  = if hd false rj then (None, mkConn cm pd true (tl rj))
    else (Some tt, mkConn pd pd false (tl rj)).
Proof. destruct rj as [|[] rj]; reflexivity. Qed.

Lemma for_each_insert_step {A : Type} (w : A -> Db -> Db) (x : A) (xs : list A)
  (cm pd : Db) (tx : bool) (rj : list bool) :
  for_each (x :: xs) (fun x => insert (w x)) (mkConn cm pd tx rj)
  = if hd false rj then (None, mkConn cm pd tx (tl rj))
    else for_each xs (fun x => insert (w x)) (mkConn cm (w x pd) true (tl rj)).
Proof.
  cbn [for_each]. rewrite bind_eq, insert_eq. now destruct (hd false rj).
Qed.

Lemma for_each_insert {A : Type} (w : A -> Db -> Db) (xs : list A) :
  forall (cm pd : Db) (tx : bool) (rj : list bool),
  exists rj',
    for_each xs (fun x => insert (w x)) (mkConn cm pd tx rj)
    = (Some tt, mkConn cm (fold_left (fun d x => w x d) xs pd) (tx || nonempty xs) rj')
    \/ exists pd' tx',
        for_each xs (fun x => insert (w x)) (mkConn cm pd tx rj)
        = (None, mkConn cm pd' tx' rj').
Proof.
  induction xs as [|x xs IH]; intros cm pd tx rj.
  - exists rj. left. cbn. unfold ret. now rewrite orb_false_r.
  - rewrite for_each_insert_step. destruct (hd false rj).
    + exists (tl rj). right. now exists pd, tx.
    + destruct (IH cm (w x pd) true (tl rj)) as [rj' [H|[pd' [tx' H]]]];
        exists rj'; rewrite H.
      * left. cbn. now rewrite orb_true_r.
      * right. now exists pd', tx'.
Qed.

Lemma for_each_insert_accepted {A : Type} (w : A -> Db -> Db) (xs : list A) :
  forall (cm pd : Db) (tx : bool),
    for_each xs (fun x => insert (w x)) (mkConn cm pd tx [])
    = (Some tt, mkConn cm (fold_left (fun d x => w x d) xs pd) (tx || nonempty xs) []).
Proof.
  induction xs as [|x xs IH]; intros cm pd tx.
  - cbn. unfold ret. now rewrite orb_false_r.
  - rewrite for_each_insert_step. cbn [hd tl]. rewrite IH. cbn.
    now rewrite orb_true_r.
Qed.

Section Compose.

Variable sql_int : string -> Z.

Lemma compose_body_eq (usr_ tweet_text : string) (hashtags : list string)
  (tdate_ ttime_ : string) (db : Db) (rj : list bool) :
  compose_body sql_int usr_ tweet_text hashtags tdate_ ttime_ (mkConn db db false rj)
  = if hd false rj then (None, mkConn db db false (tl rj))
    else if hd false (tl rj) then (None, mkConn db db false (tl (tl rj)))
    else
      let new_tid := or_zero (Sql.max (map tid (tweets db))) + 1 in
      match for_each (Py.set hashtags)
              (fun hashtag => insert (add_mention (mkMention new_tid (Py.tail hashtag))))
              (mkConn db
                 (add_tweet (mkTweet new_tid (sql_int usr_) tweet_text tdate_ ttime_ None) db)
                 true (tl (tl rj))) with
      | (Some _, c) => bind commit (fun _ => ret TweetPosted) c
      | (None, c) => (None, c)
      end.
Proof.
  unfold compose_body, get_new_tid.
  rewrite bind_eq, bind_eq, select_eq.
  destruct (hd false rj); [reflexivity|].
  cbn [ret]. rewrite bind_eq, insert_eq.
  destruct (hd false (tl rj)); [reflexivity|].
  rewrite bind_eq. reflexivity.
Qed.

Lemma compose_body_all_or_nothing (db : Db) (usr_ tweet_text : string)
  (hashtags : list string) (tdate_ ttime_ : string) (rj : list bool) :
  exists rj',
    compose_body sql_int usr_ tweet_text hashtags tdate_ ttime_ (mkConn db db false rj)
    = (Some TweetPosted,
       let db' := composed sql_int db usr_ tweet_text hashtags tdate_ ttime_ in
       mkConn db' db' false rj')
    \/ exists pd' tx',
        compose_body sql_int usr_ tweet_text hashtags tdate_ ttime_ (mkConn db db false rj)
        = (None, mkConn db pd' tx' rj').
Proof.
  rewrite compose_body_eq.
  destruct (hd false rj); [exists (tl rj); right; now exists db, false|].
  destruct (hd false (tl rj)); [exists (tl (tl rj)); right; now exists db, false|].
  cbv zeta.
  match goal with
  | |- context [for_each ?xs (fun x => insert (@?w x)) (mkConn ?cm ?pd ?tx ?r)] =>
      destruct (for_each_insert w xs cm pd tx r) as [rj1 [H|[pd' [tx' H]]]];
      rewrite H
  end.
  - cbn [orb]. rewrite bind_eq, commit_eq. destruct (hd false rj1).
    + exists (tl rj1). right. eexists _, _. reflexivity.
    + exists (tl rj1). left. reflexivity.
  - exists rj1. right. now exists pd', tx'.
Qed.

Lemma compose_body_accepted (db : Db) (usr_ tweet_text : string)
  (hashtags : list string) (tdate_ ttime_ : string) :
  compose_body sql_int usr_ tweet_text hashtags tdate_ ttime_ (mkConn db db false [])
  = (Some TweetPosted,
     let db' := composed sql_int db usr_ tweet_text hashtags tdate_ ttime_ in
     mkConn db' db' false []).
Proof.
  rewrite compose_body_eq. cbn [hd tl]. cbv zeta.
  rewrite for_each_insert_accepted. reflexivity.
Qed.

Lemma compose_session_eq (usr_ line tdate_ ttime_ : string) (db : Db) (rj : list bool) :
  Py.truthy (Py.strip line) = true ->
  duplicates (Py.findall_hashtags (Py.lower (Py.strip line))) = [] ->
  session (compose_tweet sql_int usr_ line tdate_ ttime_) db rj
  = if hd false rj then (db, DatabaseError)
    else
      match compose_body sql_int usr_ (Py.strip line)
              (Py.findall_hashtags (Py.lower (Py.strip line))) tdate_ ttime_
              (mkConn db db false (tl rj)) with
      | (Some printed, c) =>
          if in_transaction c then
            (if hd false (rejects c) then (committed c, DatabaseError)
             else (pending c, printed))
          else (committed c, printed)
      | (None, c) => (committed c, DatabaseError)
      end.
Proof.
  intros Htext Hdups. unfold session, compose_tweet.
  rewrite Htext, Hdups. cbn [negb]. unfold run_with, connect, fresh_conn.
  rewrite statement_eq. destruct (hd false rj); [reflexivity|].
  destruct (compose_body _ _ _ _ _ _ _) as [[printed|] [cm pd tx r]];
    [|reflexivity].
  destruct tx; cbn [in_transaction].
  - rewrite commit_eq. cbn. now destruct (hd false r).
  - reflexivity.
Qed.

End Compose.

Lemma fold_add_mention_tables (rows : list mention_row) (db : Db) :
  let db' := fold_left (fun d m => add_mention m d) rows db in
  users db' = users db /\ tweets db' = tweets db /\ retweets db' = retweets db
  /\ follows db' = follows db /\ lists db' = lists db /\ include db' = include db
  /\ hashtag_mentions db' = hashtag_mentions db ++ rows.
Proof.
  revert db. induction rows as [|m rows IH]; intros db; cbn.
  - rewrite app_nil_r. repeat split.
  - destruct (IH (add_mention m db)) as (Hu & Ht & Hr & Hf & Hl & Hi & Hm).
    cbn in *. rewrite Hu, Ht, Hr, Hf, Hl, Hi, Hm, <- app_assoc. repeat split.
Qed.

Lemma fold_left_map {A B C : Type} (f : C -> B -> C) (g : A -> B) (l : list A) (c : C) :
  fold_left (fun acc x => f acc (g x)) l c = fold_left f (map g l) c.
Proof. revert c. induction l as [|x l IH]; intros c; cbn; [reflexivity|apply IH]. Qed.

(** The tables of [composed]: one more tweet, the mention rows of its
    hashtags, everything else as before. *)
Lemma composed_tables (sql_int : string -> Z) (db : Db)
  (usr_ tweet_text : string) (hashtags : list string) (tdate_ ttime_ : string) :
  let new_tid := or_zero (Sql.max (map tid (tweets db))) + 1 in
  let db' := composed sql_int db usr_ tweet_text hashtags tdate_ ttime_ in
  tweets db' = tweets db
               ++ [mkTweet new_tid (sql_int usr_) tweet_text tdate_ ttime_ None]
  /\ hashtag_mentions db'
     = hashtag_mentions db
       ++ map (fun hashtag => mkMention new_tid (Py.tail hashtag)) (Py.set hashtags)
  /\ users db' = users db /\ retweets db' = retweets db
  /\ follows db' = follows db /\ lists db' = lists db /\ include db' = include db.
Proof.
  intros new_tid db'. unfold db', composed. fold new_tid.
  rewrite (fold_left_map (fun d m => add_mention m d)
             (fun hashtag => mkMention new_tid (Py.tail hashtag))).
  match goal with
  | |- context [fold_left _ ?rows ?d] =>
      destruct (fold_add_mention_tables rows d) as (Hu & Ht & Hr & Hf & Hl & Hi & Hm)
  end.
  rewrite Hu, Ht, Hr, Hf, Hl, Hi, Hm. cbn. repeat split.
Qed.

(** C9. Composition is all or nothing.  Whichever statements the store
    rejects, a call to [compose_tweet] either reports the post and leaves
    the store with the tweet row and every one of its mention rows, or
    reports something else and leaves the store exactly as it found it. *)
Theorem compose_tweet_atomic
  (sql_int : string -> Z) (db : Db) (rj : list bool)
  (usr_ line tdate_ ttime_ : string) :
  let tweet_text := Py.strip line in
  let hashtags := Py.findall_hashtags (Py.lower tweet_text) in
  let (db', printed) := session (compose_tweet sql_int usr_ line tdate_ ttime_) db rj in
  (printed = TweetPosted
   /\ db' = composed sql_int db usr_ tweet_text hashtags tdate_ ttime_)
  \/ (printed <> TweetPosted /\ db' = db).
Proof.
  intros tweet_text hashtags.
  destruct (Py.truthy tweet_text) eqn:Htext.
  - destruct (duplicates hashtags) as [|h hs] eqn:Hdups.
    + rewrite (compose_session_eq sql_int usr_ line tdate_ ttime_ db rj Htext Hdups).
      destruct (hd false rj); [right; split; [discriminate|reflexivity]|].
      destruct (compose_body_all_or_nothing sql_int db usr_ tweet_text hashtags
                  tdate_ ttime_ (tl rj)) as [rj' [H|[pd' [tx' H]]]];
        fold tweet_text; fold hashtags; rewrite H; cbn.
      * left. split; reflexivity.
      * right. split; [discriminate|reflexivity].
    + unfold session, compose_tweet. fold tweet_text. rewrite Htext. cbn [negb].
      fold hashtags. rewrite Hdups. cbn. right. split; [discriminate|reflexivity].
  - unfold session, compose_tweet. fold tweet_text. rewrite Htext. cbn.
    right. split; [discriminate|reflexivity].
Qed.

(** C5. Hashtags of a composition.  When the lowered text holds the same
    hashtag twice the composition is refused and the store is left as it
    was, whatever the store would have answered.  When its hashtags are
    pairwise distinct (and the store accepts the statements) the tweet is
    posted and one mention row is appended for each hashtag, the terms
    being pairwise distinct, lowercase and without the leading ['#'].
    [#Go #go] is refused; [#go #rust] stores the rows [go] and [rust]. *)
Theorem compose_tweet_hashtags
  (sql_int : string -> Z) (db : Db) (rj : list bool)
  (usr_ line tdate_ ttime_ : string) :
  let tweet_text := Py.strip line in
  let hashtags := Py.findall_hashtags (Py.lower tweet_text) in
  let new_tid := or_zero (Sql.max (map tid (tweets db))) + 1 in
  (~ NoDup hashtags ->
   session (compose_tweet sql_int usr_ line tdate_ ttime_) db rj
   = (db, HashtagsDuplicated (Py.set (duplicates hashtags))))
  /\ (NoDup hashtags ->
      Py.truthy tweet_text = true ->
      exists db',
        session (compose_tweet sql_int usr_ line tdate_ ttime_) db [] = (db', TweetPosted)
        /\ tweets db' = tweets db
                        ++ [mkTweet new_tid (sql_int usr_) tweet_text tdate_ ttime_ None]
        /\ (exists rows,
               hashtag_mentions db' = hashtag_mentions db ++ rows
               /\ Permutation
                    rows
                    (map (fun hashtag => mkMention new_tid (Py.tail hashtag)) hashtags))
        /\ NoDup (map Py.tail hashtags)
        /\ Forall (fun hashtag =>
                     hashtag = String "#" (Py.tail hashtag)
                     /\ Py.tail hashtag <> EmptyString
                     /\ Py.lower (Py.tail hashtag) = Py.tail hashtag)
                  hashtags)
  /\ session (compose_tweet sql_int usr_ "#Go #go" tdate_ ttime_) db rj
     = (db, HashtagsDuplicated ["#go"%string])
  /\ (exists rows,
         hashtag_mentions
           (fst (session (compose_tweet sql_int usr_ "#go #rust" tdate_ ttime_) db []))
         = hashtag_mentions db ++ rows
         /\ Permutation rows [mkMention new_tid "go"; mkMention new_tid "rust"]).
Proof.
  intros tweet_text hashtags new_tid. split; [|split; [|split]].
  - intros Hdup.
    assert (Htext : Py.truthy tweet_text = true).
    { destruct tweet_text eqn:E; [|reflexivity].
      exfalso. apply Hdup. unfold hashtags. cbn. constructor. }
    destruct (duplicates hashtags) as [|h hs] eqn:Hdups.
    + apply duplicates_nil_iff in Hdups. contradiction.
    + unfold session, compose_tweet. fold tweet_text. rewrite Htext. cbn [negb].
      fold hashtags. rewrite Hdups. reflexivity.
  - intros Hnd Htext.
    assert (Hdups : duplicates hashtags = []) by now apply duplicates_nil_iff.
    exists (composed sql_int db usr_ tweet_text hashtags tdate_ ttime_).
    destruct (composed_tables sql_int db usr_ tweet_text hashtags tdate_ ttime_)
      as (Ht & Hm & _).
    pose proof (findall_hashtags_shape tweet_text) as Hshape. fold hashtags in Hshape.
    split; [|split; [exact Ht|split; [|split]]].
    + rewrite (compose_session_eq sql_int usr_ line tdate_ ttime_ db [] Htext Hdups).
      cbn [hd tl]. fold tweet_text. fold hashtags.
      rewrite compose_body_accepted. reflexivity.
    + eexists. split; [exact Hm|].
      unfold Py.set. now rewrite (nodup_fixed_point string_dec Hnd).
    + now apply (tail_injective_on_hashtags is_lowered).
    + eapply Forall_impl; [|exact Hshape].
      intros h [w (-> & Hw & Hlow)]. cbn. repeat split; [assumption|].
      now apply lowered_fixed.
  - reflexivity.
  - rewrite (compose_session_eq sql_int usr_ "#go #rust" tdate_ ttime_ db []
               eq_refl eq_refl).
    cbn [hd tl]. rewrite compose_body_accepted. cbv zeta. cbn [in_transaction committed fst].
    match goal with
    | |- context [composed ?f ?d ?u ?t ?h ?a ?b] =>
        destruct (composed_tables f d u t h a b) as (_ & Hm & _)
    end.
    eexists. split; [exact Hm|]. reflexivity.
Qed.

(** ** The sorter *)

Section Sorter.

Context {A : Type}.
Variable geb : A -> A -> bool.
Hypothesis geb_total : forall a b, geb a b = false -> geb b a = true.
Hypothesis geb_trans : forall a b c, geb a b = true -> geb b c = true -> geb a c = true.

Lemma insert_by_perm (x : A) (l : list A) :
  Permutation (Sql.insert_by geb x l) (x :: l).
Proof.
  induction l as [|y l IH]; cbn; [reflexivity|].
  destruct (geb x y); [reflexivity|].
  rewrite IH. apply perm_swap.
Qed.

Lemma order_by_perm (l : list A) : Permutation (Sql.order_by geb l) l.
Proof.
  induction l as [|x l IH]; cbn; [reflexivity|].
  rewrite insert_by_perm. now constructor.
Qed.

Lemma insert_by_sorted (x : A) (l : list A) :
  StronglySorted (fun a b => geb a b = true) l ->
  StronglySorted (fun a b => geb a b = true) (Sql.insert_by geb x l).
Proof.
  induction l as [|y l IH]; cbn; intros Hs.
  - repeat constructor.
  - apply StronglySorted_inv in Hs. destruct Hs as [Hl Hy].
    destruct (geb x y) eqn:E.
    + constructor; [now constructor|]. constructor; [assumption|].
      rewrite Forall_forall in *. intros z Hz. eapply geb_trans; eauto.
    + constructor; [now apply IH|].
      rewrite Forall_forall in *. intros z Hz.
      apply (Permutation_in _ (insert_by_perm x l)) in Hz.
      destruct Hz as [<-|Hz]; [now apply geb_total | now apply Hy].
Qed.

Lemma order_by_sorted (l : list A) :
  StronglySorted (fun a b => geb a b = true) (Sql.order_by geb l).
Proof.
  induction l as [|x l IH]; cbn; [constructor | now apply insert_by_sorted].
Qed.

End Sorter.

Lemma strongly_sorted_nth {A : Type} (R : A -> A -> Prop) (l : list A) :
  StronglySorted R l ->
  forall i j a b, (i < j)%nat -> nth_error l i = Some a -> nth_error l j = Some b -> R a b.
Proof.
  induction 1 as [|x l Hs IH Hx]; intros i j a b Hij Hi Hj.
  - destruct i; discriminate.
  - destruct j as [|j]; [lia|]. cbn in Hj. destruct i as [|i]; cbn in Hi.
    + injection Hi as <-. rewrite Forall_forall in Hx.
      apply Hx. eapply nth_error_In; eauto.
    + apply (IH i j); [lia|assumption|assumption].
Qed.

Lemma strongly_sorted_skipn {A : Type} (R : A -> A -> Prop) (l : list A) (k : nat) :
  StronglySorted R l -> StronglySorted R (skipn k l).
Proof.
  intros Hs. revert k. induction Hs as [|x l Hs IH Hx]; intros [|k]; cbn;
    try constructor; auto.
Qed.

Lemma strongly_sorted_firstn {A : Type} (R : A -> A -> Prop) (l : list A) (n : nat) :
  StronglySorted R l -> StronglySorted R (firstn n l).
Proof.
  intros Hs. revert n. induction Hs as [|x l Hs IH Hx]; intros [|n]; cbn;
    try constructor; auto.
  rewrite Forall_forall in *. intros y Hy. apply Hx.
  rewrite <- (firstn_skipn n l). apply in_or_app. now left.
Qed.

(** ** The order of texts *)

Lemma ascii_compare_refl (a : ascii) : Ascii.compare a a = Eq.
Proof. unfold Ascii.compare. apply N.compare_refl. Qed.

Lemma ascii_compare_lt_trans (a b c : ascii) :
  Ascii.compare a b = Lt -> Ascii.compare b c = Lt -> Ascii.compare a c = Lt.
Proof.
  unfold Ascii.compare. rewrite !N.compare_lt_iff. lia.
Qed.

Lemma string_compare_refl (s : string) : String.compare s s = Eq.
Proof.
  induction s as [|c s IH]; cbn; [reflexivity|]. now rewrite ascii_compare_refl.
Qed.

Lemma string_compare_lt_trans (s1 : string) :
  forall s2 s3, String.compare s1 s2 = Lt -> String.compare s2 s3 = Lt ->
                String.compare s1 s3 = Lt.
Proof.
  induction s1 as [|a s1 IH]; intros [|b s2] [|c s3]; cbn; try discriminate; auto.
  destruct (Ascii.compare a b) eqn:Eab; try discriminate;
    destruct (Ascii.compare b c) eqn:Ebc; try discriminate; intros H12 H23.
  - apply Ascii.compare_eq_iff in Eab, Ebc. subst. rewrite ascii_compare_refl.
    now apply (IH s2).
  - apply Ascii.compare_eq_iff in Eab. subst. now rewrite Ebc.
  - apply Ascii.compare_eq_iff in Ebc. subst. now rewrite Eab.
  - now rewrite (ascii_compare_lt_trans a b c).
Qed.

Lemma string_compare_gt_lt (s1 s2 : string) :
  String.compare s1 s2 = Gt <-> String.compare s2 s1 = Lt.
Proof.
  rewrite (String.compare_antisym s2 s1). destruct (String.compare s1 s2); cbn;
    split; congruence.
Qed.

Lemma string_compare_eq (s1 s2 : string) : String.compare s1 s2 = Eq <-> s1 = s2.
Proof.
  split; [apply String.compare_eq_iff | intros ->; apply string_compare_refl].
Qed.

Lemma string_ltb_lt (s1 s2 : string) :
  String.ltb s1 s2 = true <-> String.compare s1 s2 = Lt.
Proof. unfold String.ltb. destruct (String.compare s1 s2); split; congruence. Qed.

Lemma string_leb_le (s1 s2 : string) :
  String.leb s1 s2 = true <-> String.compare s1 s2 <> Gt.
Proof. unfold String.leb. destruct (String.compare s1 s2); split; congruence. Qed.

Lemma string_le_trans (s1 s2 s3 : string) :
  String.compare s1 s2 <> Gt -> String.compare s2 s3 <> Gt ->
  String.compare s1 s3 <> Gt.
Proof.
  intros H12 H23.
  destruct (String.compare s1 s2) eqn:E12; [| |congruence].
  - apply string_compare_eq in E12. now subst.
  - destruct (String.compare s2 s3) eqn:E23; [| |congruence].
    + apply string_compare_eq in E23. subst. rewrite E12. discriminate.
    + rewrite (string_compare_lt_trans _ _ _ E12 E23). discriminate.
Qed.

Lemma desc_geb_iff (k1 k2 : string * string) :
  Sql.desc_geb k1 k2 = true <-> not_after k1 k2.
Proof.
  unfold Sql.desc_geb, not_after.
  rewrite orb_true_iff, andb_true_iff, string_ltb_lt, String.eqb_eq, string_leb_le.
  tauto.
Qed.

Lemma not_after_total (k1 k2 : string * string) :
  ~ not_after k1 k2 -> not_after k2 k1.
Proof.
  unfold not_after. intros H.
  destruct (String.compare (fst k2) (fst k1)) eqn:Ed.
  - apply string_compare_eq in Ed. right. split; [assumption|].
    intros Hgt. apply H. right. split; [now symmetry|].
    apply string_compare_gt_lt in Hgt. rewrite Hgt. discriminate.
  - exfalso. apply H. now left.
  - left. now apply string_compare_gt_lt.
Qed.

Lemma not_after_trans (k1 k2 k3 : string * string) :
  not_after k1 k2 -> not_after k2 k3 -> not_after k1 k3.
Proof.
  unfold not_after. intros [H12|[E12 T12]] [H23|[E23 T23]].
  - left. now apply (string_compare_lt_trans _ (fst k2)).
  - left. now rewrite <- E23.
  - left. now rewrite E12.
  - right. split; [congruence|]. now apply (string_le_trans _ (snd k2)).
Qed.

Lemma desc_geb_total (k1 k2 : string * string) :
  Sql.desc_geb k1 k2 = false -> Sql.desc_geb k2 k1 = true.
Proof.
  intros H. apply desc_geb_iff, not_after_total. rewrite <- desc_geb_iff. congruence.
Qed.

Lemma desc_geb_trans (k1 k2 k3 : string * string) :
  Sql.desc_geb k1 k2 = true -> Sql.desc_geb k2 k3 = true -> Sql.desc_geb k1 k3 = true.
Proof. rewrite !desc_geb_iff. apply not_after_trans. Qed.

(** ** The feed *)

Lemma in_col_iff (x : Z) (col : list Z) : in_col x col = true <-> In x col.
Proof.
  unfold in_col. rewrite existsb_exists. split.
  - intros [y [Hy E]]. apply Z.eqb_eq in E. now subst.
  - intros H. exists x. split; [assumption|apply Z.eqb_refl].
Qed.

Section Feed.

Variable sql_int : string -> Z.

Lemma followees_iff (usr_ : string) (db : Db) (w : Z) :
  In w (followees sql_int usr_ db) <-> is_followed_by db (sql_int usr_) w.
Proof.
  unfold followees, is_followed_by. rewrite in_map_iff. split.
  - intros [f [E Hf]]. apply filter_In in Hf. destruct Hf as [Hf Hv].
    apply Z.eqb_eq in Hv. now exists f.
  - intros [f (Hf & Hv & E)]. exists f. split; [assumption|].
    apply filter_In. split; [assumption|]. now apply Z.eqb_eq.
Qed.

Lemma feed_tweets_iff (usr_ : string) (db : Db) (row : feed_row) :
  In row (feed_tweets sql_int usr_ db) <->
  exists t, In t (tweets db)
            /\ is_followed_by db (sql_int usr_) (writer_id t)
            /\ row = mkFeedRow "tweet" (tid t) (tdate t) (ttime t) 0 (text t).
Proof.
  unfold feed_tweets. rewrite in_map_iff. split.
  - intros [t [E Ht]]. apply filter_In in Ht. destruct Ht as [Ht Hw].
    apply in_col_iff, followees_iff in Hw. now exists t.
  - intros [t (Ht & Hw & E)]. exists t. split; [now symmetry|].
    apply filter_In. split; [assumption|]. now apply in_col_iff, followees_iff.
Qed.

Lemma feed_retweets_iff (usr_ : string) (db : Db) (row : feed_row) :
  In row (feed_retweets sql_int usr_ db) <->
  exists r t, In r (retweets db) /\ In t (tweets db) /\ rt_tid r = tid t
              /\ is_followed_by db (sql_int usr_) (retweeter_id r)
              /\ spam r = 0
              /\ row = mkFeedRow "retweet" (rt_tid r) (rdate r) "" 0 (text t).
Proof.
  unfold feed_retweets. rewrite in_map_iff. split.
  - intros [[r t] [E H]]. cbn [fst snd] in *.
    apply filter_In in H. destruct H as [H Hwhere].
    apply filter_In in H. destruct H as [Hprod Hon]. cbn [fst snd] in *.
    apply in_prod_iff in Hprod. destruct Hprod as [Hr Ht].
    apply andb_true_iff in Hwhere. destruct Hwhere as [Hw Hspam].
    apply in_col_iff, followees_iff in Hw.
    apply Z.eqb_eq in Hspam, Hon. exists r, t.
    repeat split; try assumption. now rewrite <- E, Hspam.
  - intros [r [t (Hr & Ht & Hon & Hw & Hspam & E)]]. exists (r, t).
    cbn [fst snd]. split; [now rewrite E, Hspam|].
    apply filter_In. cbn [fst snd]. split.
    + apply filter_In. cbn [fst snd]. split; [now apply in_prod|now apply Z.eqb_eq].
    + apply andb_true_iff. split; [now apply in_col_iff, followees_iff|].
      now apply Z.eqb_eq.
Qed.

Lemma feed_rows_perm (usr_ : string) (db : Db) :
  Permutation (feed_rows sql_int usr_ db)
              (feed_tweets sql_int usr_ db ++ feed_retweets sql_int usr_ db).
Proof. apply order_by_perm. Qed.

End Feed.

(** C1. What the feed of a viewer holds.  A row is in the feed exactly
    when it is the row of a tweet written by someone the viewer follows,
    or the row of a retweet with spam 0 made by someone the viewer follows,
    joined with the tweet of its id: the text of that tweet, the date of
    the retweet and an empty time.  Every feed row has spam 0, the row of
    a retweet flagged as spam is not in the feed, and the feed has one row
    for each such tweet and each such pair. *)
Theorem feed_contents (sql_int : string -> Z) (db : Db) (usr_ : string) :
  let viewer := sql_int usr_ in
  let feed := feed_rows sql_int usr_ db in
  (forall row,
      In row feed <->
      (exists t, In t (tweets db)
                 /\ is_followed_by db viewer (writer_id t)
                 /\ row = mkFeedRow "tweet" (tid t) (tdate t) (ttime t) 0 (text t))
      \/ (exists r t, In r (retweets db) /\ In t (tweets db) /\ rt_tid r = tid t
                      /\ is_followed_by db viewer (retweeter_id r)
                      /\ spam r = 0
                      /\ row = mkFeedRow "retweet" (rt_tid r) (rdate r) "" 0 (text t)))
  /\ (forall row, In row feed -> f_spam row = 0)
  /\ (forall r body, spam r <> 0 ->
        ~ In (mkFeedRow "retweet" (rt_tid r) (rdate r) "" (spam r) body) feed)
  /\ List.length feed
     = Nat.add
         (List.length (filter (fun t => in_col (writer_id t) (followees sql_int usr_ db))
                              (tweets db)))
         (List.length
            (filter (fun rt => in_col (retweeter_id (fst rt)) (followees sql_int usr_ db)
                               && (spam (fst rt) =? 0))
                    (filter (fun rt => rt_tid (fst rt) =? tid (snd rt))
                            (list_prod (retweets db) (tweets db))))).
Proof.
  intros viewer feed.
  assert (Hmem : forall row,
             In row feed <->
             In row (feed_tweets sql_int usr_ db) \/ In row (feed_retweets sql_int usr_ db)).
  { intros row. rewrite <- in_app_iff. split; apply Permutation_in.
    - apply feed_rows_perm.
    - symmetry. apply feed_rows_perm. }
  assert (Hspam : forall row, In row feed -> f_spam row = 0).
  { intros row Hrow. apply Hmem in Hrow. destruct Hrow as [H|H].
    - apply feed_tweets_iff in H. destruct H as [t (_ & _ & ->)]. reflexivity.
    - apply feed_retweets_iff in H. destruct H as [r [t (_ & _ & _ & _ & _ & ->)]].
      reflexivity. }
  split; [|split; [exact Hspam|split]].
  - intros row. rewrite Hmem, feed_tweets_iff, feed_retweets_iff. reflexivity.
  - intros r body Hflag Hin. apply Hspam in Hin. cbn in Hin. contradiction.
  - unfold feed. rewrite (Permutation_length (feed_rows_perm sql_int usr_ db)).
    unfold feed_tweets, feed_retweets. now rewrite length_app, !length_map.
Qed.

Lemma strongly_sorted_impl {A : Type} (R R' : A -> A -> Prop) (l : list A) :
  (forall a b, R a b -> R' a b) -> StronglySorted R l -> StronglySorted R' l.
Proof.
  intros Himpl. induction 1 as [|x l Hs IH Hx]; constructor; [assumption|].
  eapply Forall_impl; [|exact Hx]. intros b. apply Himpl.
Qed.

Lemma empty_text_least (s : string) : String.compare "" s <> Gt.
Proof. destruct s; discriminate. Qed.

Lemma below_empty_text (s : string) : String.compare s "" <> Gt -> s = ""%string.
Proof. destruct s; cbn; congruence. Qed.

Section FeedOrder.

Variable sql_int : string -> Z.

Lemma feed_rows_in (usr_ : string) (db : Db) (row : feed_row) :
  In row (feed_rows sql_int usr_ db) <->
  In row (feed_tweets sql_int usr_ db) \/ In row (feed_retweets sql_int usr_ db).
Proof.
  rewrite <- in_app_iff. split; apply Permutation_in.
  - apply feed_rows_perm.
  - symmetry. apply feed_rows_perm.
Qed.

Lemma retweet_row_has_no_time (usr_ : string) (db : Db) (row : feed_row) :
  In row (feed_rows sql_int usr_ db) ->
  f_type row = "retweet"%string -> f_ttime row = ""%string.
Proof.
  intros Hin Htype. apply feed_rows_in in Hin. destruct Hin as [H|H].
  - apply feed_tweets_iff in H. destruct H as [t (_ & _ & ->)]. discriminate.
  - apply feed_retweets_iff in H. destruct H as [r [t (_ & _ & _ & _ & _ & ->)]].
    reflexivity.
Qed.

Lemma feed_rows_sorted (usr_ : string) (db : Db) :
  StronglySorted (fun a b => not_after (feed_key a) (feed_key b))
                 (feed_rows sql_int usr_ db).
Proof.
  apply (strongly_sorted_impl (fun a b => feed_geb a b = true)).
  - intros a b. apply desc_geb_iff.
  - apply order_by_sorted.
    + intros a b. apply desc_geb_total.
    + intros a b c. apply desc_geb_trans.
Qed.

End FeedOrder.

(** C2. The feed, and every page cut from it, is ordered by date
    descending and then by time descending.  The empty time of a retweet
    is below every text, so on a date it shares with an entry that has a
    time, the retweet stands after that entry. *)
Theorem feed_ordering (sql_int : string -> Z) (db : Db) (usr_ : string) :
  let feed := feed_rows sql_int usr_ db in
  StronglySorted (fun a b => not_after (feed_key a) (feed_key b)) feed
  /\ (forall offset,
        StronglySorted (fun a b => not_after (feed_key a) (feed_key b))
                       (feed_query sql_int usr_ offset db))
  /\ (forall row time, In row feed -> f_type row = "retweet"%string ->
                       String.compare (f_ttime row) time <> Gt)
  /\ (forall i j a b,
        nth_error feed i = Some a -> nth_error feed j = Some b ->
        f_type a = "retweet"%string ->
        f_tdate a = f_tdate b ->
        f_ttime b <> ""%string ->
        (j < i)%nat).
Proof.
  intros feed. pose proof (feed_rows_sorted sql_int usr_ db) as Hsorted.
  fold feed in Hsorted. split; [exact Hsorted|split; [|split]].
  - intros offset. unfold feed_query, Sql.limit_offset.
    now apply strongly_sorted_firstn, strongly_sorted_skipn.
  - intros row time Hin Htype.
    rewrite (retweet_row_has_no_time sql_int usr_ db row Hin Htype).
    apply empty_text_least.
  - intros i j a b Ha Hb Htype Hdate Htime.
    assert (Hna : f_ttime a = ""%string).
    { apply (retweet_row_has_no_time sql_int usr_ db); [|assumption].
      eapply nth_error_In; eauto. }
    destruct (Nat.lt_trichotomy i j) as [Hlt|[Heq|Hgt]]; [| |assumption].
    + exfalso.
      pose proof (strongly_sorted_nth _ _ Hsorted i j a b Hlt Ha Hb) as Hab.
      unfold not_after, feed_key in Hab. cbn [fst snd] in Hab.
      destruct Hab as [Hd|[_ Ht]].
      * rewrite Hdate, string_compare_refl in Hd. discriminate.
      * rewrite Hna in Ht. apply below_empty_text in Ht. contradiction.
    + exfalso. subst j. rewrite Ha in Hb. injection Hb as <-. contradiction.
Qed.

(** ** Paging *)

Lemma nonempty_page {A : Type} (l : list A) (k : nat) :
  nonempty (Sql.limit_offset 5 k l) = (k <? List.length l)%nat.
Proof.
  unfold Sql.limit_offset.
  destruct (Nat.ltb_spec k (List.length l)) as [Hlt|Hge].
  - destruct (skipn k l) as [|x xs] eqn:E; [|reflexivity].
    pose proof (length_skipn k l) as Hlen. rewrite E in Hlen. cbn in Hlen. lia.
  - now rewrite skipn_all2.
Qed.

Lemma page_then_rest {A : Type} (l : list A) (k : nat) :
  Sql.limit_offset 5 k l ++ skipn (k + 5) l = skipn k l.
Proof.
  unfold Sql.limit_offset.
  replace (k + 5)%nat with (5 + k)%nat by lia.
  rewrite <- skipn_skipn. apply firstn_skipn.
Qed.

Lemma last_page {A : Type} (l : list A) (k : nat) :
  (List.length l <= k + 5)%nat -> Sql.limit_offset 5 k l = skipn k l.
Proof.
  intros H. rewrite <- (page_then_rest l k), (skipn_all2 l); [|lia].
  now rewrite app_nil_r.
Qed.

Lemma pages_concat {A : Type} (n : nat) :
  forall (l : list A), (List.length l <= 5 * n)%nat ->
  List.concat (map (fun i => Sql.limit_offset 5 (5 * i) l) (seq 0 n)) = l.
Proof.
  induction n as [|n IH]; intros l Hlen.
  - destruct l; [reflexivity|cbn in Hlen; lia].
  - rewrite <- cons_seq, <- seq_shift. cbn [map List.concat]. rewrite map_map.
    transitivity (firstn 5 l ++ skipn 5 l); [|apply firstn_skipn].
    f_equal.
    rewrite <- (IH (skipn 5 l)) at 1; [|rewrite length_skipn; lia].
    f_equal. apply map_ext. intros i. unfold Sql.limit_offset.
    rewrite skipn_skipn. f_equal. f_equal. lia.
Qed.

Lemma prompt_shows_nothing (inputs : list string) :
  shown_rows (prompt_back_or_quit inputs) = [].
Proof.
  induction inputs as [|line rest IH]; cbn; [reflexivity|].
  destruct (String.eqb (choice_of line) "b"); [reflexivity|].
  destruct (String.eqb (choice_of line) "q"); [reflexivity|]. exact IH.
Qed.

Section Paging.

Variable sql_int : string -> Z.

Lemma feed_view_at_accepted (usr_ : string) (db : Db) (offset : nat) :
  feed_view_at sql_int usr_ db offset []
  = (if negb (nonempty (feed_query sql_int usr_ 0 db)) then NoTweetsToDisplay
     else if negb (nonempty (feed_query sql_int usr_ offset db)) then NoMoreTweets
     else FeedPage (offset + 1) (feed_query sql_int usr_ offset db)
                   (nonempty (feed_query sql_int usr_ (offset + 5) db)),
     []).
Proof.
  unfold feed_view_at, feed_pass.
  set (q := feed_query sql_int usr_). clearbody q. run_txn.
  destruct (nonempty (q 0%nat db)); cbn; [|reflexivity].
  destruct (nonempty (q offset db)); reflexivity.
Qed.

(** The view at an offset below the length of the feed is a page. *)
Lemma feed_view_at_page (usr_ : string) (db : Db) (offset : nat) :
  (offset < List.length (feed_rows sql_int usr_ db))%nat ->
  feed_view_at sql_int usr_ db offset []
  = (FeedPage (offset + 1) (feed_query sql_int usr_ offset db)
              (offset + 5 <? List.length (feed_rows sql_int usr_ db))%nat,
     []).
Proof.
  intros Hlt. rewrite feed_view_at_accepted. unfold feed_query.
  rewrite !nonempty_page.
  destruct (Nat.ltb_spec 0 (List.length (feed_rows sql_int usr_ db))); [|lia].
  destruct (Nat.ltb_spec offset (List.length (feed_rows sql_int usr_ db))); [|lia].
  reflexivity.
Qed.

Lemma feed_view_at_empty (usr_ : string) (db : Db) (offset : nat) :
  feed_rows sql_int usr_ db = [] ->
  feed_view_at sql_int usr_ db offset [] = (NoTweetsToDisplay, []).
Proof.
  intros Hnone. rewrite feed_view_at_accepted. unfold feed_query.
  rewrite nonempty_page, Hnone. reflexivity.
Qed.

Lemma feed_next_shows_rest (usr_ : string) (db : Db) (presses : nat) :
  forall offset,
    (offset + 5 < List.length (feed_rows sql_int usr_ db))%nat ->
    (List.length (feed_rows sql_int usr_ db) <= offset + 5 + 5 * presses)%nat ->
    shown_rows (feed_next sql_int usr_ db offset [] (repeat "n"%string presses ++ ["b"%string]))
    = skipn (offset + 5) (feed_rows sql_int usr_ db).
Proof.
  induction presses as [|presses IH]; intros offset Hmore Hlen; [lia|].
  cbn [repeat app feed_next].
  change (String.eqb (choice_of "n") "n") with true. cbn iota.
  rewrite (feed_view_at_page usr_ db (offset + 5) Hmore).
  destruct (Nat.ltb_spec (offset + 5 + 5) (List.length (feed_rows sql_int usr_ db)))
    as [Hlt|Hge].
  - cbn [shown_rows flat_map]. fold (shown_rows).
    change (flat_map _ ?evs) with (shown_rows evs).
    rewrite (IH (offset + 5)%nat Hlt); [|lia].
    unfold feed_query. apply page_then_rest.
  - cbn [shown_rows flat_map].
    change (flat_map _ ?evs) with (shown_rows evs).
    rewrite prompt_shows_nothing, app_nil_r.
    unfold feed_query. now apply last_page.
Qed.

End Paging.

(** C7. Pages of the feed.  On one snapshot of the store the pages at
    offsets 0, 5, 10, ... put end to end are the feed itself, row for row:
    nothing is skipped and nothing comes twice.  The same holds for what
    [show_feed] puts on the screen when the user keeps asking for the next
    page; and the feed is a rearrangement of the rows of the two arms of
    the query. *)
Theorem feed_pagination (sql_int : string -> Z) (db : Db) (usr_ : string) :
  let feed := feed_rows sql_int usr_ db in
  (forall pages,
      (List.length feed <= 5 * pages)%nat ->
      List.concat (map (fun i => feed_query sql_int usr_ (5 * i) db) (seq 0 pages))
      = feed)
  /\ (forall presses,
        (List.length feed <= 5 * (presses + 1))%nat ->
        shown_rows (show_feed sql_int usr_ db []
                              (repeat "n"%string presses ++ ["b"%string]))
        = feed)
  /\ Permutation feed (feed_tweets sql_int usr_ db ++ feed_retweets sql_int usr_ db).
Proof.
  intros feed. split; [|split].
  - intros pages Hlen. unfold feed_query. now apply pages_concat.
  - intros presses Hlen. unfold show_feed.
    destruct (Nat.eq_dec (List.length feed) 0) as [Hzero|Hpos].
    + assert (Hnone : feed = []) by (destruct feed; [reflexivity|discriminate]).
      rewrite (feed_view_at_empty sql_int usr_ db 0 Hnone).
      cbn [shown_rows flat_map]. change (flat_map _ ?evs) with (shown_rows evs).
      now rewrite prompt_shows_nothing, Hnone.
    + rewrite (feed_view_at_page sql_int usr_ db 0); [|fold feed; lia].
      fold feed. cbn [Nat.add].
      destruct (Nat.ltb_spec 5 (List.length feed)) as [Hlt|Hge].
      * cbn [shown_rows flat_map]. change (flat_map _ ?evs) with (shown_rows evs).
        rewrite (feed_next_shows_rest sql_int usr_ db presses 0);
          [|fold feed; lia|fold feed; lia].
        unfold feed_query. fold feed. apply (page_then_rest feed 0).
      * cbn [shown_rows flat_map]. change (flat_map _ ?evs) with (shown_rows evs).
        rewrite prompt_shows_nothing, app_nil_r.
        unfold feed_query. fold feed. now rewrite (last_page feed 0).
  - apply feed_rows_perm.
Qed.

(** ** Search *)

Lemma like_percent (txt : string) : Sql.like "%" txt = true.
Proof.
  cbn. induction txt as [|c txt IH]; cbn; [reflexivity|exact IH].
Qed.

Lemma like_prefix (kw txt : string) :
  all_chars plain_char kw = true ->
  Sql.like (kw ++ "%")%string txt = starts_with_ci kw txt.
Proof.
  revert txt. induction kw as [|k kw IH]; intros txt Hplain.
  - cbn [String.append starts_with_ci]. rewrite like_percent. now destruct txt.
  - cbn in Hplain. apply andb_true_iff in Hplain. destruct Hplain as [Hk Hplain].
    unfold plain_char in Hk. apply andb_true_iff in Hk. destruct Hk as [Hpc Hus].
    apply negb_true_iff in Hpc, Hus.
    cbn [String.append Sql.like starts_with_ci]. rewrite Hpc.
    destruct txt as [|c txt]; [reflexivity|].
    rewrite Hus. cbn [orb]. now rewrite IH.
Qed.

Lemma like_anywhere (pat txt : string) :
  Sql.like (String "%" pat) txt
  = Sql.like pat txt
    || match txt with
       | EmptyString => false
       | String _ txt' => Sql.like (String "%" pat) txt'
       end.
Proof. destruct txt; reflexivity. Qed.

Lemma like_substring (kw txt : string) :
  all_chars plain_char kw = true ->
  Sql.like (String "%" (kw ++ "%")) txt = occurs_ci kw txt.
Proof.
  intros Hplain. induction txt as [|c txt IH].
  - rewrite like_anywhere, like_prefix by assumption. reflexivity.
  - rewrite like_anywhere, like_prefix by assumption. cbn [occurs_ci]. now rewrite IH.
Qed.

Lemma lower_char_twice (c : ascii) : Py.lower_char (Py.lower_char c) = Py.lower_char c.
Proof. apply Ascii.eqb_eq. apply lower_char_idempotent. Qed.

Lemma starts_with_ci_lower (kw txt : string) :
  starts_with_ci kw (Py.lower txt) = starts_with_ci kw txt.
Proof.
  revert txt. induction kw as [|k kw IH]; intros [|c txt]; cbn; try reflexivity.
  now rewrite lower_char_twice, IH.
Qed.

Lemma occurs_ci_lower (kw txt : string) :
  occurs_ci kw (Py.lower txt) = occurs_ci kw txt.
Proof.
  induction txt as [|c txt IH].
  - reflexivity.
  - cbn [Py.lower occurs_ci]. rewrite <- IH.
    now rewrite <- (starts_with_ci_lower kw (String c txt)).
Qed.

Lemma order_by_nodup {A : Type} (geb : A -> A -> bool) (l : list A) :
  NoDup l -> NoDup (Sql.order_by geb l).
Proof.
  intros H. eapply Permutation_NoDup; [|exact H]. symmetry. apply order_by_perm.
Qed.

Lemma search_query_in (keywords : list string) (db : Db) (row : search_row) :
  In row (search_query keywords db) <->
  In row (text_arm keywords db) \/ In row (hashtag_arm keywords db).
Proof.
  unfold search_query. rewrite <- in_app_iff.
  rewrite <- (nodup_In search_row_eq_dec (text_arm keywords db ++ hashtag_arm keywords db)).
  split; apply Permutation_in; [|symmetry]; apply order_by_perm.
Qed.

Lemma hashtag_arm_iff (keywords : list string) (db : Db) (row : search_row) :
  In row (hashtag_arm keywords db) <->
  exists t, In t (tweets db) /\ row = search_row_of t
            /\ tagged_with keywords db t = true.
Proof.
  unfold hashtag_arm, tagged_with, Sql.lower. rewrite in_map_iff. split.
  - intros [[t m] [E H]]. cbn [fst snd] in *.
    apply filter_In in H. destruct H as [H Hwhere].
    apply filter_In in H. destruct H as [Hprod Hon]. cbn [fst snd] in *.
    apply in_prod_iff in Hprod. destruct Hprod as [Ht Hm].
    exists t. repeat split; [assumption|now symmetry|].
    apply existsb_exists. exists m. split; [assumption|].
    now rewrite Hon, Hwhere.
  - intros [t (Ht & E & Htag)]. apply existsb_exists in Htag.
    destruct Htag as [m [Hm Hboth]]. apply andb_true_iff in Hboth.
    destruct Hboth as [Hon Hwhere]. exists (t, m). cbn [fst snd].
    split; [now symmetry|]. apply filter_In. cbn [fst snd]. split; [|assumption].
    apply filter_In. cbn [fst snd]. split; [now apply in_prod|assumption].
Qed.

Lemma text_arm_iff (keywords : list string) (db : Db) (row : search_row) :
  In row (text_arm keywords db) <->
  exists t, In t (tweets db) /\ row = search_row_of t
            /\ existsb (fun kw => Sql.like (String "%" (kw ++ "%")%string)
                                           (Sql.lower (text t)))
                       keywords = true.
Proof.
  unfold text_arm. rewrite in_map_iff. split.
  - intros [t [E H]]. apply filter_In in H. destruct H as [Ht Hlike].
    exists t. repeat split; [assumption|now symmetry|assumption].
  - intros [t (Ht & E & Hlike)]. exists t. split; [now symmetry|].
    apply filter_In. now split.
Qed.

(** What search returns for keywords that hold no wildcard of [LIKE]: each
    row once, and the rows are those of the tweets in whose text a keyword
    occurs (up to case) or that carry a hashtag equal to a keyword. *)
Lemma search_plain_keywords (keywords : list string) (db : Db) :
  Forall (fun kw => all_chars plain_char kw = true) keywords ->
  NoDup (search_query keywords db)
  /\ forall row,
      In row (search_query keywords db) <->
      exists t, In t (tweets db) /\ row = search_row_of t
                /\ (existsb (fun kw => occurs_ci kw (text t)) keywords = true
                    \/ tagged_with keywords db t = true).
Proof.
  intros Hplain. split.
  - apply order_by_nodup, NoDup_nodup.
  - intros row. rewrite search_query_in, text_arm_iff, hashtag_arm_iff.
    assert (Hsame : forall t,
               existsb (fun kw => Sql.like (String "%" (kw ++ "%")%string)
                                           (Sql.lower (text t))) keywords
               = existsb (fun kw => occurs_ci kw (text t)) keywords).
    { intros t. induction Hplain as [|kw kws Hkw Hkws IH]; cbn [existsb];
        [reflexivity|].
      rewrite IH. unfold Sql.lower. now rewrite like_substring, occurs_ci_lower. }
    split.
    + intros [[t (Ht & E & H)]|[t (Ht & E & H)]]; exists t;
        (repeat split; [assumption|assumption|]).
      * left. now rewrite <- Hsame.
      * now right.
    + intros [t (Ht & E & [H|H])].
      * left. exists t. repeat split; [assumption|assumption|]. now rewrite Hsame.
      * right. now exists t.
Qed.

(** C3. Search with the keyword [_].  On a store whose only tweet reads
    [hi] and has no hashtag, the keyword list of the input [_] is [["_"]],
    and the search returns that tweet, although [_] does not occur in [hi]
    and no hashtag of the tweet equals the keyword: the keyword is handed
    to [LIKE] between two ['%'], where [_] stands for any character. *)
Theorem search_wildcard_keyword :
  let t := mkTweet 1 2 "hi" "2024-01-01" "10:00:00" None in
  keywords_of "_" = ["_"%string]
  /\ session (search_tweets "_") one_tweet_db []
     = (one_tweet_db, SearchResults [search_row_of t])
  /\ existsb (fun kw => occurs_ci kw (text t)) (keywords_of "_") = false
  /\ tagged_with (keywords_of "_") one_tweet_db t = false.
Proof. repeat split; reflexivity. Qed.

(** ** The engine on the example store *)

Example example_feed :
  map f_tid (feed_rows int_of_digits "3" example_db) = [8; 7; 6; 5; 4; 2; 1; 1]
  /\ map f_type (feed_query int_of_digits "3" 5 example_db)
     = ["tweet"; "retweet"; "tweet"]%string
  /\ map f_ttime (feed_query int_of_digits "3" 5 example_db)
     = ["08:00:00"; ""; "09:00:00"]%string.
Proof. repeat split; reflexivity. Qed.

Example example_search_by_hashtag :
  map s_tid (search_query (keywords_of " World , ") example_db) = [1].
Proof. reflexivity. Qed.

(** ** The properties at work on the example store *)

Lemma feed_contents_witness :
  In (mkFeedRow "retweet" 1 "2024-03-02" "" 0 "hello #world")
     (feed_rows int_of_digits "3" example_db)
  /\ ~ In (mkFeedRow "retweet" 2 "2024-03-03" "" 1 "second")
          (feed_rows int_of_digits "3" example_db).
Proof.
  destruct (feed_contents int_of_digits example_db "3") as (Hmem & _ & Hspam & _).
  split.
  - apply Hmem. right.
    exists (mkRetweet 1 5 7 0 "2024-03-02"),
           (mkTweet 1 7 "hello #world" "2024-03-01" "09:00:00" None).
    repeat split.
    + cbn. tauto.
    + cbn. tauto.
    + exists (mkFollow 3 5 "2024-02-02"). cbn. tauto.
  - apply (Hspam (mkRetweet 2 7 5 1 "2024-03-03") "second"%string). discriminate.
Defined.

Lemma feed_ordering_witness :
  nth_error (feed_rows int_of_digits "3" example_db) 6
  = Some (mkFeedRow "retweet" 1 "2024-03-02" "" 0 "hello #world")
  /\ nth_error (feed_rows int_of_digits "3" example_db) 5
     = Some (mkFeedRow "tweet" 2 "2024-03-02" "08:00:00" 0 "second")
  /\ (5 < 6)%nat.
Proof.
  destruct (feed_ordering int_of_digits example_db "3") as (_ & _ & _ & Hafter).
  split; [reflexivity|]. split; [reflexivity|].
  apply (Hafter 6%nat 5%nat
           (mkFeedRow "retweet" 1 "2024-03-02" "" 0 "hello #world")
           (mkFeedRow "tweet" 2 "2024-03-02" "08:00:00" 0 "second"));
    try reflexivity.
  discriminate.
Defined.

Lemma example_db_references_tweets : references_tweets example_db.
Proof. intros r [<-|[<-|[]]]; cbn; tauto. Qed.

Lemma retweet_admission_witness :
  session (retweet int_of_digits 99 "3" "2024-04-01") example_db []
  = (example_db, TweetNotFound 99)
  /\ session (retweet int_of_digits 1 "5" "2024-04-01") example_db []
     = (example_db, AlreadyRetweeted)
  /\ retweet_count 4
       (fst (session (retweet int_of_digits 4 "3" "2024-04-01") example_db [])) = 1.
Proof.
  split; [|split].
  - destruct (retweet_admission int_of_digits example_db 99 "3" "2024-04-01" "2024-04-02")
      as (Hmissing & _ & _).
    apply Hmissing; [apply example_db_references_tweets|].
    cbn. intuition discriminate.
  - destruct (retweet_admission int_of_digits example_db 1 "5" "2024-04-01" "2024-04-02")
      as (_ & Hdup & _).
    apply Hdup. discriminate.
  - destruct (retweet_admission int_of_digits example_db 4 "3" "2024-04-01" "2024-04-02")
      as (_ & _ & Hnew).
    destruct (Hnew (mkTweet 4 7 "third" "2024-03-02" "10:00:00" None) eq_refl eq_refl)
      as (Hposted & _ & _ & Hcount).
    rewrite Hposted. apply Hcount. reflexivity.
Defined.

Lemma compose_tweet_hashtags_witness :
  exists db',
    session (compose_tweet int_of_digits "3" " Hello #World #rocq " "2024-04-01" "12:00:00")
            example_db []
    = (db', TweetPosted)
    /\ exists rows,
        hashtag_mentions db' = hashtag_mentions example_db ++ rows
        /\ Permutation rows [mkMention 9 "world"; mkMention 9 "rocq"].
Proof.
  destruct (compose_tweet_hashtags int_of_digits example_db []
              "3" " Hello #World #rocq " "2024-04-01" "12:00:00")
    as (_ & Hdistinct & _).
  destruct Hdistinct as [db' (Hposted & _ & Hmentions & _)].
  - vm_compute. constructor; [|constructor; [|constructor]]; cbn; intuition discriminate.
  - reflexivity.
  - exists db'. split; [exact Hposted|exact Hmentions].
Defined.

Example follow_user_admission_example :
  session (follow_user int_of_digits "7" 3 "2024-04-01") example_db []
  = (add_follow (mkFollow 7 3 "2024-04-01") example_db, NowFollowing)
  /\ List.length
       (edges 3 7
          (fst (session (follow_user int_of_digits "3" 7 "2024-04-02")
                  (fst (session (follow_user int_of_digits "3" 7 "2024-04-01")
                          example_db []))
                  []))) = 1%nat.
Proof.
  split.
  - destruct (follow_user_admission int_of_digits example_db [] "7" 3
                "2024-04-01" "2024-04-02") as (_ & Hother).
    destruct Hother as (Hnew & _); [discriminate|]. apply Hnew. reflexivity.
  - destruct (follow_user_admission int_of_digits example_db [] "3" 7
                "2024-04-01" "2024-04-02") as (_ & Hother).
    destruct Hother as (_ & Htwice); [discriminate|].
    assert (Hle : (List.length (edges (int_of_digits "3") 7 example_db) <= 1)%nat)
      by (vm_compute; lia).
    specialize (Htwice Hle). cbv zeta in Htwice.
    destruct (session (follow_user int_of_digits "3" 7 "2024-04-02") _ [])
      as [db2 again].
    destruct Htwice as (_ & _ & Hone). exact Hone.
Defined.

Lemma feed_pagination_witness :
  List.concat (map (fun i => feed_query int_of_digits "3" (5 * i) example_db) (seq 0 2))
  = feed_rows int_of_digits "3" example_db
  /\ shown_rows (show_feed int_of_digits "3" example_db [] ["n"; "n"; "b"]%string)
     = feed_rows int_of_digits "3" example_db.
Proof.
  destruct (feed_pagination int_of_digits example_db "3") as (Hpages & Hshown & _).
  split.
  - apply Hpages. vm_compute. lia.
  - apply (Hshown 2%nat). vm_compute. lia.
Defined.

Lemma id_assignment_witness :
  exists uid,
    session (sign_up "dee@x.org" "400" "Dee" "pw") example_db []
    = (add_user (mkUser uid "Dee" "dee@x.org" "400" "pw") example_db,
       RegistrationSuccessful uid)
    /\ uid = 8.
Proof.
  destruct (id_assignment_max_plus_one example_db "dee@x.org" "400" "Dee" "pw")
    as ((uid & Hrun & _ & _ & Hseven) & _).
  exists uid. split; [exact Hrun|]. apply Hseven.
  split; [cbn; tauto|]. intros x Hx. cbn in Hx. lia.
Defined.

Lemma add_to_favorite_list_witness :
  ~ In 99 (map tid (tweets example_db))
  /\ snd (session (add_to_favorite_list int_of_digits "3" 99 "" " 1 ") example_db [])
     = TweetAdded "favs"
  /\ include (fst (session (add_to_favorite_list int_of_digits "3" 99 "" " 1 ")
                           example_db []))
     = [mkInclude 3 "favs" 99].
Proof.
  assert (Habsent : ~ In 99 (map tid (tweets example_db)))
    by (cbn; intuition discriminate).
  split; [exact Habsent|].
  pose proof (add_to_favorite_list_no_tweet_check int_of_digits example_db "3" 99
                "" " 1 " 0 "favs" Habsent eq_refl eq_refl eq_refl eq_refl) as H.
  destruct (session (add_to_favorite_list int_of_digits "3" 99 "" " 1 ") example_db [])
    as [db' printed].
  destruct H as (Hprinted & _ & Hinclude & _). split; [exact Hprinted|exact Hinclude].
Defined.

(** * More properties *)

(** ** Transactions, whatever the store rejects *)

Lemma commit_idle (cm pd : Db) (rj : list bool) :
  commit (mkConn cm pd false rj) = (Some tt, mkConn cm pd false rj).
Proof. reflexivity. Qed.

Lemma ret_eq {A : Type} (a : A) (c : conn) : ret a c = (Some a, c).
Proof. reflexivity. Qed.

Lemma run_with_connect_db_eq {A : Type} (failed : A) (body : Txn A)
  (db : Db) (rj : list bool) :
  run_with failed connect_db body (fresh_conn db rj)
  = if hd false rj then (failed, mkConn db db false (tl rj))
    else if hd false (tl rj) then (failed, mkConn db db false (tl (tl rj)))
    else
      match body (mkConn db db false (tl (tl rj))) with
      | (None, c2) =>
          (failed, mkConn (committed c2) (committed c2) false (rejects c2))
      | (Some o, c2) =>
          match commit c2 with
          | (Some _, c3) => (o, c3)
          | (None, c3) =>
              (failed, mkConn (committed c3) (committed c3) false (rejects c3))
          end
      end.
Proof.
  unfold run_with, connect_db, connect, fresh_conn.
  rewrite bind_eq, statement_eq. destruct (hd false rj); [reflexivity|].
  rewrite statement_eq. destruct (hd false (tl rj)); reflexivity.
Qed.

Lemma run_with_connect_eq {A : Type} (failed : A) (body : Txn A)
  (db : Db) (rj : list bool) :
  run_with failed connect body (fresh_conn db rj)
  = if hd false rj then (failed, mkConn db db false (tl rj))
    else
      match body (mkConn db db false (tl rj)) with
      | (None, c2) =>
          (failed, mkConn (committed c2) (committed c2) false (rejects c2))
      | (Some o, c2) =>
          match commit c2 with
          | (Some _, c3) => (o, c3)
          | (None, c3) =>
              (failed, mkConn (committed c3) (committed c3) false (rejects c3))
          end
      end.
Proof.
  unfold run_with, connect, fresh_conn.
  rewrite statement_eq. destruct (hd false rj); reflexivity.
Qed.

Lemma run_close_connect_db_eq {A : Type} (failed : A) (body : Txn A)
  (db : Db) (rj : list bool) :
  run_close failed connect_db body (fresh_conn db rj)
  = if hd false rj then (failed, mkConn db db false (tl rj))
    else if hd false (tl rj) then (failed, mkConn db db false (tl (tl rj)))
    else
      match body (mkConn db db false (tl (tl rj))) with
      | (None, c2) =>
          (failed, mkConn (committed c2) (committed c2) false (rejects c2))
      | (Some o, c2) =>
          (o, mkConn (committed c2) (committed c2) false (rejects c2))
      end.
Proof.
  unfold run_close, connect_db, connect, fresh_conn.
  rewrite bind_eq, statement_eq. destruct (hd false rj); [reflexivity|].
  rewrite statement_eq. destruct (hd false (tl rj)); reflexivity.
Qed.

(** One step of a transaction on a connection that is written out. *)
Ltac txn_step :=
  first
    [ rewrite bind_eq
    | rewrite select_eq
    | rewrite insert_eq
    | rewrite commit_eq
    | rewrite commit_idle
    | rewrite ret_eq
    | match goal with
      | |- context [hd false ?r] => destruct (hd false r)
      end ];
  cbn [fst snd committed pending in_transaction rejects].

Ltac txn_run := repeat txn_step.

Section Writers.

Variable sql_int : string -> Z.

Lemma follow_user_cases (db : Db) (rj : list bool) (current_usr : string)
  (target_usr : Z) (today : string) :
  let (db', printed) := session (follow_user sql_int current_usr target_usr today) db rj in
  (printed = NowFollowing
   /\ db' = add_follow (mkFollow (sql_int current_usr) target_usr today) db
   /\ current_usr <> Py.str target_usr
   /\ edges (sql_int current_usr) target_usr db = [])
  \/ (printed <> NowFollowing /\ db' = db).
Proof.
  unfold session, follow_user.
  destruct (String.eqb_spec current_usr (Py.str target_usr)) as [Heq|Hne].
  - right. split; [discriminate|reflexivity].
  - rewrite run_with_connect_db_eq.
    destruct (existsb (fun f => (flwer f =? sql_int current_usr) && (flwee f =? target_usr))
                      (follows db)) eqn:Efound;
      txn_run; try rewrite Efound; txn_run;
      try (right; split; [discriminate|reflexivity]).
    left. repeat split; try assumption. now apply existsb_filter_nil.
Qed.

End Writers.

(** ** Fresh identifiers *)

Lemma sql_max_bound (ids : list Z) (x : Z) :
  In x ids -> exists m, Sql.max ids = Some m /\ x <= m.
Proof.
  intros Hx. destruct (Sql.max ids) as [m|] eqn:E.
  - exists m. split; [reflexivity|]. now apply (sql_max_is_max ids m E).
  - apply sql_max_nil_iff in E. subst ids. destruct Hx.
Qed.

Lemma new_tid_fresh (ids : list Z) : ~ In (or_zero (Sql.max ids) + 1) ids.
Proof.
  intros Hin. destruct (sql_max_bound ids _ Hin) as [m [E Hle]].
  rewrite E in Hle. cbn in Hle. lia.
Qed.

Lemma new_usr_fresh (ids : list Z) : ~ In (new_usr (Sql.max ids)) ids.
Proof.
  intros Hin. destruct (sql_max_bound ids _ Hin) as [m [E Hle]].
  rewrite E in Hle. cbn in Hle. destruct (Z.eqb_spec m 0); lia.
Qed.

Lemma nodup_snoc {A : Type} (l : list A) (x : A) :
  NoDup l -> ~ In x l -> NoDup (l ++ [x]).
Proof.
  intros Hl Hx. apply NoDup_app; [assumption|repeat constructor; intros []|].
  intros y Hy [<-|[]]. contradiction.
Qed.

(** ** Writers keep the keys and links *)

Lemma consistent_add_user (db : Db) (u : user_row) :
  consistent db -> ~ In (usr u) (map usr (users db)) -> consistent (add_user u db).
Proof.
  intros [] Hfresh. constructor; cbn; try assumption.
  rewrite map_app. now apply nodup_snoc.
Qed.

Lemma consistent_add_tweet (db : Db) (t : tweet_row) :
  consistent db -> ~ In (tid t) (map tid (tweets db)) -> consistent (add_tweet t db).
Proof.
  intros [] Hfresh. constructor; cbn; try assumption.
  - rewrite map_app. now apply nodup_snoc.
  - intros r Hr. cbn. rewrite map_app. apply in_or_app. left. now apply link_retweets0.
  - intros m Hm. rewrite map_app. apply in_or_app. left. now apply link_mentions0.
Qed.

Lemma consistent_add_retweet (db : Db) (r : retweet_row) :
  consistent db ->
  ~ In (rt_tid r, retweeter_id r)
       (map (fun r => (rt_tid r, retweeter_id r)) (retweets db)) ->
  In (rt_tid r) (map tid (tweets db)) ->
  consistent (add_retweet r db).
Proof.
  intros [] Hfresh Hlink. constructor; cbn; try assumption.
  - rewrite map_app. now apply nodup_snoc.
  - intros r' Hr'. cbn in *. apply in_app_or in Hr'.
    destruct Hr' as [Hr'|[<-|[]]]; [now apply link_retweets0|assumption].
Qed.

Lemma consistent_add_follow (db : Db) (f : follow_row) :
  consistent db ->
  ~ In (flwer f, flwee f) (map (fun f => (flwer f, flwee f)) (follows db)) ->
  consistent (add_follow f db).
Proof.
  intros [] Hfresh. constructor; cbn; try assumption.
  rewrite map_app. now apply nodup_snoc.
Qed.

Lemma consistent_add_mention (db : Db) (m : mention_row) :
  consistent db ->
  ~ In (hm_tid m, term m) (map (fun m => (hm_tid m, term m)) (hashtag_mentions db)) ->
  In (hm_tid m) (map tid (tweets db)) ->
  consistent (add_mention m db).
Proof.
  intros [] Hfresh Hlink. constructor; cbn; try assumption.
  - rewrite map_app. now apply nodup_snoc.
  - intros m' Hm'. apply in_app_or in Hm'.
    destruct Hm' as [Hm'|[<-|[]]]; [now apply link_mentions0|assumption].
Qed.

Lemma consistent_add_list (db : Db) (l : list_row) :
  consistent db ->
  ~ In (owner_id l, lname l) (map (fun l => (owner_id l, lname l)) (lists db)) ->
  consistent (add_list l db).
Proof.
  intros [] Hfresh. constructor; cbn; try assumption.
  - rewrite map_app. now apply nodup_snoc.
  - intros i Hi. rewrite map_app. apply in_or_app. left. now apply link_include0.
Qed.

Lemma consistent_add_include (db : Db) (i : include_row) :
  consistent db ->
  ~ In (inc_owner_id i, inc_lname i, inc_tid i)
       (map (fun i => (inc_owner_id i, inc_lname i, inc_tid i)) (include db)) ->
  In (inc_owner_id i, inc_lname i) (map (fun l => (owner_id l, lname l)) (lists db)) ->
  consistent (add_include i db).
Proof.
  intros [] Hfresh Hlink. constructor; cbn; try assumption.
  - rewrite map_app. now apply nodup_snoc.
  - intros i' Hi'. apply in_app_or in Hi'.
    destruct Hi' as [Hi'|[<-|[]]]; [now apply link_include0|assumption].
Qed.

Lemma no_edge_no_pair (a b : Z) (db : Db) :
  edges a b db = [] ->
  ~ In (a, b) (map (fun f => (flwer f, flwee f)) (follows db)).
Proof.
  intros Hnone Hin. apply in_map_iff in Hin. destruct Hin as [f [E Hf]].
  injection E as Ea Eb.
  assert (Hf' : In f (edges a b db)).
  { apply filter_In. split; [assumption|]. now rewrite Ea, Eb, !Z.eqb_refl. }
  rewrite Hnone in Hf'. destruct Hf'.
Qed.

Section WriterCases.

Variable sql_int : string -> Z.

Lemma sign_up_cases (db : Db) (rj : list bool) (email_ phone_ name_ pwd_ : string) :
  let new := new_usr (Sql.max (map usr (users db))) in
  session (sign_up email_ phone_ name_ pwd_) db rj
  = (add_user (mkUser new name_ email_ phone_ pwd_) db, RegistrationSuccessful new)
  \/ session (sign_up email_ phone_ name_ pwd_) db rj = (db, DatabaseError).
Proof.
  unfold session, sign_up. rewrite run_with_connect_db_eq.
  txn_run; auto.
Qed.

Lemma retweet_cases (db : Db) (rj : list bool) (target : Z) (usr_ rdate_ : string) :
  let (db', printed) := session (retweet sql_int target usr_ rdate_) db rj in
  (exists t,
      printed = RetweetPosted
      /\ db' = add_retweet (mkRetweet target (sql_int usr_) (writer_id t) 0 rdate_) db
      /\ find (fun t => tid t =? target) (tweets db) = Some t
      /\ filter (mine sql_int target usr_) (retweets db) = [])
  \/ (printed <> RetweetPosted /\ db' = db).
Proof.
  unfold session, retweet. rewrite run_close_connect_db_eq.
  fold (mine sql_int target usr_).
  destruct (filter (mine sql_int target usr_) (retweets db)) as [|r rs] eqn:Emine;
    destruct (find (fun t => tid t =? target) (tweets db)) as [t|] eqn:Efind;
    txn_run; rewrite ?count_pos_iff, ?Emine; cbn [nonempty]; txn_run;
    rewrite ?hd_error_map_filter, ?Efind; cbn [option_map]; txn_run;
    try (right; split; [discriminate|reflexivity]).
  left. exists t. repeat split.
Qed.

End WriterCases.

Lemma example_db_consistent : consistent example_db.
Proof.
  constructor; cbn.
  1-7: repeat (constructor; [cbn; intuition (try discriminate; try congruence)|]);
       constructor.
  - intros r [<-|[<-|[]]]; cbn; tauto.
  - intros m [<-|[]]; cbn; tauto.
  - intros i [].
Qed.

(** X1. [sign_up] keeps the keys and links of the store, whatever the
    store rejects: in particular the id it assigns is never an id in use. *)
Theorem sign_up_keeps_consistent
  (db : Db) (rj : list bool) (email_ phone_ name_ pwd_ : string) :
  consistent db ->
  consistent (fst (session (sign_up email_ phone_ name_ pwd_) db rj)).
Proof.
  intros Hdb.
  destruct (sign_up_cases db rj email_ phone_ name_ pwd_) as [-> | ->]; cbn [fst];
    [|assumption].
  apply consistent_add_user; [assumption|]. cbn. apply new_usr_fresh.
Qed.

Lemma sign_up_keeps_consistent_witness :
  consistent
    (fst (session (sign_up "dee@x.org" "400" "Dee" "pw") example_db [])).
Proof. apply sign_up_keeps_consistent. apply example_db_consistent. Defined.

(** X2. [retweet] keeps the keys and links of the store, whatever the
    store rejects: it never adds a second row for a pair (tid, retweeter)
    and never a row for a tweet that is not in [tweets]. *)
Theorem retweet_keeps_consistent
  (sql_int : string -> Z) (db : Db) (rj : list bool) (target : Z)
  (usr_ rdate_ : string) :
  consistent db ->
  consistent (fst (session (retweet sql_int target usr_ rdate_) db rj)).
Proof.
  intros Hdb. pose proof (retweet_cases sql_int db rj target usr_ rdate_) as Hcases.
  destruct (session (retweet sql_int target usr_ rdate_) db rj) as [db' printed].
  cbn [fst]. destruct Hcases as [[t (_ & -> & Hfind & Hnone)]|[_ ->]]; [|assumption].
  apply find_some in Hfind. destruct Hfind as [Ht Htid]. apply Z.eqb_eq in Htid.
  apply consistent_add_retweet; [assumption| |]; cbn.
  - intros Hin. apply in_map_iff in Hin. destruct Hin as [r [E Hr]].
    injection E as Et Eu.
    assert (Hr' : In r (filter (mine sql_int target usr_) (retweets db))).
    { apply filter_In. split; [assumption|]. unfold mine.
      now rewrite Et, Eu, !Z.eqb_refl. }
    rewrite Hnone in Hr'. destruct Hr'.
  - rewrite <- Htid. now apply in_map.
Qed.

Lemma retweet_keeps_consistent_witness :
  consistent
    (fst (session (retweet int_of_digits 4 "3" "2024-04-01") example_db [false; false; true])).
Proof. apply retweet_keeps_consistent. apply example_db_consistent. Defined.

(** X3. [follow_user] keeps the keys and links of the store, whatever the
    store rejects.  For a session whose id is the decimal text of the id
    the store reads from it, it never records an edge from a user to
    themselves. *)
Theorem follow_user_keeps_consistent
  (sql_int : string -> Z) (db : Db) (rj : list bool) (current_usr : string)
  (target_usr : Z) (today : string) :
  consistent db ->
  consistent (fst (session (follow_user sql_int current_usr target_usr today) db rj))
  /\ (Py.str (sql_int current_usr) = current_usr ->
      no_self_follow db ->
      no_self_follow
        (fst (session (follow_user sql_int current_usr target_usr today) db rj))).
Proof.
  intros Hdb.
  pose proof (follow_user_cases sql_int db rj current_usr target_usr today) as Hcases.
  destruct (session (follow_user sql_int current_usr target_usr today) db rj)
    as [db' printed].
  cbn [fst]. destruct Hcases as [(_ & -> & Hne & Hnone)|[_ ->]]; [|tauto].
  split.
  - apply consistent_add_follow; [assumption|]. cbn. now apply no_edge_no_pair.
  - intros Hcanon Hself f Hf. cbn in Hf. apply in_app_or in Hf.
    destruct Hf as [Hf|[<-|[]]]; [now apply Hself|].
    cbn. intros E. apply Hne. now rewrite <- E.
Qed.

Lemma follow_user_keeps_consistent_witness :
  consistent
    (fst (session (follow_user int_of_digits "7" 3 "2024-04-01") example_db []))
  /\ no_self_follow
       (fst (session (follow_user int_of_digits "7" 3 "2024-04-01") example_db [])).
Proof.
  destruct (follow_user_keeps_consistent int_of_digits example_db [] "7" 3
              "2024-04-01" example_db_consistent) as [Hkeys Hself].
  split; [exact Hkeys|]. apply Hself; [reflexivity|].
  intros f [<-|[<-|[]]]; discriminate.
Defined.

Lemma compose_tweet_cases (sql_int : string -> Z) (db : Db) (rj : list bool)
  (usr_ line tdate_ ttime_ : string) :
  let tweet_text := Py.strip line in
  let hashtags := Py.findall_hashtags (Py.lower tweet_text) in
  let (db', printed) := session (compose_tweet sql_int usr_ line tdate_ ttime_) db rj in
  (printed = TweetPosted
   /\ db' = composed sql_int db usr_ tweet_text hashtags tdate_ ttime_
   /\ Py.truthy tweet_text = true
   /\ NoDup hashtags)
  \/ (printed <> TweetPosted /\ db' = db).
Proof.
  intros tweet_text hashtags.
  destruct (Py.truthy tweet_text) eqn:Htext.
  - destruct (duplicates hashtags) as [|h hs] eqn:Hdups.
    + rewrite (compose_session_eq sql_int usr_ line tdate_ ttime_ db rj Htext Hdups).
      destruct (hd false rj); [right; split; [discriminate|reflexivity]|].
      destruct (compose_body_all_or_nothing sql_int db usr_ tweet_text hashtags
                  tdate_ ttime_ (tl rj)) as [rj' [H|[pd' [tx' H]]]];
        fold tweet_text; fold hashtags; rewrite H; cbn.
      * left. repeat split. now apply duplicates_nil_iff.
      * right. split; [discriminate|reflexivity].
    + unfold session, compose_tweet. fold tweet_text. rewrite Htext. cbn [negb].
      fold hashtags. rewrite Hdups. cbn. right. split; [discriminate|reflexivity].
  - unfold session, compose_tweet. fold tweet_text. rewrite Htext. cbn.
    right. split; [discriminate|reflexivity].
Qed.

Lemma nodup_pair_with {A B C : Type} (c : C) (g : A -> B) (l : list A) :
  NoDup (map g l) -> NoDup (map (fun x => (c, g x)) l).
Proof.
  induction l as [|x l IH]; cbn; intros H; [constructor|].
  apply NoDup_cons_iff in H. destruct H as [Hx Hl]. constructor; [|now apply IH].
  intros Hin. apply Hx. apply in_map_iff in Hin. destruct Hin as [y [[= E] Hy]].
  rewrite <- E. now apply in_map.
Qed.

Lemma composed_consistent (sql_int : string -> Z) (db : Db)
  (usr_ tweet_text : string) (hashtags : list string) (tdate_ ttime_ : string) :
  consistent db ->
  Forall (hashtag_shape is_lowered) hashtags ->
  consistent (composed sql_int db usr_ tweet_text hashtags tdate_ ttime_).
Proof.
  intros Hdb Hshape.
  destruct (composed_tables sql_int db usr_ tweet_text hashtags tdate_ ttime_)
    as (Ht & Hm & Hu & Hr & Hf & Hl & Hi).
  set (new_tid := or_zero (Sql.max (map tid (tweets db))) + 1) in *.
  assert (Hfresh : ~ In new_tid (map tid (tweets db))) by apply new_tid_fresh.
  destruct Hdb. constructor; rewrite ?Ht, ?Hm, ?Hu, ?Hr, ?Hf, ?Hl, ?Hi; try assumption.
  - rewrite map_app. now apply nodup_snoc.
  - rewrite map_app, map_map. cbn [hm_tid term]. apply NoDup_app.
    + assumption.
    + apply nodup_pair_with.
      apply (tail_injective_on_hashtags is_lowered).
      * rewrite Forall_forall in *. intros h Hh. apply Hshape.
        unfold Py.set in Hh. now apply nodup_In in Hh.
      * apply NoDup_nodup.
    + intros pair Hold Hnew. apply in_map_iff in Hold. destruct Hold as [m [<- Hm']].
      apply in_map_iff in Hnew. destruct Hnew as [h [[= Etid _] _]].
      apply Hfresh. rewrite Etid. now apply link_mentions0.
  - unfold references_tweets. rewrite Hr, Ht. intros r Hr'.
    rewrite map_app. apply in_or_app. left. now apply link_retweets0.
  - intros m Hm'. rewrite map_app. apply in_app_or in Hm'. apply in_or_app.
    destruct Hm' as [Hm'|Hm']; [left; now apply link_mentions0|].
    right. apply in_map_iff in Hm'. destruct Hm' as [h [<- _]]. cbn. now left.
Qed.

(** X4. [compose_tweet] keeps the keys and links of the store, whatever
    the store rejects: the tweet id is new, the mention rows it adds are
    pairwise distinct and name the new tweet. *)
Theorem compose_tweet_keeps_consistent
  (sql_int : string -> Z) (db : Db) (rj : list bool)
  (usr_ line tdate_ ttime_ : string) :
  consistent db ->
  consistent (fst (session (compose_tweet sql_int usr_ line tdate_ ttime_) db rj)).
Proof.
  intros Hdb.
  pose proof (compose_tweet_cases sql_int db rj usr_ line tdate_ ttime_) as Hcases.
  cbv zeta in Hcases.
  destruct (session (compose_tweet sql_int usr_ line tdate_ ttime_) db rj)
    as [db' printed].
  cbn [fst]. destruct Hcases as [(_ & -> & _ & _)|[_ ->]]; [|assumption].
  apply composed_consistent; [assumption|apply findall_hashtags_shape].
Qed.

Lemma compose_tweet_keeps_consistent_witness :
  consistent
    (fst (session (compose_tweet int_of_digits "3" "again #world #x" "2024-04-01" "12:00:00")
                  example_db [])).
Proof. apply compose_tweet_keeps_consistent. apply example_db_consistent. Defined.

(** ** Favourite lists, whatever the store rejects *)

Section FavoriteCases.

Variable sql_int : string -> Z.

Lemma add_to_favorite_list_eq (usr_ : string) (target : Z)
  (name_line choice_line : string) :
  add_to_favorite_list sql_int usr_ target name_line choice_line
  = run_with DatabaseError connect
      (bind (select (lists_of sql_int usr_))
            (fun fav_lists0 =>
               bind match fav_lists0 with
                    | [] => bind (nested (create_favorite_list sql_int usr_ name_line))
                                 (fun _ => select (lists_of sql_int usr_))
                    | _ :: _ => ret fav_lists0
                    end
                    (select_and_add sql_int usr_ target choice_line))).
Proof. reflexivity. Qed.

Lemma no_list_no_pair (usr_ : string) (l : string) (db : Db) :
  existsb (fun r => (owner_id r =? sql_int usr_) && String.eqb (lname r) l) (lists db)
  = false ->
  ~ In (sql_int usr_, l) (map (fun r => (owner_id r, lname r)) (lists db)).
Proof.
  intros Hnone Hin. apply in_map_iff in Hin. destruct Hin as [r [[= Eo El] Hr]].
  assert (Hex : existsb (fun r => (owner_id r =? sql_int usr_) && String.eqb (lname r) l)
                        (lists db) = true).
  { apply existsb_exists. exists r. split; [assumption|].
    now rewrite Eo, El, Z.eqb_refl, String.eqb_refl. }
  congruence.
Qed.

(** [create_favorite_list] on a fresh connection: the store after it is
    the store before it, or that store with the new list. *)
Lemma create_favorite_list_conn (usr_ line : string) (db : Db) (rj : list bool) :
  exists printed db' rj',
    create_favorite_list sql_int usr_ line (fresh_conn db rj)
    = (printed, mkConn db' db' false rj')
    /\ ((printed = ListCreated (Py.strip line)
         /\ db' = add_list (mkList (sql_int usr_) (Py.strip line)) db
         /\ Py.truthy (Py.strip line) = true
         /\ ~ In (sql_int usr_, Py.strip line)
                 (map (fun r => (owner_id r, lname r)) (lists db)))
        \/ ((forall l, printed <> ListCreated l) /\ db' = db)).
Proof.
  unfold create_favorite_list. rewrite run_with_connect_eq.
  destruct (Py.truthy (Py.strip line)) eqn:Hname; cbn [negb].
  - destruct (existsb (fun l => (owner_id l =? sql_int usr_)
                                && String.eqb (lname l) (Py.strip line)) (lists db))
      eqn:Hfound;
      txn_run; rewrite ?Hfound; txn_run;
      try (eexists _, _, _; split; [reflexivity|right; split; [discriminate|reflexivity]]).
    eexists _, _, _. split; [reflexivity|]. left. repeat split.
    now apply no_list_no_pair.
  - txn_run;
      eexists _, _, _; (split; [reflexivity|right; split; [discriminate|reflexivity]]).
Qed.

Lemma select_and_add_cases (usr_ : string) (target : Z) (choice_line : string)
  (fav_lists : list string) (db : Db) (rj : list bool) :
  (exists pd' tx' rj',
      select_and_add sql_int usr_ target choice_line fav_lists (mkConn db db false rj)
      = (None, mkConn db pd' tx' rj'))
  \/ (exists printed rj',
         select_and_add sql_int usr_ target choice_line fav_lists (mkConn db db false rj)
         = (Some printed, mkConn db db false rj')
         /\ forall l, printed <> TweetAdded l)
  \/ (exists chosen rj',
         select_and_add sql_int usr_ target choice_line fav_lists (mkConn db db false rj)
         = (Some (TweetAdded chosen),
            let db' := add_include (mkInclude (sql_int usr_) chosen target) db in
            mkConn db' db' false rj')
         /\ In chosen fav_lists
         /\ included (sql_int usr_) chosen target db = []).
Proof.
  unfold select_and_add.
  destruct fav_lists as [|l0 ls];
    [right; left; eexists _, _; split; [reflexivity|discriminate]|].
  destruct (String.eqb (Py.lower (Py.strip choice_line)) "q");
    [right; left; eexists _, _; split; [reflexivity|discriminate]|].
  destruct (Py.isdigit (Py.strip choice_line));
    [|right; left; eexists _, _; split; [reflexivity|discriminate]].
  cbv zeta.
  destruct ((0 <=? Py.int (Py.strip choice_line) - 1)
            && (Py.int (Py.strip choice_line) - 1 <? Z.of_nat (List.length (l0 :: ls))));
    [|right; left; eexists _, _; split; [reflexivity|discriminate]].
  destruct (nth_error (l0 :: ls) (Z.to_nat (Py.int (Py.strip choice_line) - 1)))
    as [chosen|] eqn:Hnth;
    [|right; left; eexists _, _; split; [reflexivity|discriminate]].
  destruct (existsb (fun i => (inc_owner_id i =? sql_int usr_)
                              && String.eqb (inc_lname i) chosen
                              && (inc_tid i =? target)) (include db)) eqn:Hfound;
    txn_run; rewrite ?Hfound; txn_run;
    try (left; eexists _, _, _; reflexivity);
    try (right; left; eexists _, _; split; [reflexivity|discriminate]).
  right. right. exists chosen. eexists. split; [reflexivity|]. split.
  - eapply nth_error_In; eauto.
  - now apply existsb_filter_nil.
Qed.

End FavoriteCases.

Section FavoriteSessions.

Variable sql_int : string -> Z.

Lemma nested_create_eq (usr_ line : string) (db : Db) (rj : list bool) :
  exists printed db' rj',
    nested (create_favorite_list sql_int usr_ line) (mkConn db db false rj)
    = (Some printed, mkConn db' db' false rj')
    /\ ((printed = ListCreated (Py.strip line)
         /\ db' = add_list (mkList (sql_int usr_) (Py.strip line)) db
         /\ Py.truthy (Py.strip line) = true
         /\ ~ In (sql_int usr_, Py.strip line)
                 (map (fun r => (owner_id r, lname r)) (lists db)))
        \/ ((forall l, printed <> ListCreated l) /\ db' = db)).
Proof.
  destruct (create_favorite_list_conn sql_int usr_ line db rj)
    as (printed & db' & rj' & Hrun & Hcases).
  exists printed, db', rj'. split; [|exact Hcases].
  unfold nested. cbn [committed rejects in_transaction]. now rewrite Hrun.
Qed.

Lemma add_to_favorite_list_cases (db : Db) (rj : list bool) (usr_ : string)
  (target : Z) (name_line choice_line : string) :
  let (db', printed) :=
    session (add_to_favorite_list sql_int usr_ target name_line choice_line) db rj in
  exists db1,
    (db1 = db
     \/ (db1 = add_list (mkList (sql_int usr_) (Py.strip name_line)) db
         /\ lists_of sql_int usr_ db = []
         /\ Py.truthy (Py.strip name_line) = true
         /\ ~ In (sql_int usr_, Py.strip name_line)
                 (map (fun r => (owner_id r, lname r)) (lists db))))
    /\ ((db' = db1 /\ forall l, printed <> TweetAdded l)
        \/ (exists chosen,
               printed = TweetAdded chosen
               /\ db' = add_include (mkInclude (sql_int usr_) chosen target) db1
               /\ In chosen (lists_of sql_int usr_ db1)
               /\ included (sql_int usr_) chosen target db1 = [])).
Proof.
  rewrite add_to_favorite_list_eq. unfold session. rewrite run_with_connect_eq.
  destruct (hd false rj).
  { cbn. exists db. split; [now left|left; split; [reflexivity|discriminate]]. }
  rewrite bind_eq, select_eq.
  destruct (hd false (tl rj)).
  { cbn. exists db. split; [now left|left; split; [reflexivity|discriminate]]. }
  destruct (lists_of sql_int usr_ db) as [|l0 ls] eqn:Elists.
  - rewrite bind_eq, bind_eq.
    destruct (nested_create_eq usr_ name_line db (tl (tl rj)))
      as (made & db1 & rj1 & -> & Hmade).
    rewrite select_eq.
    assert (Hdb1 : db1 = db
                   \/ (db1 = add_list (mkList (sql_int usr_) (Py.strip name_line)) db
                       /\ @nil string = []
                       /\ Py.truthy (Py.strip name_line) = true
                       /\ ~ In (sql_int usr_, Py.strip name_line)
                               (map (fun r => (owner_id r, lname r)) (lists db)))).
    { destruct Hmade as [(_ & -> & Hname & Hfresh)|[_ ->]]; [right|left]; auto. }
    destruct (hd false rj1).
    + cbn. exists db1. split; [exact Hdb1|]. left. split; [reflexivity|discriminate].
    + cbv beta iota.
      destruct (select_and_add_cases sql_int usr_ target choice_line
                  (lists_of sql_int usr_ db1) db1 (tl rj1))
        as [(pd' & tx' & rj' & Hrun)
           |[(printed & rj' & Hrun & Hnot)|(chosen & rj' & Hrun & Hin & Hnew)]];
        rewrite Hrun; cbn; exists db1; (split; [exact Hdb1|]).
      * left. split; [reflexivity|discriminate].
      * left. split; [reflexivity|assumption].
      * right. exists chosen. repeat split; assumption.
  - rewrite bind_eq, ret_eq. cbv beta iota.
    destruct (select_and_add_cases sql_int usr_ target choice_line
                (l0 :: ls) db (tl (tl rj)))
      as [(pd' & tx' & rj' & Hrun)
         |[(printed & rj' & Hrun & Hnot)|(chosen & rj' & Hrun & Hin & Hnew)]];
      rewrite Hrun; cbn; exists db; (split; [now left|]).
    + left. split; [reflexivity|discriminate].
    + left. split; [reflexivity|assumption].
    + right. exists chosen. rewrite Elists. repeat split; assumption.
Qed.

End FavoriteSessions.

Section FavoriteAccepted.

Variable sql_int : string -> Z.

Lemma create_blank (usr_ line : string) (db : Db) :
  Py.strip line = EmptyString ->
  create_favorite_list sql_int usr_ line (fresh_conn db [])
  = (ListNameCannotBeEmpty, mkConn db db false []).
Proof. intros H. unfold create_favorite_list. rewrite H. reflexivity. Qed.

Lemma create_existing (usr_ line : string) (db : Db) :
  Py.truthy (Py.strip line) = true ->
  has_list sql_int usr_ (Py.strip line) db = true ->
  create_favorite_list sql_int usr_ line (fresh_conn db [])
  = (ListAlreadyExists, mkConn db db false []).
Proof.
  intros Hname Hhas. unfold create_favorite_list. rewrite Hname.
  unfold has_list in Hhas. run_txn. now rewrite Hhas.
Qed.

Lemma create_new (usr_ line : string) (db : Db) :
  Py.truthy (Py.strip line) = true ->
  has_list sql_int usr_ (Py.strip line) db = false ->
  create_favorite_list sql_int usr_ line (fresh_conn db [])
  = (ListCreated (Py.strip line),
     let db' := add_list (mkList (sql_int usr_) (Py.strip line)) db in
     mkConn db' db' false []).
Proof.
  intros Hname Hhas. unfold create_favorite_list. rewrite Hname.
  unfold has_list in Hhas. run_txn. now rewrite Hhas.
Qed.

Lemma has_list_add (usr_ l : string) (db : Db) :
  has_list sql_int usr_ l (add_list (mkList (sql_int usr_) l) db) = true.
Proof.
  unfold has_list, add_list. cbn. rewrite existsb_app. cbn.
  now rewrite Z.eqb_refl, String.eqb_refl, orb_true_r.
Qed.

Lemma lists_of_add_list (usr_ l : string) (db : Db) :
  lists_of sql_int usr_ (add_list (mkList (sql_int usr_) l) db)
  = lists_of sql_int usr_ db ++ [l].
Proof.
  unfold lists_of, add_list. cbn. rewrite filter_app, map_app. cbn.
  now rewrite Z.eqb_refl.
Qed.

Lemma select_and_add_accepted (usr_ : string) (target : Z) (choice_line : string)
  (fav_lists : list string) (k : nat) (chosen : string) (db : Db) :
  nth_error fav_lists k = Some chosen ->
  Py.isdigit (Py.strip choice_line) = true ->
  Py.int (Py.strip choice_line) = Z.of_nat k + 1 ->
  select_and_add sql_int usr_ target choice_line fav_lists (mkConn db db false [])
  = if nonempty (included (sql_int usr_) chosen target db)
    then (Some AlreadyInList, mkConn db db false [])
    else (Some (TweetAdded chosen),
          let db' := add_include (mkInclude (sql_int usr_) chosen target) db in
          mkConn db' db' false []).
Proof.
  intros Hnth Hdigit Hint.
  assert (Hlen : (k < List.length fav_lists)%nat)
    by (apply nth_error_Some; rewrite Hnth; discriminate).
  unfold select_and_add. destruct fav_lists as [|l0 ls]; [cbn in Hlen; lia|].
  rewrite (isdigit_not_q _ Hdigit), Hdigit, Hint. cbv zeta.
  replace (Z.of_nat k + 1 - 1) with (Z.of_nat k) by lia.
  rewrite Nat2Z.id, Hnth.
  destruct (Z.leb_spec 0 (Z.of_nat k)); [|lia].
  destruct (Z.ltb_spec (Z.of_nat k) (Z.of_nat (List.length (l0 :: ls)))); [|lia].
  cbn [andb].
  assert (Hex : existsb (fun i => (inc_owner_id i =? sql_int usr_)
                                  && String.eqb (inc_lname i) chosen
                                  && (inc_tid i =? target)) (include db)
                = nonempty (included (sql_int usr_) chosen target db)).
  { destruct (included (sql_int usr_) chosen target db) eqn:E.
    - now apply existsb_filter_nil.
    - destruct (existsb _ (include db)) eqn:Ex; [reflexivity|].
      apply existsb_filter_nil in Ex. unfold included in E. congruence. }
  run_txn. fold (included (sql_int usr_) chosen target db) in Hex |- *.
  cbn in Hex. rewrite Hex. now destruct (nonempty _).
Qed.

Lemma select_and_add_refused (usr_ : string) (target : Z) (choice_line : string)
  (fav_lists : list string) (db : Db) :
  fav_lists <> [] ->
  select_and_add sql_int usr_ target choice_line fav_lists (mkConn db db false [])
  = (Some (if String.eqb (Py.lower (Py.strip choice_line)) "q" then SelectionCancelled
           else SelectionIgnored),
     mkConn db db false [])
  \/ (Py.isdigit (Py.strip choice_line) = true
      /\ 1 <= Py.int (Py.strip choice_line) <= Z.of_nat (List.length fav_lists)).
Proof.
  intros Hsome. unfold select_and_add. destruct fav_lists as [|l0 ls]; [contradiction|].
  destruct (String.eqb (Py.lower (Py.strip choice_line)) "q"); [now left|].
  destruct (Py.isdigit (Py.strip choice_line)); [|now left].
  cbv zeta.
  destruct (Z.leb_spec 0 (Py.int (Py.strip choice_line) - 1)); [|now left].
  destruct (Z.ltb_spec (Py.int (Py.strip choice_line) - 1)
                       (Z.of_nat (List.length (l0 :: ls)))); [|now left].
  right. split; [reflexivity|lia].
Qed.

End FavoriteAccepted.

Lemma run_with_connect_accepted {A : Type} (failed : A) (body : Txn A) (db : Db) :
  run_with failed connect body (fresh_conn db [])
  = match body (mkConn db db false []) with
    | (None, c2) =>
        (failed, mkConn (committed c2) (committed c2) false (rejects c2))
    | (Some o, c2) =>
        match commit c2 with
        | (Some _, c3) => (o, c3)
        | (None, c3) =>
            (failed, mkConn (committed c3) (committed c3) false (rejects c3))
        end
    end.
Proof. reflexivity. Qed.

Lemma run_with_connect_db_accepted {A : Type} (failed : A) (body : Txn A) (db : Db) :
  run_with failed connect_db body (fresh_conn db [])
  = match body (mkConn db db false []) with
    | (None, c2) =>
        (failed, mkConn (committed c2) (committed c2) false (rejects c2))
    | (Some o, c2) =>
        match commit c2 with
        | (Some _, c3) => (o, c3)
        | (None, c3) =>
            (failed, mkConn (committed c3) (committed c3) false (rejects c3))
        end
    end.
Proof. reflexivity. Qed.

Lemma select_accepted {A : Type} (q : Db -> A) (cm pd : Db) (tx : bool) :
  select q (mkConn cm pd tx []) = (Some (q pd), mkConn cm pd tx []).
Proof. reflexivity. Qed.

Section FavoriteTheorems.

Variable sql_int : string -> Z.

Lemma add_session_with_lists (usr_ : string) (target : Z)
  (name_line choice_line : string) (db : Db) :
  lists_of sql_int usr_ db <> [] ->
  session (add_to_favorite_list sql_int usr_ target name_line choice_line) db []
  = match select_and_add sql_int usr_ target choice_line (lists_of sql_int usr_ db)
            (mkConn db db false []) with
    | (Some o, c) => (pending c, o)
    | (None, c) => (committed c, DatabaseError)
    end.
Proof.
  intros Hsome. unfold session.
  rewrite add_to_favorite_list_eq, run_with_connect_accepted, bind_eq, select_accepted.
  destruct (lists_of sql_int usr_ db) as [|l0 ls] eqn:E; [contradiction|].
  rewrite bind_eq, ret_eq.
  destruct (select_and_add_cases sql_int usr_ target choice_line (l0 :: ls) db [])
    as [(pd' & tx' & rj' & ->)|[(printed & rj' & -> & _)|(chosen & rj' & -> & _)]];
    reflexivity.
Qed.

Lemma add_session_without_lists (usr_ : string) (target : Z)
  (name_line choice_line : string) (db : Db) :
  lists_of sql_int usr_ db = [] ->
  session (add_to_favorite_list sql_int usr_ target name_line choice_line) db []
  = let db1 := committed (snd (create_favorite_list sql_int usr_ name_line
                                 (fresh_conn db []))) in
    let rj1 := rejects (snd (create_favorite_list sql_int usr_ name_line
                               (fresh_conn db []))) in
    match hd false rj1 with
    | true => (db1, DatabaseError)
    | false =>
        match select_and_add sql_int usr_ target choice_line
                (lists_of sql_int usr_ db1) (mkConn db1 db1 false (tl rj1)) with
        | (Some o, c) => (pending c, o)
        | (None, c) => (committed c, DatabaseError)
        end
    end.
Proof.
  intros Hnone. unfold session.
  rewrite add_to_favorite_list_eq, run_with_connect_accepted, bind_eq, select_accepted.
  rewrite Hnone, bind_eq, bind_eq.
  unfold nested. cbn [committed rejects in_transaction].
  destruct (create_favorite_list_conn sql_int usr_ name_line db [])
    as (made & db1 & rj1 & Hrun & _).
  rewrite Hrun. cbn [snd committed rejects]. rewrite select_eq.
  destruct (hd false rj1); [reflexivity|].
  destruct (select_and_add_cases sql_int usr_ target choice_line
              (lists_of sql_int usr_ db1) db1 (tl rj1))
    as [(pd' & tx' & rj' & ->)|[(printed & rj' & -> & _)|(chosen & rj' & -> & _)]];
    reflexivity.
Qed.

End FavoriteTheorems.

(** X5. [create_favorite_list]: a blank name is refused, a name the user
    already has is refused, any other name is stored once, so that asking
    for it again is refused; and whatever the store rejects, the keys and
    links of the store are kept. *)
Theorem create_favorite_list_admission
  (sql_int : string -> Z) (db : Db) (rj : list bool) (usr_ line : string) :
  (Py.strip line = EmptyString ->
   session (create_favorite_list sql_int usr_ line) db [] = (db, ListNameCannotBeEmpty))
  /\ (Py.truthy (Py.strip line) = true ->
      has_list sql_int usr_ (Py.strip line) db = true ->
      session (create_favorite_list sql_int usr_ line) db [] = (db, ListAlreadyExists))
  /\ (Py.truthy (Py.strip line) = true ->
      has_list sql_int usr_ (Py.strip line) db = false ->
      let db1 := add_list (mkList (sql_int usr_) (Py.strip line)) db in
      session (create_favorite_list sql_int usr_ line) db [] = (db1, ListCreated (Py.strip line))
      /\ session (create_favorite_list sql_int usr_ line) db1 [] = (db1, ListAlreadyExists))
  /\ (consistent db ->
      consistent (fst (session (create_favorite_list sql_int usr_ line) db rj))).
Proof.
  split; [|split; [|split]].
  - intros H. unfold session. now rewrite create_blank.
  - intros Hname Hhas. unfold session. now rewrite create_existing.
  - intros Hname Hhas db1. split.
    + unfold session. now rewrite create_new.
    + unfold session. rewrite create_existing; [reflexivity|assumption|].
      apply has_list_add.
  - intros Hdb. unfold session.
    destruct (create_favorite_list_conn sql_int usr_ line db rj)
      as (printed & db' & rj' & -> & [(_ & -> & _ & Hfresh)|[_ ->]]); cbn [fst committed];
      [|assumption].
    now apply consistent_add_list.
Qed.

Lemma create_favorite_list_admission_witness :
  session (create_favorite_list int_of_digits "3" "  " ) example_db []
  = (example_db, ListNameCannotBeEmpty)
  /\ session (create_favorite_list int_of_digits "3" " favs ") example_db []
     = (example_db, ListAlreadyExists)
  /\ session (create_favorite_list int_of_digits "3" "later") example_db []
     = (add_list (mkList 3 "later") example_db, ListCreated "later")
  /\ consistent
       (fst (session (create_favorite_list int_of_digits "3" "later") example_db [false; true])).
Proof.
  split; [|split; [|split]].
  - destruct (create_favorite_list_admission int_of_digits example_db [] "3" "  ")
      as (H & _). now apply H.
  - destruct (create_favorite_list_admission int_of_digits example_db [] "3" " favs ")
      as (_ & H & _). now apply H.
  - destruct (create_favorite_list_admission int_of_digits example_db [] "3" "later")
      as (_ & _ & H & _). now apply H.
  - destruct (create_favorite_list_admission int_of_digits example_db [false; true]
                "3" "later") as (_ & _ & _ & H).
    apply H, example_db_consistent.
Defined.

Lemma lists_of_pairs (sql_int : string -> Z) (usr_ l : string) (db : Db) :
  In l (lists_of sql_int usr_ db) ->
  In (sql_int usr_, l) (map (fun r => (owner_id r, lname r)) (lists db)).
Proof.
  unfold lists_of. intros H. apply in_map_iff in H. destruct H as [r [<- Hr]].
  apply filter_In in Hr. destruct Hr as [Hr Howner]. apply Z.eqb_eq in Howner.
  apply in_map_iff. exists r. split; [now rewrite Howner|assumption].
Qed.

Lemma not_included_no_triple (owner : Z) (l : string) (target : Z) (db : Db) :
  included owner l target db = [] ->
  ~ In (owner, l, target)
       (map (fun i => (inc_owner_id i, inc_lname i, inc_tid i)) (include db)).
Proof.
  intros Hnone Hin. apply in_map_iff in Hin. destruct Hin as [i [[= Eo El Et] Hi]].
  assert (Hi' : In i (included owner l target db)).
  { apply filter_In. split; [assumption|].
    now rewrite Eo, El, Et, !Z.eqb_refl, String.eqb_refl. }
  rewrite Hnone in Hi'. destruct Hi'.
Qed.

(** X6. [add_to_favorite_list] keeps the keys and links of the store,
    whatever the store rejects and whatever the user types: a membership
    is never stored twice, and only in a list of the user. *)
Theorem add_to_favorite_list_keeps_consistent
  (sql_int : string -> Z) (db : Db) (rj : list bool) (usr_ : string) (target : Z)
  (name_line choice_line : string) :
  consistent db ->
  consistent
    (fst (session (add_to_favorite_list sql_int usr_ target name_line choice_line) db rj)).
Proof.
  intros Hdb.
  pose proof (add_to_favorite_list_cases sql_int db rj usr_ target name_line choice_line)
    as Hcases.
  destruct (session (add_to_favorite_list sql_int usr_ target name_line choice_line) db rj)
    as [db' printed].
  cbn [fst]. destruct Hcases as (db1 & Hdb1 & Hdb').
  assert (Hc1 : consistent db1).
  { destruct Hdb1 as [->|(-> & _ & _ & Hfresh)]; [assumption|].
    now apply consistent_add_list. }
  destruct Hdb' as [[-> _]|(chosen & _ & -> & Hin & Hnew)]; [assumption|].
  apply consistent_add_include; [assumption| |]; cbn.
  - now apply not_included_no_triple.
  - now apply lists_of_pairs.
Qed.

Lemma add_to_favorite_list_keeps_consistent_witness :
  consistent
    (fst (session (add_to_favorite_list int_of_digits "7" 2 "mine" "1") example_db [])).
Proof. apply add_to_favorite_list_keeps_consistent, example_db_consistent. Defined.

Lemma included_add_include (owner : Z) (l : string) (target : Z) (db : Db) :
  included owner l target (add_include (mkInclude owner l target) db)
  = included owner l target db ++ [mkInclude owner l target].
Proof.
  unfold included, add_include. cbn. rewrite filter_app. cbn.
  now rewrite !Z.eqb_refl, String.eqb_refl.
Qed.

Lemma no_lists_no_list (sql_int : string -> Z) (usr_ l : string) (db : Db) :
  lists_of sql_int usr_ db = [] -> has_list sql_int usr_ l db = false.
Proof.
  unfold lists_of, has_list. intros Hnone.
  apply map_eq_nil in Hnone.
  destruct (existsb _ (lists db)) eqn:E; [|reflexivity].
  apply existsb_exists in E. destruct E as [r [Hr Hboth]].
  apply andb_true_iff in Hboth. destruct Hboth as [Howner _].
  assert (Hin : In r (filter (fun l0 => owner_id l0 =? sql_int usr_) (lists db)))
    by (apply filter_In; now split).
  rewrite Hnone in Hin. destruct Hin.
Qed.

(** X7. Adding the same tweet to the same list twice: the second call
    reports that the tweet is already in the list and changes nothing, and
    a triple that had no row before the two calls has exactly one after
    them. *)
Theorem add_to_favorite_list_twice
  (sql_int : string -> Z) (db : Db) (usr_ : string) (target : Z)
  (name_line name_line' choice_line : string) (k : nat) (chosen : string) :
  nth_error (lists_of sql_int usr_ db) k = Some chosen ->
  Py.isdigit (Py.strip choice_line) = true ->
  Py.int (Py.strip choice_line) = Z.of_nat k + 1 ->
  let db1 :=
    fst (session (add_to_favorite_list sql_int usr_ target name_line choice_line) db []) in
  session (add_to_favorite_list sql_int usr_ target name_line' choice_line) db1 []
  = (db1, AlreadyInList)
  /\ (included (sql_int usr_) chosen target db = [] ->
      List.length (included (sql_int usr_) chosen target db1) = 1%nat).
Proof.
  intros Hnth Hdigit Hint db1.
  assert (Hsome : lists_of sql_int usr_ db <> []) by (intros E; rewrite E in Hnth; now destruct k).
  assert (Hfirst :
            session (add_to_favorite_list sql_int usr_ target name_line choice_line) db []
            = if nonempty (included (sql_int usr_) chosen target db)
              then (db, AlreadyInList)
              else (add_include (mkInclude (sql_int usr_) chosen target) db,
                    TweetAdded chosen)).
  { rewrite add_session_with_lists by assumption.
    rewrite (select_and_add_accepted sql_int usr_ target choice_line _ k chosen db Hnth
               Hdigit Hint).
    now destruct (nonempty _). }
  assert (Hdb1 : lists_of sql_int usr_ db1 = lists_of sql_int usr_ db
                 /\ nonempty (included (sql_int usr_) chosen target db1) = true
                 /\ (included (sql_int usr_) chosen target db = [] ->
                     List.length (included (sql_int usr_) chosen target db1) = 1%nat)).
  { unfold db1. rewrite Hfirst.
    destruct (included (sql_int usr_) chosen target db) as [|i others] eqn:E; cbn [nonempty fst].
    - rewrite included_add_include, E. repeat split.
    - rewrite E. repeat split. discriminate. }
  destruct Hdb1 as (Hlists & Hthere & Hone). split; [|exact Hone].
  rewrite add_session_with_lists by (now rewrite Hlists).
  rewrite Hlists.
  rewrite (select_and_add_accepted sql_int usr_ target choice_line _ k chosen db1 Hnth
             Hdigit Hint).
  now rewrite Hthere.
Qed.

Lemma add_to_favorite_list_twice_witness :
  let db1 :=
    fst (session (add_to_favorite_list int_of_digits "3" 2 "" "1") example_db []) in
  session (add_to_favorite_list int_of_digits "3" 2 "" "1") db1 [] = (db1, AlreadyInList)
  /\ List.length (included 3 "favs" 2 db1) = 1%nat.
Proof.
  destruct (add_to_favorite_list_twice int_of_digits example_db "3" 2 "" "" "1"
              0 "favs" eq_refl eq_refl eq_refl) as [Hagain Hone].
  split; [exact Hagain|]. apply Hone. reflexivity.
Defined.

(** X8. The ways out of [add_to_favorite_list] that store nothing: a user
    without lists who gives no name for a first one; with lists on the
    screen, the answer [q], an answer that is not a number, and a number
    that is not the number of a list (0 included). *)
Theorem add_to_favorite_list_declined
  (sql_int : string -> Z) (db : Db) (usr_ : string) (target : Z)
  (name_line choice_line : string) :
  (lists_of sql_int usr_ db = [] ->
   Py.strip name_line = EmptyString ->
   session (add_to_favorite_list sql_int usr_ target name_line choice_line) db []
   = (db, NoListToAddTo))
  /\ (lists_of sql_int usr_ db <> [] ->
      ~ (Py.isdigit (Py.strip choice_line) = true
         /\ 1 <= Py.int (Py.strip choice_line)
            <= Z.of_nat (List.length (lists_of sql_int usr_ db))) ->
      session (add_to_favorite_list sql_int usr_ target name_line choice_line) db []
      = (db, if String.eqb (Py.lower (Py.strip choice_line)) "q"
             then SelectionCancelled else SelectionIgnored)).
Proof.
  split.
  - intros Hnone Hblank. rewrite add_session_without_lists by assumption.
    rewrite (create_blank sql_int usr_ name_line db Hblank). cbn. now rewrite Hnone.
  - intros Hsome Hbad. rewrite add_session_with_lists by assumption.
    destruct (select_and_add_refused sql_int usr_ target choice_line
                (lists_of sql_int usr_ db) db Hsome) as [->|Hgood]; [reflexivity|].
    contradiction.
Qed.

Lemma add_to_favorite_list_declined_witness :
  session (add_to_favorite_list int_of_digits "7" 2 " " "1") example_db []
  = (example_db, NoListToAddTo)
  /\ session (add_to_favorite_list int_of_digits "3" 2 "" "0") example_db []
     = (example_db, SelectionIgnored)
  /\ session (add_to_favorite_list int_of_digits "3" 2 "" " Q ") example_db []
     = (example_db, SelectionCancelled).
Proof.
  split; [|split].
  - destruct (add_to_favorite_list_declined int_of_digits example_db "7" 2 " " "1")
      as [H _]. now apply H.
  - destruct (add_to_favorite_list_declined int_of_digits example_db "3" 2 "" "0")
      as [_ H]. apply H; [discriminate|]. vm_compute. intros [_ [H1 _]]. now apply H1.
  - destruct (add_to_favorite_list_declined int_of_digits example_db "3" 2 "" " Q ")
      as [_ H]. apply H; [discriminate|]. intros [H1 _]. discriminate.
Defined.

(** X9. A user without lists who names a first list and then selects it:
    the list is created and the tweet is added to it, in that order.  After
    the call [lists] is what it was with the row (owner, name) at its end,
    the user has that one list, [include] is what it was with the row
    (owner, name, tid) at its end, and the triple has that one row. *)
Theorem add_to_favorite_list_first_list
  (sql_int : string -> Z) (db : Db) (usr_ : string) (target : Z)
  (name_line choice_line : string) :
  lists_of sql_int usr_ db = [] ->
  Py.truthy (Py.strip name_line) = true ->
  Py.isdigit (Py.strip choice_line) = true ->
  Py.int (Py.strip choice_line) = 1 ->
  included (sql_int usr_) (Py.strip name_line) target db = [] ->
  let (db', printed) :=
    session (add_to_favorite_list sql_int usr_ target name_line choice_line) db [] in
  printed = TweetAdded (Py.strip name_line)
  /\ db' = add_include (mkInclude (sql_int usr_) (Py.strip name_line) target)
             (add_list (mkList (sql_int usr_) (Py.strip name_line)) db)
  /\ lists db' = lists db ++ [mkList (sql_int usr_) (Py.strip name_line)]
  /\ lists_of sql_int usr_ db' = [Py.strip name_line]
  /\ include db' = include db ++ [mkInclude (sql_int usr_) (Py.strip name_line) target]
  /\ included (sql_int usr_) (Py.strip name_line) target db'
     = [mkInclude (sql_int usr_) (Py.strip name_line) target].
Proof.
  intros Hnone Hname Hdigit Hint Hnew.
  rewrite add_session_without_lists by assumption.
  rewrite (create_new sql_int usr_ name_line db Hname
             (no_lists_no_list sql_int usr_ _ db Hnone)).
  cbv zeta. cbn [snd committed rejects hd tl].
  rewrite lists_of_add_list, Hnone. cbn [app].
  rewrite (select_and_add_accepted sql_int usr_ target choice_line
             [Py.strip name_line] 0 (Py.strip name_line) _ eq_refl Hdigit Hint).
  assert (Hstill : included (sql_int usr_) (Py.strip name_line) target
                     (add_list (mkList (sql_int usr_) (Py.strip name_line)) db) = [])
    by exact Hnew.
  rewrite Hstill.
  split; [reflexivity|]. split; [reflexivity|]. split; [reflexivity|].
  split; [|split; [reflexivity|]].
  - change (lists_of sql_int usr_
              (add_list (mkList (sql_int usr_) (Py.strip name_line)) db)
            = [Py.strip name_line]).
    now rewrite lists_of_add_list, Hnone.
  - cbv zeta. cbn [pending]. unfold included in *.
    cbn [include add_include add_list]. rewrite filter_app, Hnew.
    cbn [filter inc_owner_id inc_lname inc_tid app].
    now rewrite !Z.eqb_refl, String.eqb_refl.
Qed.

Lemma add_to_favorite_list_first_list_witness :
  snd (session (add_to_favorite_list int_of_digits "7" 2 " reads " "1") example_db [])
  = TweetAdded "reads"
  /\ lists (fst (session (add_to_favorite_list int_of_digits "7" 2 " reads " "1")
                        example_db []))
     = [mkList 3 "favs"; mkList 7 "reads"]
  /\ include (fst (session (add_to_favorite_list int_of_digits "7" 2 " reads " "1")
                          example_db []))
     = [mkInclude 7 "reads" 2].
Proof.
  pose proof (add_to_favorite_list_first_list int_of_digits example_db "7" 2 " reads " "1"
                eq_refl eq_refl eq_refl eq_refl eq_refl) as H.
  destruct (session (add_to_favorite_list int_of_digits "7" 2 " reads " "1") example_db [])
    as [db' printed].
  destruct H as (Hprinted & _ & Hlists & _ & Hinclude & _).
  split; [exact Hprinted|]. split; [exact Hlists|exact Hinclude].
Defined.

(** ** From a write to the views *)

Lemma compose_session_accepted (sql_int : string -> Z) (db : Db)
  (usr_ line tdate_ ttime_ : string) :
  Py.truthy (Py.strip line) = true ->
  NoDup (Py.findall_hashtags (Py.lower (Py.strip line))) ->
  session (compose_tweet sql_int usr_ line tdate_ ttime_) db []
  = (composed sql_int db usr_ (Py.strip line)
       (Py.findall_hashtags (Py.lower (Py.strip line))) tdate_ ttime_,
     TweetPosted).
Proof.
  intros Htext Hnd. apply duplicates_nil_iff in Hnd.
  rewrite (compose_session_eq sql_int usr_ line tdate_ ttime_ db [] Htext Hnd).
  cbn [hd tl]. now rewrite compose_body_accepted.
Qed.

Lemma is_followed_by_same (db db' : Db) (a b : Z) :
  follows db' = follows db -> is_followed_by db a b -> is_followed_by db' a b.
Proof. intros E [f (Hf & Ha & Hb)]. exists f. now rewrite E. Qed.

(** X10. A tweet that is posted reaches the feed of every follower of its
    author: the feed then holds the row of the new tweet, and every row it
    held before. *)
Theorem compose_then_feed
  (sql_int : string -> Z) (db : Db) (usr_ line tdate_ ttime_ viewer : string) :
  Py.truthy (Py.strip line) = true ->
  NoDup (Py.findall_hashtags (Py.lower (Py.strip line))) ->
  is_followed_by db (sql_int viewer) (sql_int usr_) ->
  let db' := fst (session (compose_tweet sql_int usr_ line tdate_ ttime_) db []) in
  let new_tid := or_zero (Sql.max (map tid (tweets db))) + 1 in
  In (mkFeedRow "tweet" new_tid tdate_ ttime_ 0 (Py.strip line))
     (feed_rows sql_int viewer db')
  /\ forall row, In row (feed_rows sql_int viewer db) ->
                 In row (feed_rows sql_int viewer db').
Proof.
  intros Htext Hnd Hfollows db' new_tid. unfold db'.
  rewrite compose_session_accepted by assumption. cbn [fst].
  destruct (composed_tables sql_int db usr_ (Py.strip line)
              (Py.findall_hashtags (Py.lower (Py.strip line))) tdate_ ttime_)
    as (Ht & _ & _ & Hr & Hf & _).
  fold new_tid in Ht.
  set (dbc := composed sql_int db usr_ (Py.strip line) _ tdate_ ttime_) in *.
  split.
  - apply feed_rows_in. left. apply feed_tweets_iff.
    exists (mkTweet new_tid (sql_int usr_) (Py.strip line) tdate_ ttime_ None).
    split; [rewrite Ht; apply in_or_app; right; now left|].
    split; [now apply (is_followed_by_same db)|reflexivity].
  - intros row Hrow. apply feed_rows_in in Hrow. apply feed_rows_in.
    destruct Hrow as [H|H].
    + left. apply feed_tweets_iff in H. apply feed_tweets_iff.
      destruct H as [t (Hin & Hw & E)]. exists t.
      split; [rewrite Ht; apply in_or_app; now left|].
      split; [now apply (is_followed_by_same db)|assumption].
    + right. apply feed_retweets_iff in H. apply feed_retweets_iff.
      destruct H as [r [t (Hr' & Hin & Hon & Hw & Hspam & E)]]. exists r, t.
      rewrite Hr, Ht. repeat split; try assumption.
      * apply in_or_app; now left.
      * now apply (is_followed_by_same db).
Qed.

Lemma compose_then_feed_witness :
  In (mkFeedRow "tweet" 9 "2024-04-01" "12:00:00" 0 "news #rocq")
     (feed_rows int_of_digits "3"
        (fst (session (compose_tweet int_of_digits "5" " news #rocq " "2024-04-01" "12:00:00")
                      example_db []))).
Proof.
  refine (proj1 (compose_then_feed int_of_digits example_db "5" " news #rocq "
                   "2024-04-01" "12:00:00" "3" eq_refl _ _)).
  - vm_compute. repeat constructor. intros [].
  - exists (mkFollow 3 5 "2024-02-02"). cbn. tauto.
Defined.

(** X11. A tweet that is posted is found by a search for any of its
    hashtags: if the keywords typed hold the term of one of its hashtags,
    the results hold the row of the tweet. *)
Theorem compose_then_search
  (sql_int : string -> Z) (db : Db) (usr_ line tdate_ ttime_ : string)
  (hashtag search_line : string) :
  Py.truthy (Py.strip line) = true ->
  NoDup (Py.findall_hashtags (Py.lower (Py.strip line))) ->
  In hashtag (Py.findall_hashtags (Py.lower (Py.strip line))) ->
  In (Py.tail hashtag) (keywords_of search_line) ->
  let db' := fst (session (compose_tweet sql_int usr_ line tdate_ ttime_) db []) in
  let new_tid := or_zero (Sql.max (map tid (tweets db))) + 1 in
  exists rows,
    session (search_tweets search_line) db' [] = (db', SearchResults rows)
    /\ In (mkSearchRow new_tid (sql_int usr_) (Py.strip line) tdate_ ttime_) rows.
Proof.
  intros Htext Hnd Hh Hkw db' new_tid. unfold db'.
  rewrite compose_session_accepted by assumption. cbn [fst].
  destruct (composed_tables sql_int db usr_ (Py.strip line)
              (Py.findall_hashtags (Py.lower (Py.strip line))) tdate_ ttime_)
    as (Ht & Hm & _).
  fold new_tid in Ht, Hm.
  set (dbc := composed sql_int db usr_ (Py.strip line) _ tdate_ ttime_) in *.
  assert (Hrow : In (mkSearchRow new_tid (sql_int usr_) (Py.strip line) tdate_ ttime_)
                    (search_query (keywords_of search_line) dbc)).
  { apply search_query_in. right. apply hashtag_arm_iff.
    exists (mkTweet new_tid (sql_int usr_) (Py.strip line) tdate_ ttime_ None).
    split; [rewrite Ht; apply in_or_app; right; now left|].
    split; [reflexivity|].
    unfold tagged_with. apply existsb_exists.
    exists (mkMention new_tid (Py.tail hashtag)). split.
    - rewrite Hm. apply in_or_app. right.
      apply (in_map (fun h => mkMention new_tid (Py.tail h))).
      unfold Py.set. now apply nodup_In.
    - cbn [tid hm_tid term]. rewrite Z.eqb_refl. cbn [andb].
      apply existsb_exists. exists (Py.tail hashtag). split; [assumption|].
      apply String.eqb_eq.
      pose proof (findall_hashtags_shape (Py.strip line)) as Hshape.
      rewrite Forall_forall in Hshape. destruct (Hshape hashtag Hh) as [w (-> & _ & Hlow)].
      cbn. now apply lowered_fixed. }
  exists (search_query (keywords_of search_line) dbc). split; [|exact Hrow].
  unfold session, search_tweets.
  destruct (keywords_of search_line) as [|kw kws] eqn:Ek; [destruct Hkw|].
  cbn [nonempty negb]. rewrite run_with_connect_accepted, bind_eq, select_accepted.
  destruct (search_query (kw :: kws) dbc) as [|row rows] eqn:Eq; [destruct Hrow|].
  reflexivity.
Qed.

Lemma compose_then_search_witness :
  exists rows,
    session (search_tweets " Rocq, x")
            (fst (session (compose_tweet int_of_digits "5" " news #rocq " "2024-04-01" "12:00:00")
                          example_db [])) []
    = (fst (session (compose_tweet int_of_digits "5" " news #rocq " "2024-04-01" "12:00:00")
                    example_db []),
       SearchResults rows)
    /\ In (mkSearchRow 9 5 "news #rocq" "2024-04-01" "12:00:00") rows.
Proof.
  refine (compose_then_search int_of_digits example_db "5" " news #rocq "
            "2024-04-01" "12:00:00" "#rocq" " Rocq, x" eq_refl _ _ _).
  - vm_compute. repeat constructor. intros [].
  - vm_compute. now left.
  - vm_compute. now left.
Defined.

(** X12. A retweet that is posted reaches the feed of every follower of
    the retweeter, as a row with the text of the tweet, the date of the
    retweet and no time. *)
Theorem retweet_then_feed
  (sql_int : string -> Z) (db : Db) (target : Z) (usr_ rdate_ viewer : string)
  (t : tweet_row) :
  filter (mine sql_int target usr_) (retweets db) = [] ->
  find (fun t => tid t =? target) (tweets db) = Some t ->
  is_followed_by db (sql_int viewer) (sql_int usr_) ->
  let db' := fst (session (retweet sql_int target usr_ rdate_) db []) in
  In (mkFeedRow "retweet" target rdate_ "" 0 (text t)) (feed_rows sql_int viewer db')
  /\ forall row, In row (feed_rows sql_int viewer db) ->
                 In row (feed_rows sql_int viewer db').
Proof.
  intros Hnone Hfind Hfollows db'. unfold db'.
  rewrite (retweet_posted sql_int db target usr_ rdate_ t Hnone Hfind). cbn [fst].
  apply find_some in Hfind. destruct Hfind as [Ht Htid]. apply Z.eqb_eq in Htid.
  split.
  - apply feed_rows_in. right. apply feed_retweets_iff.
    exists (mkRetweet target (sql_int usr_) (writer_id t) 0 rdate_), t.
    cbn. repeat split; try assumption; try (now symmetry).
    apply in_or_app. right. now left.
  - intros row Hrow. apply feed_rows_in in Hrow. apply feed_rows_in.
    destruct Hrow as [H|H]; [left|right].
    + apply feed_tweets_iff in H. now apply feed_tweets_iff.
    + apply feed_retweets_iff in H. apply feed_retweets_iff.
      destruct H as [r [t' (Hr' & Hin & Hon & Hw & Hspam & E)]]. exists r, t'.
      cbn. repeat split; try assumption. apply in_or_app. now left.
Qed.

Lemma retweet_then_feed_witness :
  In (mkFeedRow "retweet" 4 "2024-04-01" "" 0 "third")
     (feed_rows int_of_digits "3"
        (fst (session (retweet int_of_digits 4 "5" "2024-04-01") example_db []))).
Proof.
  refine (proj1 (retweet_then_feed int_of_digits example_db 4 "5" "2024-04-01" "3"
                   (mkTweet 4 7 "third" "2024-03-02" "10:00:00" None)
                   eq_refl eq_refl _)).
  exists (mkFollow 3 5 "2024-02-02"). cbn. tauto.
Defined.

(** X13. After a follow that is recorded, every tweet of the followed user
    is in the follower's feed, and so is every retweet with spam 0 they
    made of a tweet of [tweets]. *)
Theorem follow_then_feed
  (sql_int : string -> Z) (db : Db) (current_usr : string) (target_usr : Z)
  (today : string) :
  current_usr <> Py.str target_usr ->
  edges (sql_int current_usr) target_usr db = [] ->
  let db' := fst (session (follow_user sql_int current_usr target_usr today) db []) in
  (forall t, In t (tweets db) -> writer_id t = target_usr ->
             In (mkFeedRow "tweet" (tid t) (tdate t) (ttime t) 0 (text t))
                (feed_rows sql_int current_usr db'))
  /\ (forall r t, In r (retweets db) -> In t (tweets db) -> rt_tid r = tid t ->
                  retweeter_id r = target_usr -> spam r = 0 ->
                  In (mkFeedRow "retweet" (rt_tid r) (rdate r) "" 0 (text t))
                     (feed_rows sql_int current_usr db')).
Proof.
  intros Hne Hnone db'. unfold db'.
  rewrite (follow_user_new sql_int db current_usr target_usr today Hne Hnone). cbn [fst].
  assert (Hedge : is_followed_by
                    (add_follow (mkFollow (sql_int current_usr) target_usr today) db)
                    (sql_int current_usr) target_usr).
  { exists (mkFollow (sql_int current_usr) target_usr today). cbn.
    split; [apply in_or_app; right; now left|split; reflexivity]. }
  split.
  - intros t Ht Hw. apply feed_rows_in. left. apply feed_tweets_iff.
    exists t. rewrite Hw. repeat split; assumption.
  - intros r t Hr Ht Hon Hw Hspam. apply feed_rows_in. right. apply feed_retweets_iff.
    exists r, t. rewrite Hw. repeat split; assumption.
Qed.

Lemma follow_then_feed_witness :
  In (mkFeedRow "tweet" 3 "2024-03-02" "08:30:00" 0 "mine")
     (feed_rows int_of_digits "7"
        (fst (session (follow_user int_of_digits "7" 3 "2024-04-01") example_db []))).
Proof.
  refine (proj1 (follow_then_feed int_of_digits example_db "7" 3 "2024-04-01" _ eq_refl)
            (mkTweet 3 3 "mine" "2024-03-02" "08:30:00" None) _ eq_refl).
  - discriminate.
  - cbn. tauto.
Defined.

Lemma reply_count_add_retweet (target : Z) (r : retweet_row) (db : Db) :
  reply_count target (add_retweet r db) = reply_count target db.
Proof. reflexivity. Qed.

Lemma view_tweet_statistics_accepted (target : Z) (db : Db) :
  session (view_tweet_statistics target) db []
  = (db, Some (retweet_count target db, reply_count target db)).
Proof. reflexivity. Qed.

(** X14. What the statistics view shows after a retweet, whatever the
    store rejected during the retweet: one more retweet if the retweet was
    posted, the same number otherwise; the number of replies is as before.
    The view itself leaves the store as it is. *)
Theorem retweet_then_statistics
  (sql_int : string -> Z) (db : Db) (rj : list bool) (target : Z)
  (usr_ rdate_ : string) :
  let (db', printed) := session (retweet sql_int target usr_ rdate_) db rj in
  session (view_tweet_statistics target) db' []
  = (db',
     Some (retweet_count target db
           + match printed with RetweetPosted => 1 | _ => 0 end,
           reply_count target db)).
Proof.
  pose proof (retweet_cases sql_int db rj target usr_ rdate_) as Hcases.
  destruct (session (retweet sql_int target usr_ rdate_) db rj) as [db' printed].
  rewrite view_tweet_statistics_accepted.
  destruct Hcases as [[t (-> & -> & _ & _)]|[Hnot ->]].
  - rewrite retweet_count_add, reply_count_add_retweet. cbn [rt_tid].
    now rewrite Z.eqb_refl.
  - destruct printed; try contradiction; now rewrite Z.add_0_r.
Qed.

(** ** Signing up and logging in *)

Lemma find_snoc {A : Type} (p : A -> bool) (l : list A) (x : A) :
  find p (l ++ [x])
  = match find p l with
    | Some y => Some y
    | None => if p x then Some x else None
    end.
Proof.
  induction l as [|y l IH]; cbn; [reflexivity|]. now destruct (p y).
Qed.

Lemma nodup_map_key {A B : Type} (f : A -> B) (l : list A) (a b : A) :
  NoDup (map f l) -> In a l -> In b l -> f a = f b -> a = b.
Proof.
  induction l as [|x l IH]; cbn; intros Hnd Ha Hb E; [destruct Ha|].
  apply NoDup_cons_iff in Hnd. destruct Hnd as [Hx Hl].
  destruct Ha as [->|Ha], Hb as [->|Hb]; try reflexivity.
  - exfalso. apply Hx. rewrite E. now apply in_map.
  - exfalso. apply Hx. rewrite <- E. now apply in_map.
  - now apply IH.
Qed.

Lemma login_accepted (sql_num : string -> option Z) (id_line pwd_ : string) (db : Db) :
  session (login sql_num id_line pwd_) db []
  = (db,
     match find (credentials sql_num (Py.strip id_line) pwd_) (users db) with
     | Some u => Welcome (name u) (Py.strip id_line)
     | None => InvalidCredentials
     end).
Proof.
  unfold session, login. rewrite run_with_connect_db_accepted, bind_eq, select_accepted.
  now destruct (find _ (users db)).
Qed.


Lemma credentials_iff (sql_num : string -> option Z) (usr_ pwd_ : string) (u : user_row) :
  credentials sql_num usr_ pwd_ u = true <-> sql_num usr_ = Some (usr u) /\ pwd u = pwd_.
Proof.
  unfold credentials. rewrite andb_true_iff, String.eqb_eq.
  destruct (sql_num usr_) as [n|].
  - rewrite Z.eqb_eq. split; intros [H1 H2]; split; congruence.
  - split; intros [H1 H2]; discriminate.
Qed.



(** X16. Signing up and then logging in: a user who types the id that
    [sign_up] printed (the store reading that text as the id) and the
    password they chose is let in under the name they gave, whatever the
    table held before. *)
Theorem sign_up_then_login
  (sql_num : string -> option Z) (db : Db)
  (email_ phone_ name_ pwd_ id_line : string) :
  let new := new_usr (Sql.max (map usr (users db))) in
  Py.strip id_line = Py.str new ->
  sql_num (Py.str new) = Some new ->
  let (db', printed) := session (sign_up email_ phone_ name_ pwd_) db [] in
  printed = RegistrationSuccessful new
  /\ session (login sql_num id_line pwd_) db' [] = (db', Welcome name_ (Py.str new)).
Proof.
  intros new Hline Hreads.
  change (session (sign_up email_ phone_ name_ pwd_) db [])
    with (add_user (mkUser new name_ email_ phone_ pwd_) db, RegistrationSuccessful new).
  split; [reflexivity|].
  rewrite login_accepted, Hline. cbn [users add_user].
  rewrite find_snoc.
  destruct (find _ (users db)) as [u|] eqn:E.
  - exfalso. apply find_some in E. destruct E as [Hu Hp].
    apply credentials_iff in Hp. destruct Hp as [Hid _].
    rewrite Hreads in Hid. injection Hid as Hid.
    apply (new_usr_fresh (map usr (users db))). fold new. rewrite Hid.
    now apply in_map.
  - assert (Hp : credentials sql_num (Py.str new) pwd_ (mkUser new name_ email_ phone_ pwd_)
                 = true) by now apply credentials_iff.
    now rewrite Hp.
Qed.

Lemma sign_up_then_login_witness :
  session (login num_of_digits " 8" "s3cret")
          (fst (session (sign_up "dee@x.org" "400" "Dee" "s3cret") example_db [])) []
  = (fst (session (sign_up "dee@x.org" "400" "Dee" "s3cret") example_db []),
     Welcome "Dee" "8").
Proof.
  exact (proj2 (sign_up_then_login num_of_digits example_db "dee@x.org" "400" "Dee"
                  "s3cret" " 8" eq_refl eq_refl)).
Defined.

(** ** The form of [sign_up] *)

Lemma lower_twice (s : string) : Py.lower (Py.lower s) = Py.lower s.
Proof. apply lowered_fixed, all_chars_lower. Qed.

Lemma last_cons_nonempty {A : Type} (x : A) (l : list A) (d : A) :
  l <> [] -> last (x :: l) d = last l d.
Proof. destruct l; [congruence|reflexivity]. Qed.

(** The last piece of [s.split(c)] holds no [c], and when [c] is in [s] it
    is what follows the last [c]. *)
Lemma last_split (c : ascii) (s : string) :
  let l := last (Py.split c s) EmptyString in
  has_char c l = false
  /\ if has_char c s
     then (exists before, s = (before ++ String c l)%string)
          /\ exists w ws, Py.split c s = w :: ws /\ ws <> []
     else Py.split c s = [s].
Proof.
  induction s as [|d s IH]; cbn [Py.split has_char].
  - now split.
  - cbn zeta in IH. destruct IH as [Hlast Hcase].
    destruct (Ascii.eqb d c) eqn:Edc; cbn [orb].
    + apply Ascii.eqb_eq in Edc. subst d.
      assert (Hne : Py.split c s <> []).
      { destruct (has_char c s).
        - destruct Hcase as [_ (w & ws & -> & _)]. discriminate.
        - rewrite Hcase. discriminate. }
      cbn zeta. rewrite (last_cons_nonempty _ _ _ Hne).
      split; [assumption|]. split.
      * destruct (has_char c s).
        -- destruct Hcase as [[before Hs] _]. exists (String c before).
           cbn. f_equal. exact Hs.
        -- rewrite Hcase. now exists EmptyString.
      * exists EmptyString, (Py.split c s). now split.
    + destruct (has_char c s).
      * destruct Hcase as [[before Hs] (w & ws & Hsplit & Hws)].
        rewrite Hsplit in *. cbn zeta.
        rewrite (last_cons_nonempty (String d w) _ _ Hws).
        rewrite (last_cons_nonempty w _ _ Hws) in Hlast, Hs.
        split; [assumption|]. split.
        -- exists (String d before). cbn. f_equal. exact Hs.
        -- now exists (String d w), ws.
      * rewrite Hcase in *. cbn zeta. cbn [last has_char] in *.
        now rewrite Edc.
Qed.

Lemma has_char_after (c : ascii) (before after : string) :
  has_char c (before ++ String c after) = true.
Proof.
  induction before as [|d before IH]; cbn.
  - now rewrite Ascii.eqb_refl.
  - rewrite IH. apply orb_true_r.
Qed.

Lemma valid_email_shape (email_ : string) :
  valid_email email_ = true <->
  exists local domain,
    email_ = (local ++ String "@" domain)%string
    /\ has_char "@" domain = false /\ has_char "." domain = true.
Proof.
  unfold valid_email. pose proof (last_split "@" email_) as H. cbn zeta in H.
  destruct H as [Hlast Hcase]. split.
  - intros Hv. apply andb_true_iff in Hv. destruct Hv as [Hat Hdot].
    rewrite Hat in Hcase. destruct Hcase as [[before Hs] _].
    now exists before, (last (Py.split "@" email_) EmptyString).
  - intros (local & domain & -> & Hat & Hdot).
    rewrite has_char_after in *. cbn [andb]. destruct Hcase as [[before Hs] _].
    set (l := last (Py.split "@" (local ++ String "@" domain)) EmptyString) in *.
    clearbody l. enough (l = domain) by now subst.
    clear Hdot. revert before Hs.
    induction local as [|c local IH]; intros before Hs.
    + destruct before as [|b before]; cbn in Hs.
      * now injection Hs.
      * injection Hs as _ Hs. exfalso.
        pose proof (has_char_after "@" before l) as H.
        rewrite <- Hs in H. congruence.
    + destruct before as [|b before]; cbn in Hs.
      * injection Hs as _ Hs. exfalso.
        pose proof (has_char_after "@" local domain) as H.
        rewrite Hs in H. congruence.
      * injection Hs as _ Hs. now apply (IH before).
Qed.

Lemma read_email_first (inputs : list string) (email_ : string) (rest : list string) :
  read_email inputs = Some (email_, rest) ->
  exists skipped line,
    inputs = skipped ++ line :: rest
    /\ email_ = Py.lower (Py.strip line)
    /\ valid_email email_ = true
    /\ Forall (fun l => valid_email (Py.lower (Py.strip l)) = false) skipped.
Proof.
  induction inputs as [|line inputs IH]; cbn; [discriminate|].
  destruct (valid_email (Py.lower (Py.strip line))) eqn:E.
  - intros [= <- <-]. exists [], line. repeat split; auto.
  - intros H. destruct (IH H) as (skipped & l & -> & He & Hv & Hall).
    exists (line :: skipped), l. repeat split; auto.
Qed.

Lemma read_phone_digits (inputs : list string) (phone_ : string) (rest : list string) :
  read_phone inputs = Some (phone_, rest) -> Py.isdigit phone_ = true.
Proof.
  induction inputs as [|line inputs IH]; cbn; [discriminate|].
  destruct (Py.isdigit (Py.strip line)) eqn:E; [|exact IH].
  now intros [= <- <-].
Qed.

(** X17. The form of [sign_up].  Whatever the user types and whatever the
    store rejects, [sign_up] leaves the store as it was or adds one user
    row under the next id, and that row passed the checks of the form: its
    e-mail is the first line typed that, stripped and lowered, has an ['@']
    followed later by a ['.'] with no ['@'] after it, and it is stored
    lowered; its phone is made of digits only.  A form filled in with valid
    answers at the first try is accepted as typed. *)
Theorem sign_up_session_checked
  (inputs : list string) (db : Db) (rj : list bool) (db' : Db) (printed : outcome) :
  (sign_up_session inputs db rj = Some (db', printed) ->
   db' = db
   \/ exists u,
       db' = add_user u db
       /\ usr u = new_usr (Sql.max (map usr (users db)))
       /\ (exists skipped line rest,
              inputs = skipped ++ line :: rest
              /\ email u = Py.lower (Py.strip line)
              /\ Forall (fun l => valid_email (Py.lower (Py.strip l)) = false) skipped)
       /\ (exists local domain,
              email u = (local ++ String "@" domain)%string
              /\ has_char "@" domain = false /\ has_char "." domain = true)
       /\ Py.lower (email u) = email u
       /\ Py.isdigit (phone u) = true)
  /\ (forall e p n w rest,
         valid_email (Py.lower (Py.strip e)) = true ->
         Py.isdigit (Py.strip p) = true ->
         sign_up_prompts (e :: p :: n :: w :: w :: rest)
         = Some (mkRegistration (Py.lower (Py.strip e)) (Py.strip p) (Py.strip n) w)).
Proof.
  split.
  - unfold sign_up_session, sign_up_prompts.
    destruct (read_email inputs) as [[email_ rest1]|] eqn:Eemail; [|discriminate].
    destruct (read_phone rest1) as [[phone_ rest2]|] eqn:Ephone; [|discriminate].
    destruct rest2 as [|line rest3]; [discriminate|].
    destruct (read_password rest3) as [[pwd_ rest4]|]; [|discriminate].
    cbn [reg_email reg_phone reg_name reg_pwd]. intros [= H].
    destruct (sign_up_cases db rj email_ phone_ (Py.strip line) pwd_) as [Hc|Hc];
      rewrite Hc in H; injection H as <- <-; [right|now left].
    eexists. split; [reflexivity|]. cbn [usr email phone].
    destruct (read_email_first _ _ _ Eemail) as (skipped & l & Hin & He & Hv & Hall).
    split; [reflexivity|]. split; [now exists skipped, l, rest1|].
    split; [now apply valid_email_shape|].
    split; [rewrite He; apply lower_twice|].
    eapply read_phone_digits; eassumption.
  - intros e p n w rest He Hp. unfold sign_up_prompts. cbn [read_email].
    rewrite He. cbn [read_phone]. rewrite Hp. cbn [read_password].
    now rewrite String.eqb_refl.
Qed.

Lemma sign_up_session_checked_witness :
  (exists u,
      add_user (mkUser 8 "Dee" "dee@x.org" "400" "s3cret") example_db = add_user u example_db
      /\ Py.lower (email u) = email u
      /\ Py.isdigit (phone u) = true)
  /\ sign_up_prompts [" Dee@X.org "; "400"; " Dee"; "s3cret"; "s3cret"]%string
     = Some (mkRegistration "dee@x.org" "400" "Dee" "s3cret").
Proof.
  split.
  - destruct (proj1 (sign_up_session_checked
                       ["dee.x.org"; " Dee@X.org "; "4o0"; "400"; " Dee"; "s3cret"; "s3cret"]%string
                       example_db []
                       (add_user (mkUser 8 "Dee" "dee@x.org" "400" "s3cret") example_db)
                       (RegistrationSuccessful 8)) eq_refl) as [H|H].
    + discriminate H.
    + destruct H as (u & Hu & _ & _ & _ & Hl & Hd). now exists u.
  - exact (proj2 (sign_up_session_checked [] example_db [] example_db DatabaseError)
             " Dee@X.org "%string "400"%string " Dee"%string "s3cret"%string []
             eq_refl eq_refl).
Defined.

(** ** The paging loops *)

Lemma map_fst_combine {A B : Type} (l1 : list A) (l2 : list B) :
  List.length l1 = List.length l2 -> map fst (combine l1 l2) = l1.
Proof.
  revert l2. induction l1 as [|a l1 IH]; intros [|b l2] H; cbn in *;
    try discriminate; try reflexivity.
  f_equal. apply IH. now injection H.
Qed.

Lemma map_snd_combine {A B : Type} (l1 : list A) (l2 : list B) :
  List.length l1 = List.length l2 -> map snd (combine l1 l2) = l2.
Proof.
  revert l2. induction l1 as [|a l1 IH]; intros [|b l2] H; cbn in *;
    try discriminate; try reflexivity.
  f_equal. apply IH. now injection H.
Qed.

Lemma firstn_add {A : Type} (a b : nat) (l : list A) :
  firstn (a + b) l = (firstn a l ++ firstn b (skipn a l))%list.
Proof.
  revert l. induction a as [|a IH]; intros l; [reflexivity|].
  destruct l as [|x l]; cbn; [now rewrite firstn_nil|]. now rewrite IH.
Qed.

Section PagingLoops.

Context {A : Type}.
Variable rows : list A.

Lemma slice_window (s : nat) :
  slice rows s (Nat.min (s + 5) (List.length rows)) = firstn 5 (skipn s rows).
Proof.
  unfold slice.
  replace (Nat.min (s + 5) (List.length rows) - s)%nat
    with (Nat.min 5 (List.length (skipn s rows))) by (rewrite length_skipn; lia).
  rewrite <- firstn_firstn. now rewrite firstn_all.
Qed.

Lemma batch_rows (s : nat) : map snd (batch rows s) = firstn 5 (skipn s rows).
Proof.
  unfold batch, enumerate. cbn zeta. rewrite slice_window.
  apply map_snd_combine. now rewrite length_seq.
Qed.

Lemma batch_numbers (s : nat) :
  map fst (batch rows s) = seq (s + 1) (List.length (firstn 5 (skipn s rows))).
Proof.
  unfold batch, enumerate. cbn zeta. rewrite slice_window.
  apply map_fst_combine. now rewrite length_seq.
Qed.

Lemma batch_length (s : nat) :
  List.length (batch rows s) = Nat.min 5 (List.length rows - s).
Proof.
  rewrite <- (length_map snd), batch_rows, length_firstn, length_skipn. reflexivity.
Qed.

Lemma display_tweets_batch (s : nat) : display_tweets rows s = batch rows s.
Proof.
  unfold display_tweets, batch, enumerate. cbn zeta. rewrite slice_window.
  f_equal. f_equal. rewrite length_firstn, length_skipn. lia.
Qed.

Lemma rows_shown_cons (b : list (nat * A)) (bs : list (list (nat * A))) :
  rows_shown (b :: bs) = map snd b ++ rows_shown bs.
Proof. unfold rows_shown. cbn. apply map_app. Qed.

Lemma numbers_shown_cons (b : list (nat * A)) (bs : list (list (nat * A))) :
  numbers_shown (b :: bs) = map fst b ++ numbers_shown bs.
Proof. unfold numbers_shown. cbn. apply map_app. Qed.

Lemma rows_shown_nil : rows_shown (@nil (list (nat * A))) = [].
Proof. reflexivity. Qed.

Lemma numbers_shown_nil : numbers_shown (@nil (list (nat * A))) = [].
Proof. reflexivity. Qed.

Lemma rows_shown_length (bs : list (list (nat * A))) :
  List.length (numbers_shown bs) = List.length (rows_shown bs).
Proof. unfold numbers_shown, rows_shown. now rewrite !length_map. Qed.

Lemma firstn_two_windows (s k : nat) :
  (firstn 5 (skipn s rows) ++ firstn k (skipn (s + 5) rows))%list
  = firstn (5 + k) (skipn s rows).
Proof.
  rewrite firstn_add. f_equal. f_equal. rewrite skipn_skipn. f_equal. lia.
Qed.

(** From the first question on: the rows put on the screen are the rows
    that follow [s], as many as five times the batches, numbered on from
    [s + 1]. *)
Lemma more_batches_prefix (inputs : list string) (s : nat) :
  (s < List.length rows)%nat ->
  let shown := fst (more_batches rows s inputs) in
  rows_shown shown = firstn (5 * List.length shown) (skipn s rows)
  /\ numbers_shown shown = seq (s + 1) (List.length (rows_shown shown))
  /\ Forall (fun b => (1 <= List.length b <= 5)%nat) shown.
Proof.
  cbn zeta. revert s. induction inputs as [|line rest IH]; intros s Hs; cbn [more_batches].
  - cbn. repeat split. constructor.
  - destruct (String.eqb (choice_of line) "y"); [|cbn; repeat split; constructor].
    cbn zeta.
    destruct (Nat.ltb_spec (Nat.min (s + 5) (List.length rows)) (List.length rows))
      as [Hlt|Hge].
    + replace (Nat.min (s + 5) (List.length rows)) with (s + 5)%nat in * by lia.
      specialize (IH (s + 5)%nat Hlt).
      destruct (more_batches rows (s + 5) rest) as [shown unread]. cbn [fst] in *.
      destruct IH as (Hrows & Hnums & Hall).
      rewrite rows_shown_cons, numbers_shown_cons, batch_rows, batch_numbers.
      cbn [List.length]. repeat split.
      * rewrite Hrows, firstn_two_windows. f_equal. lia.
      * rewrite Hnums, length_app, seq_app. f_equal. f_equal.
        rewrite length_firstn, length_skipn. lia.
      * constructor; [rewrite batch_length; lia|assumption].
    + cbn [fst]. rewrite rows_shown_cons, numbers_shown_cons, batch_rows, batch_numbers.
      rewrite rows_shown_nil, numbers_shown_nil, !app_nil_r. cbn [List.length].
      repeat split.
      constructor; [rewrite batch_length; lia|constructor].
Qed.

Lemma more_batches_all (inputs : list string) (s : nat) :
  Forall (fun l => choice_of l = "y"%string) inputs ->
  (s < List.length rows <= s + 5 * List.length inputs)%nat ->
  rows_shown (fst (more_batches rows s inputs)) = skipn s rows.
Proof.
  intros Hall. revert s. induction Hall as [|line rest Hy Hrest IH]; intros s Hs.
  - cbn in Hs. lia.
  - cbn [more_batches]. rewrite Hy. cbn [String.eqb Ascii.eqb Bool.eqb]. cbn zeta.
    destruct (Nat.ltb_spec (Nat.min (s + 5) (List.length rows)) (List.length rows))
      as [Hlt|Hge].
    + replace (Nat.min (s + 5) (List.length rows)) with (s + 5)%nat in * by lia.
      assert (Hnext : (s + 5 < List.length rows <= s + 5 + 5 * List.length rest)%nat)
        by (cbn [List.length] in Hs; lia).
      specialize (IH (s + 5)%nat Hnext).
      destruct (more_batches rows (s + 5) rest) as [shown unread]. cbn [fst] in *.
      rewrite rows_shown_cons, batch_rows, IH.
      rewrite <- (firstn_skipn 5 (skipn s rows)) at 2.
      f_equal. rewrite skipn_skipn. f_equal. lia.
    + cbn [fst]. rewrite rows_shown_cons, batch_rows, rows_shown_nil, app_nil_r.
      apply firstn_all2. rewrite length_skipn. lia.
Qed.

Lemma display_more_batches (inputs : list string) (s : nat) :
  (s + 5 < List.length rows)%nat ->
  display_more rows s inputs = more_batches rows (s + 5) inputs.
Proof.
  revert s. induction inputs as [|line rest IH]; intros s Hs; cbn [display_more more_batches];
    destruct (Nat.ltb_spec (s + 5) (List.length rows)) as [_|Hge]; try lia;
    [reflexivity|].
  destruct (String.eqb (choice_of line) "y"); [|reflexivity]. cbn zeta.
  rewrite display_tweets_batch.
  destruct (Nat.ltb_spec (Nat.min (s + 5 + 5) (List.length rows)) (List.length rows))
    as [Hlt|Hge].
  - replace (Nat.min (s + 5 + 5) (List.length rows)) with (s + 5 + 5)%nat by lia.
    rewrite IH by lia. reflexivity.
  - assert (Hstop : display_more rows (s + 5) rest = ([], rest)).
    { destruct rest; cbn [display_more];
        destruct (Nat.ltb_spec (s + 5 + 5) (List.length rows)); try lia; reflexivity. }
    now rewrite Hstop.
Qed.

End PagingLoops.

(** X18. The paging loop of [list_followers], [search_users] and
    [view_more_tweets].  Whatever is answered, what is on the screen is a
    prefix of the rows, five rows for every batch but possibly the last,
    each batch holding one to five rows, and the rows are numbered 1, 2, 3
    and so on without a gap.  Answering [y] (in any case, with blanks
    around) as long as the question is asked shows every row; any other
    first answer leaves the first five rows on the screen. *)
Theorem paging_shows_a_prefix {A : Type} (rows : list A) (inputs : list string) :
  let shown := fst (paging rows inputs) in
  rows_shown shown = firstn (5 * List.length shown) rows
  /\ numbers_shown shown = seq 1 (List.length (rows_shown shown))
  /\ Forall (fun b => (1 <= List.length b <= 5)%nat) shown
  /\ (Forall (fun l => choice_of l = "y"%string) inputs ->
      (List.length rows <= 5 * (1 + List.length inputs))%nat ->
      rows_shown shown = rows)
  /\ (forall line rest,
         inputs = line :: rest -> choice_of line <> "y"%string ->
         rows_shown shown = firstn 5 rows).
Proof.
  cbn zeta. unfold paging.
  destruct (Nat.ltb_spec 0 (List.length rows)) as [Hpos|Hzero].
  2:{ destruct rows; [|cbn in Hzero; lia]. cbn. repeat split; auto. }
  destruct (Nat.ltb_spec (Nat.min (0 + 5) (List.length rows)) (List.length rows))
    as [Hlt|Hge].
  - replace (Nat.min (0 + 5) (List.length rows)) with 5%nat in * by lia.
    pose proof (more_batches_prefix rows inputs 5 Hlt) as Hmore.
    pose proof (more_batches_all rows inputs 5) as Hall.
    cbn zeta in Hmore.
    destruct (more_batches rows 5 inputs) as [shown unread] eqn:Emore.
    cbn [fst] in *. destruct Hmore as (Hrows & Hnums & Hsizes).
    rewrite rows_shown_cons, numbers_shown_cons, batch_rows, batch_numbers.
    cbn [skipn List.length]. repeat split.
    + rewrite Hrows. rewrite (firstn_two_windows rows 0). f_equal. lia.
    + rewrite Hnums, length_app, seq_app. f_equal. f_equal.
      rewrite length_firstn. lia.
    + constructor; [rewrite batch_length; lia|assumption].
    + intros Hy Hlen. rewrite Hall; [apply firstn_skipn|assumption|lia].
    + intros line rest -> Hn. cbn [more_batches] in Emore.
      apply String.eqb_neq in Hn. rewrite Hn in Emore. injection Emore as <- <-.
      rewrite rows_shown_nil. apply app_nil_r.
  - cbn [fst]. rewrite rows_shown_cons, numbers_shown_cons, batch_rows, batch_numbers.
    rewrite rows_shown_nil, numbers_shown_nil, !app_nil_r. cbn [skipn List.length].
    assert (Hfive : firstn 5 rows = rows) by (apply firstn_all2; lia).
    repeat split.
    + constructor; [rewrite batch_length; lia|constructor].
    + intros _ _. exact Hfive.
Qed.

Lemma paging_shows_a_prefix_witness :
  rows_shown (fst (paging [1; 2; 3; 4; 5; 6; 7]%Z [" Y "%string])) = [1; 2; 3; 4; 5; 6; 7]%Z
  /\ rows_shown (fst (paging [1; 2; 3; 4; 5; 6; 7]%Z ["yes"%string; "y"%string]))
     = [1; 2; 3; 4; 5]%Z.
Proof.
  split.
  - apply (proj1 (proj2 (proj2 (proj2
             (paging_shows_a_prefix [1; 2; 3; 4; 5; 6; 7]%Z [" Y "%string]))))).
    + repeat constructor.
    + cbn. lia.
  - apply (proj2 (proj2 (proj2 (proj2
             (paging_shows_a_prefix [1; 2; 3; 4; 5; 6; 7]%Z ["yes"%string; "y"%string]))))
             "yes"%string ["y"%string] eq_refl).
    vm_compute. discriminate.
Defined.

(** X19. The paging loop of [search_tweets], written with a nested
    function and a [while] on [start_index + 5], prints the same batches
    under the same numbers and reads the same lines as the loop of the
    other listings, on every non-empty result and for every sequence of
    answers. *)
Theorem display_all_is_paging {A : Type} (tweets_ : list A) (inputs : list string) :
  tweets_ <> [] -> display_all tweets_ inputs = paging tweets_ inputs.
Proof.
  intros Hne. unfold display_all, paging.
  destruct (Nat.ltb_spec 0 (List.length tweets_)) as [_|Hzero].
  2:{ destruct tweets_; [congruence|cbn in Hzero; lia]. }
  rewrite display_tweets_batch.
  destruct (Nat.ltb_spec (Nat.min (0 + 5) (List.length tweets_)) (List.length tweets_))
    as [Hlt|Hge].
  - replace (Nat.min (0 + 5) (List.length tweets_)) with (0 + 5)%nat by lia.
    rewrite display_more_batches by lia. reflexivity.
  - assert (Hstop : display_more tweets_ 0 inputs = ([], inputs)).
    { destruct inputs; cbn [display_more];
        destruct (Nat.ltb_spec (0 + 5) (List.length tweets_)); try lia; reflexivity. }
    now rewrite Hstop.
Qed.

Lemma display_all_is_paging_witness :
  display_all [1; 2; 3; 4; 5; 6]%Z ["y"%string; "2"%string]
  = paging [1; 2; 3; 4; 5; 6]%Z ["y"%string; "2"%string].
Proof.
  apply display_all_is_paging. discriminate.
Defined.

(** ** The listings: one query, then paging and a selection *)

Section ReadOnly.

Context {A B : Type}.
Variable failed : B.
Variable q : Db -> A.
Variable k' : A -> Txn B.
Variable k : A -> B.
Hypothesis k_returns : forall x c, k' x c = (Some (k x), c).

Lemma listing_reads_only (db : Db) (rj : list bool) :
  fst (session (run_with failed connect_db (bind (select q) k')) db rj) = db
  /\ fst (session (run_with failed connect (bind (select q) k')) db rj) = db.
Proof.
  unfold session. rewrite run_with_connect_db_eq, run_with_connect_eq.
  split; txn_run; rewrite ?k_returns; txn_run; reflexivity.
Qed.

Lemma listing_accepted (db : Db) :
  session (run_with failed connect_db (bind (select q) k')) db [] = (db, k (q db))
  /\ session (run_with failed connect (bind (select q) k')) db [] = (db, k (q db)).
Proof.
  unfold session.
  rewrite run_with_connect_db_accepted, run_with_connect_accepted, bind_eq, select_accepted.
  rewrite k_returns. split; reflexivity.
Qed.

End ReadOnly.

Lemma nodup_list_prod {A B : Type} (l1 : list A) (l2 : list B) :
  NoDup l1 -> NoDup l2 -> NoDup (list_prod l1 l2).
Proof.
  intros H1 H2. induction H1 as [|x l1 Hx H1 IH]; cbn; [constructor|].
  apply NoDup_app; [| assumption |].
  - apply (nodup_pair_with x (fun b => b)). now rewrite map_id.
  - intros [a b] Hin Hin'. apply in_map_iff in Hin. destruct Hin as [b' [[= <- <-] _]].
    apply in_prod_iff in Hin'. now destruct Hin'.
Qed.

Lemma usr_leb_total (a b : user_line) : usr_leb a b = false -> usr_leb b a = true.
Proof. unfold usr_leb. rewrite Z.leb_gt, Z.leb_le. lia. Qed.

Lemma usr_leb_trans (a b c : user_line) :
  usr_leb a b = true -> usr_leb b c = true -> usr_leb a c = true.
Proof. unfold usr_leb. rewrite !Z.leb_le. lia. Qed.

Lemma pick_in_range {A : Type} (choice : string) (rows : list A) :
  Py.isdigit choice = true ->
  1 <= Py.int choice <= Z.of_nat (List.length rows) ->
  exists row,
    nth_error rows (Z.to_nat (Py.int choice - 1)) = Some row
    /\ pick choice rows = Picked row.
Proof.
  intros Hd [Hlo Hhi]. unfold pick. rewrite Hd.
  destruct (Z.leb_spec 1 (Py.int choice)); [|lia].
  destruct (Z.leb_spec (Py.int choice) (Z.of_nat (List.length rows))); [|lia].
  cbn [andb].
  destruct (nth_error rows (Z.to_nat (Py.int choice - 1))) as [row|] eqn:E.
  - now exists row.
  - exfalso. apply nth_error_None in E. lia.
Qed.

Lemma pick_picked {A : Type} (choice : string) (rows : list A) (row : A) :
  pick choice rows = Picked row ->
  Py.isdigit choice = true
  /\ 1 <= Py.int choice <= Z.of_nat (List.length rows)
  /\ nth_error rows (Z.to_nat (Py.int choice - 1)) = Some row.
Proof.
  unfold pick. destruct (Py.isdigit choice); [|discriminate].
  destruct (Z.leb_spec 1 (Py.int choice)); [|discriminate].
  destruct (Z.leb_spec (Py.int choice) (Z.of_nat (List.length rows))); [|discriminate].
  cbn [andb].
  destruct (nth_error rows (Z.to_nat (Py.int choice - 1))) as [r|]; [|discriminate].
  intros [= ->]. repeat split; auto.
Qed.

Section Followers.

Variable sql_int : string -> Z.

Lemma followers_query_in (current_usr : string) (db : Db) (line : user_line) :
  In line (followers_query sql_int current_usr db) <->
  exists f u,
    In f (follows db) /\ In u (users db)
    /\ flwer f = usr u /\ flwee f = sql_int current_usr
    /\ line = (usr u, name u).
Proof.
  unfold followers_query.
  transitivity
    (In line
       (map (fun fu : follow_row * user_row => (usr (snd fu), name (snd fu)))
            (filter (fun fu => flwee (fst fu) =? sql_int current_usr)
                    (filter (fun fu => flwer (fst fu) =? usr (snd fu))
                            (list_prod (follows db) (users db)))))).
  { split; apply Permutation_in; [|symmetry]; apply order_by_perm. }
  rewrite in_map_iff. split.
  - intros [[f u] [E H]]. cbn [fst snd] in *.
    apply filter_In in H. destruct H as [H Hwhere].
    apply filter_In in H. destruct H as [Hprod Hon]. cbn [fst snd] in *.
    apply in_prod_iff in Hprod. destruct Hprod as [Hf Hu].
    apply Z.eqb_eq in Hwhere, Hon. exists f, u. repeat split; auto.
  - intros (f & u & Hf & Hu & Hon & Hwhere & ->). exists (f, u). cbn [fst snd].
    split; [reflexivity|].
    apply filter_In. cbn [fst snd]. split; [|now apply Z.eqb_eq].
    apply filter_In. cbn [fst snd]. split; [now apply in_prod|now apply Z.eqb_eq].
Qed.

Lemma followers_query_keys (current_usr : string) (db : Db) :
  consistent db -> NoDup (map fst (followers_query sql_int current_usr db)).
Proof.
  intros Hc. unfold followers_query.
  eapply Permutation_NoDup.
  { apply Permutation_map. symmetry. apply order_by_perm. }
  rewrite map_map. cbn [fst].
  apply NoDup_map_NoDup_ForallPairs.
  - intros [f1 u1] [f2 u2] H1 H2 E. cbn [fst snd] in E.
    apply filter_In in H1, H2. destruct H1 as [H1 Hw1], H2 as [H2 Hw2].
    apply filter_In in H1, H2. destruct H1 as [H1 Ho1], H2 as [H2 Ho2].
    apply in_prod_iff in H1, H2. destruct H1 as [Hf1 Hu1], H2 as [Hf2 Hu2].
    cbn [fst snd] in *. apply Z.eqb_eq in Hw1, Hw2, Ho1, Ho2.
    assert (u1 = u2) by (eapply nodup_map_key; eauto using key_users).
    subst u2. f_equal.
    apply (nodup_map_key (fun f => (flwer f, flwee f)) (follows db));
      auto using key_follows. congruence.
  - apply NoDup_filter, NoDup_filter, nodup_list_prod.
    + eapply NoDup_map_inv, key_follows, Hc.
    + eapply NoDup_map_inv, key_users, Hc.
Qed.

End Followers.

(** ** Searching for users *)

Lemma name_length_leb_total (a b : user_line) :
  name_length_leb a b = false -> name_length_leb b a = true.
Proof. unfold name_length_leb. rewrite Nat.leb_gt, Nat.leb_le. lia. Qed.

Lemma name_length_leb_trans (a b c : user_line) :
  name_length_leb a b = true -> name_length_leb b c = true -> name_length_leb a c = true.
Proof. unfold name_length_leb. rewrite !Nat.leb_le. lia. Qed.

Lemma like_any_character (txt : string) : Sql.like "%_%" txt = Py.truthy txt.
Proof.
  rewrite like_anywhere. destruct txt as [|c txt]; [reflexivity|].
  cbn [Sql.like Ascii.eqb Bool.eqb orb andb Py.truthy].
  change (Sql.like "%" txt || Sql.like "%_%" txt = true).
  now rewrite like_percent.
Qed.

Lemma occurs_ci_empty (txt : string) : occurs_ci EmptyString txt = true.
Proof. destruct txt; reflexivity. Qed.

Lemma filter_all {A : Type} (p : A -> bool) (l : list A) :
  (forall x, In x l -> p x = true) -> filter p l = l.
Proof.
  induction l as [|x l IH]; cbn; intros H; [reflexivity|].
  rewrite (H x) by now left. f_equal. apply IH. intros y Hy. apply H. now right.
Qed.

Lemma users_query_in (keyword : string) (db : Db) (line : user_line) :
  In line (users_query keyword db) <->
  exists u, In u (users db)
            /\ Sql.like (String "%" (keyword ++ "%")) (name u) = true
            /\ line = (usr u, name u).
Proof.
  unfold users_query.
  transitivity
    (In line
       (map (fun u => (usr u, name u))
            (filter (fun u => Sql.like (String "%" (keyword ++ "%")) (name u))
                    (users db)))).
  { split; apply Permutation_in; [|symmetry]; apply order_by_perm. }
  rewrite in_map_iff. split.
  - intros [u [E H]]. apply filter_In in H. destruct H as [Hu Hlike].
    exists u. auto.
  - intros (u & Hu & Hlike & ->). exists u. split; [reflexivity|].
    apply filter_In. now split.
Qed.

(** ** The tweets of one user *)

Lemma paging_prefix {A : Type} (rows : list A) (inputs : list string) :
  rows <> [] ->
  exists k, (1 <= k)%nat /\ rows_shown (fst (paging rows inputs)) = firstn (5 * k) rows.
Proof.
  intros Hne. unfold paging.
  destruct (Nat.ltb_spec 0 (List.length rows)) as [Hpos|Hzero].
  2:{ destruct rows; [congruence|cbn in Hzero; lia]. }
  destruct (Nat.ltb_spec (Nat.min (0 + 5) (List.length rows)) (List.length rows))
    as [Hlt|Hge].
  - replace (Nat.min (0 + 5) (List.length rows)) with 5%nat in * by lia.
    pose proof (more_batches_prefix rows inputs 5 Hlt) as Hmore. cbn zeta in Hmore.
    destruct (more_batches rows 5 inputs) as [shown unread]. cbn [fst] in *.
    destruct Hmore as (Hrows & _ & _).
    exists (S (List.length shown)). split; [lia|].
    rewrite rows_shown_cons, batch_rows, Hrows. cbn [skipn].
    rewrite (firstn_two_windows rows 0). f_equal. lia.
  - exists 1%nat. split; [lia|]. cbn [fst].
    now rewrite rows_shown_cons, batch_rows, rows_shown_nil, app_nil_r.
Qed.

Lemma paging_all {A : Type} (rows : list A) (inputs : list string) :
  Forall (fun l => choice_of l = "y"%string) inputs ->
  (List.length rows <= 5 * (1 + List.length inputs))%nat ->
  rows_shown (fst (paging rows inputs)) = rows.
Proof.
  intros Hy Hlen. unfold paging.
  destruct (Nat.ltb_spec 0 (List.length rows)) as [Hpos|Hzero].
  2:{ destruct rows; [reflexivity|cbn in Hzero; lia]. }
  destruct (Nat.ltb_spec (Nat.min (0 + 5) (List.length rows)) (List.length rows))
    as [Hlt|Hge].
  - replace (Nat.min (0 + 5) (List.length rows)) with 5%nat in * by lia.
    pose proof (more_batches_all rows inputs 5 Hy) as Hall.
    destruct (more_batches rows 5 inputs) as [shown unread]. cbn [fst] in *.
    rewrite rows_shown_cons, batch_rows, Hall by lia. apply firstn_skipn.
  - cbn [fst]. rewrite rows_shown_cons, batch_rows, rows_shown_nil, app_nil_r.
    cbn [skipn]. apply firstn_all2. lia.
Qed.

Lemma line_geb_total (a b : tweet_line) : line_geb a b = false -> line_geb b a = true.
Proof. apply desc_geb_total. Qed.

Lemma line_geb_trans (a b c : tweet_line) :
  line_geb a b = true -> line_geb b c = true -> line_geb a c = true.
Proof. apply desc_geb_trans. Qed.

Lemma tweets_of_in (target_usr : Z) (db : Db) (l : tweet_line) :
  In l (tweets_of target_usr db) <->
  exists t, In t (tweets db) /\ writer_id t = target_usr
            /\ l = mkTweetLine (tid t) (text t) (tdate t) (ttime t).
Proof.
  unfold tweets_of.
  transitivity
    (In l (map (fun t => mkTweetLine (tid t) (text t) (tdate t) (ttime t))
               (filter (fun t => writer_id t =? target_usr) (tweets db)))).
  { split; apply Permutation_in; [|symmetry]; apply order_by_perm. }
  rewrite in_map_iff. split.
  - intros [t [E H]]. apply filter_In in H. destruct H as [Ht Hw].
    apply Z.eqb_eq in Hw. exists t. auto.
  - intros (t & Ht & Hw & ->). exists t. split; [reflexivity|].
    apply filter_In. split; [assumption|now apply Z.eqb_eq].
Qed.

Lemma tweets_of_length (target_usr : Z) (db : Db) :
  List.length (tweets_of target_usr db)
  = List.length (filter (fun t => writer_id t =? target_usr) (tweets db)).
Proof.
  unfold tweets_of. rewrite (Permutation_length (order_by_perm line_geb _)).
  apply length_map.
Qed.

Lemma view_user_details_accepted (target_usr : Z) (db : Db) :
  session (view_user_details target_usr) db []
  = (db,
     Some (mkDetails
             (Sql.count (filter (fun t => writer_id t =? target_usr) (tweets db)))
             (Sql.count (filter (fun f => flwee f =? target_usr) (follows db)))
             (Sql.count (filter (fun f => flwer f =? target_usr) (follows db)))
             (recent_tweets target_usr db))).
Proof. reflexivity. Qed.

Lemma view_user_details_reads_only (target_usr : Z) (db : Db) (rj : list bool) :
  fst (session (view_user_details target_usr) db rj) = db.
Proof.
  unfold session, view_user_details. rewrite run_with_connect_db_eq.
  txn_run; reflexivity.
Qed.

Lemma view_more_tweets_returns (inputs : list string) :
  forall (tweets_ : list tweet_line) (c : conn),
    (if negb (nonempty tweets_) then ret NoTweetsAvailable
     else ret (MoreTweets (fst (paging tweets_ inputs)))) c
    = (Some (if negb (nonempty tweets_) then NoTweetsAvailable
             else MoreTweets (fst (paging tweets_ inputs))), c).
Proof. intros tweets_ c. now destruct (negb (nonempty tweets_)). Qed.

(** X23. The tweets of one user.  [view_more_tweets] pages through the
    tweets written by the user, newest first; [view_user_details] counts
    those tweets and shows, as recent tweets, the first three of that
    listing.  So whatever is answered to "see more", the first three rows
    [view_more_tweets] puts on the screen are the recent tweets of
    [view_user_details], and answering [y] throughout shows every tweet of
    the user.  Neither call writes to the store, whatever it rejects. *)
Theorem user_tweets_listing (db : Db) (target_usr : Z) :
  let all := tweets_of target_usr db in
  (forall l,
      In l all <->
      exists t, In t (tweets db) /\ writer_id t = target_usr
                /\ l = mkTweetLine (tid t) (text t) (tdate t) (ttime t))
  /\ StronglySorted (fun a b => not_after (line_key a) (line_key b)) all
  /\ (exists d,
         session (view_user_details target_usr) db [] = (db, Some d)
         /\ tweet_count d = Z.of_nat (List.length all)
         /\ recent d = firstn 3 all)
  /\ (all <> [] ->
      forall inputs,
      exists shown,
        session (view_more_tweets target_usr inputs) db [] = (db, MoreTweets shown)
        /\ firstn 3 (rows_shown shown) = firstn 3 all
        /\ (Forall (fun l => choice_of l = "y"%string) inputs ->
            (List.length all <= 5 * (1 + List.length inputs))%nat ->
            rows_shown shown = all))
  /\ (forall inputs rj,
         fst (session (view_more_tweets target_usr inputs) db rj) = db
         /\ fst (session (view_user_details target_usr) db rj) = db).
Proof.
  cbn zeta. split; [|split; [|split; [|split]]].
  - apply tweets_of_in.
  - apply (strongly_sorted_impl (fun a b => line_geb a b = true)).
    + intros a b. apply desc_geb_iff.
    + apply order_by_sorted; [apply line_geb_total|apply line_geb_trans].
  - eexists. split; [apply view_user_details_accepted|].
    cbn [tweet_count recent]. split; [|reflexivity].
    unfold Sql.count. now rewrite tweets_of_length.
  - intros Hne inputs. exists (fst (paging (tweets_of target_usr db) inputs)).
    split; [|split].
    + unfold view_more_tweets.
      rewrite (proj1 (listing_accepted MoreTweetsDatabaseError _ _ _
                        (view_more_tweets_returns inputs) db)).
      destruct (tweets_of target_usr db); [congruence|reflexivity].
    + destruct (paging_prefix (tweets_of target_usr db) inputs Hne) as (k & Hk & ->).
      rewrite firstn_firstn. f_equal. lia.
    + apply paging_all.
  - intros inputs rj. split; [|apply view_user_details_reads_only].
    unfold view_more_tweets.
    exact (proj1 (listing_reads_only MoreTweetsDatabaseError _ _ _
                    (view_more_tweets_returns inputs) db rj)).
Qed.

Lemma user_tweets_listing_witness :
  exists shown,
    session (view_more_tweets 7 [" Y "%string]) example_db [] = (example_db, MoreTweets shown)
    /\ firstn 3 (rows_shown shown) = firstn 3 (tweets_of 7 example_db)
    /\ rows_shown shown = tweets_of 7 example_db.
Proof.
  destruct (proj1 (proj2 (proj2 (proj2 (user_tweets_listing example_db 7))))
              ltac:(discriminate) [" Y "%string])
    as (shown & Hrun & Hrecent & Hall).
  exists shown. split; [exact Hrun|]. split; [exact Hrecent|].
  apply Hall.
  - repeat constructor.
  - vm_compute. lia.
Defined.

(** X24. Following and the counts of [view_user_details].  Whatever the
    store rejects, after [follow_user] the follower count shown for the
    followed user, and the following count shown for the follower, are up
    by one when the call reported the new follow and unchanged otherwise;
    the count of tweets and the recent tweets are untouched. *)
Theorem follow_then_details
  (sql_int : string -> Z) (db : Db) (rj : list bool)
  (current_usr : string) (target_usr : Z) (today : string) :
  let (db', printed) := session (follow_user sql_int current_usr target_usr today) db rj in
  let delta := match printed with NowFollowing => 1 | _ => 0 end in
  exists before after mine_before mine_after,
    session (view_user_details target_usr) db [] = (db, Some before)
    /\ session (view_user_details target_usr) db' [] = (db', Some after)
    /\ session (view_user_details (sql_int current_usr)) db [] = (db, Some mine_before)
    /\ session (view_user_details (sql_int current_usr)) db' [] = (db', Some mine_after)
    /\ follower_count after = follower_count before + delta
    /\ following_count mine_after = following_count mine_before + delta
    /\ tweet_count after = tweet_count before
    /\ recent after = recent before.
Proof.
  pose proof (follow_user_cases sql_int db rj current_usr target_usr today) as Hcases.
  destruct (session (follow_user sql_int current_usr target_usr today) db rj)
    as [db' printed].
  cbn zeta. do 4 eexists. rewrite !view_user_details_accepted.
  do 4 (split; [reflexivity|]).
  cbn [follower_count following_count tweet_count recent].
  destruct Hcases as [(-> & -> & _ & _)|[Hnot ->]].
  - unfold recent_tweets, tweets_of, Sql.count. cbn [follows tweets add_follow].
    rewrite !filter_app, !length_app. cbn [filter flwee flwer List.length].
    rewrite !Z.eqb_refl. cbn [List.length]. repeat split; lia.
  - destruct printed; try contradiction; repeat split; lia.
Qed.

(** ** The favourite lists on the screen *)

Lemma string_leb_total (a b : string) : String.leb a b = false -> String.leb b a = true.
Proof.
  intros H. apply string_leb_le. intros Hgt. apply string_compare_gt_lt in Hgt.
  assert (Hle : String.leb a b = true) by (apply string_leb_le; rewrite Hgt; discriminate).
  congruence.
Qed.

Lemma string_leb_trans (a b c : string) :
  String.leb a b = true -> String.leb b c = true -> String.leb a c = true.
Proof. rewrite !string_leb_le. apply string_le_trans. Qed.

Lemma dict_get_none (d : list (string * list Z)) (k : string) :
  dict_get d k = None <-> ~ In k (map fst d).
Proof.
  induction d as [|[k' v] d IH]; cbn; [tauto|].
  destruct (String.eqb_spec k' k) as [->|Hne].
  - split; [discriminate|]. intros H. exfalso. apply H. now left.
  - rewrite IH. tauto.
Qed.

Lemma dict_get_in (d : list (string * list Z)) (k : string) (v : list Z) :
  NoDup (map fst d) -> In (k, v) d -> dict_get d k = Some v.
Proof.
  induction d as [|[k' v'] d IH]; cbn; intros Hnd Hin; [destruct Hin|].
  apply NoDup_cons_iff in Hnd. destruct Hnd as [Hk Hd].
  destruct Hin as [[= -> ->]|Hin].
  - now rewrite String.eqb_refl.
  - destruct (String.eqb_spec k' k) as [->|Hne]; [|now apply IH].
    exfalso. apply Hk. apply in_map_iff. now exists (k, v).
Qed.

Lemma dict_append_keys (d : list (string * list Z)) (k : string) (x : Z) :
  map fst (dict_append d k x) = map fst d.
Proof.
  induction d as [|[k' v] d IH]; cbn; [reflexivity|].
  destruct (String.eqb k' k); cbn; [reflexivity|now rewrite IH].
Qed.

Lemma dict_get_append (d : list (string * list Z)) (k k' : string) (x : Z) :
  dict_get (dict_append d k x) k'
  = if String.eqb k k' then option_map (fun v => v ++ [x]) (dict_get d k')
    else dict_get d k'.
Proof.
  induction d as [|[k0 v] d IH]; cbn; [now destruct (String.eqb k k')|].
  destruct (String.eqb_spec k0 k) as [->|Hne0]; cbn.
  - destruct (String.eqb_spec k k') as [->|Hne]; [reflexivity|]. reflexivity.
  - destruct (String.eqb_spec k0 k') as [->|Hne'].
    + destruct (String.eqb_spec k k') as [->|Hne]; [congruence|reflexivity].
    + exact IH.
Qed.

Lemma dict_get_snoc (d : list (string * list Z)) (k k' : string) (v : list Z) :
  dict_get (d ++ [(k, v)]) k'
  = match dict_get d k' with
    | Some w => Some w
    | None => if String.eqb k k' then Some v else None
    end.
Proof.
  induction d as [|[k0 w] d IH]; cbn; [reflexivity|].
  now destruct (String.eqb k0 k').
Qed.

Lemma group_step_keys (d : list (string * list Z)) (row : string * option Z) :
  map fst (group_step d row)
  = match dict_get d (fst row) with
    | Some _ => map fst d
    | None => map fst d ++ [fst row]
    end.
Proof.
  unfold group_step.
  destruct (tid_truthy (snd row)); rewrite ?dict_append_keys;
    destruct (dict_get d (fst row)); try reflexivity;
    rewrite map_app; reflexivity.
Qed.

Lemma group_step_get (d : list (string * list Z)) (row : string * option Z) (k : string) :
  dict_get (group_step d row) k
  = if String.eqb (fst row) k
    then Some (match dict_get d k with Some v => v | None => [] end
               ++ match tid_truthy (snd row) with Some x => [x] | None => [] end)
    else dict_get d k.
Proof.
  unfold group_step.
  destruct (tid_truthy (snd row)) as [x|]; rewrite ?dict_get_append;
    destruct (String.eqb_spec (fst row) k) as [<-|Hne];
    destruct (dict_get d (fst row)) as [v|] eqn:E;
    rewrite ?dict_get_snoc, ?E, ?String.eqb_refl, ?app_nil_r; try reflexivity.
  - destruct (dict_get d k); [reflexivity|].
    apply String.eqb_neq in Hne. now rewrite Hne.
  - destruct (dict_get d k); [reflexivity|].
    apply String.eqb_neq in Hne. now rewrite Hne.
Qed.

Lemma tids_for_absent (k : string) (rs : list (string * option Z)) :
  existsb (fun r => String.eqb (fst r) k) rs = false -> tids_for k rs = [].
Proof.
  induction rs as [|r rs IH]; cbn; [reflexivity|].
  destruct (String.eqb (fst r) k); [discriminate|]. exact IH.
Qed.

(** The dict after the loop: a key is there when a row has it, and it
    holds the tids of its rows that are neither NULL nor 0, in their
    order. *)
Lemma group_fold_get (rs : list (string * option Z)) (d : list (string * list Z))
  (k : string) :
  dict_get (fold_left group_step rs d) k
  = if existsb (fun r => String.eqb (fst r) k) rs
    then Some (match dict_get d k with Some v => v | None => [] end ++ tids_for k rs)
    else dict_get d k.
Proof.
  revert d. induction rs as [|r rs IH]; intros d; cbn [fold_left existsb]; [reflexivity|].
  rewrite IH, group_step_get. unfold tids_for. cbn [flat_map]. fold (tids_for k rs).
  destruct (String.eqb (fst r) k); cbn [orb].
  - destruct (existsb (fun r0 => String.eqb (fst r0) k) rs) eqn:E.
    + now rewrite app_assoc.
    + now rewrite (tids_for_absent _ _ E), app_nil_r.
  - reflexivity.
Qed.

Lemma group_fold_keys_nodup (rs : list (string * option Z)) (d : list (string * list Z)) :
  NoDup (map fst d) -> NoDup (map fst (fold_left group_step rs d)).
Proof.
  revert d. induction rs as [|r rs IH]; intros d Hd; cbn [fold_left]; [assumption|].
  apply IH. rewrite group_step_keys.
  destruct (dict_get d (fst r)) eqn:E; [assumption|].
  apply dict_get_none in E. apply nodup_snoc; assumption.
Qed.

Lemma strongly_sorted_snoc {A : Type} (R : A -> A -> Prop) (l : list A) (x : A) :
  StronglySorted R l -> Forall (fun y => R y x) l -> StronglySorted R (l ++ [x]).
Proof.
  induction 1 as [|y l Hs IH Hy]; intros Hall; cbn.
  - repeat constructor.
  - apply Forall_cons_iff in Hall. destruct Hall as [Hyx Hall].
    constructor; [now apply IH|].
    apply Forall_app. split; [assumption|now constructor].
Qed.

Lemma group_fold_keys_sorted (rs : list (string * option Z)) (d : list (string * list Z)) :
  StronglySorted (fun a b => String.leb a b = true) (map fst d) ->
  StronglySorted (fun a b => String.leb a b = true) (map fst rs) ->
  (forall k r, In k (map fst d) -> In r rs -> String.leb k (fst r) = true) ->
  StronglySorted (fun a b => String.leb a b = true)
                 (map fst (fold_left group_step rs d)).
Proof.
  revert d. induction rs as [|r rs IH]; intros d Hd Hrs Hle; cbn [fold_left];
    [assumption|].
  cbn [map] in Hrs. apply StronglySorted_inv in Hrs. destruct Hrs as [Hrs Hr].
  rewrite Forall_forall in Hr.
  apply IH; [|assumption|]; rewrite group_step_keys;
    destruct (dict_get d (fst r)) eqn:E.
  - assumption.
  - apply strongly_sorted_snoc; [assumption|].
    apply Forall_forall. intros k Hk. apply (Hle k r Hk). now left.
  - intros k r' Hk Hr'. apply (Hle k r' Hk). now right.
  - intros k r' Hk Hr'. apply in_app_or in Hk. destruct Hk as [Hk|[<-|[]]].
    + apply (Hle k r' Hk). now right.
    + apply Hr. now apply in_map.
Qed.

Section FavoriteRows.

Variable sql_int : string -> Z.
Variable usr_ : string.
Variable db : Db.

Lemma favorite_rows_perm :
  Permutation (favorite_rows sql_int usr_ db)
              (favorite_rows_of sql_int usr_ (lists db) db).
Proof. apply order_by_perm. Qed.

Lemma favorite_rows_of_cons (l : list_row) (ls : list list_row) :
  favorite_rows_of sql_int usr_ (l :: ls) db
  = (favorite_rows_of sql_int usr_ [l] db ++ favorite_rows_of sql_int usr_ ls db)%list.
Proof.
  unfold favorite_rows_of, left_join_include. cbn [flat_map].
  rewrite app_nil_r, filter_app, map_app. reflexivity.
Qed.

Lemma favorite_rows_of_one (l : list_row) :
  favorite_rows_of sql_int usr_ [l] db
  = if owner_id l =? sql_int usr_
    then map (fun li : list_row * option Z => (lname l, snd li)) (joined db l)
    else [].
Proof.
  unfold favorite_rows_of, left_join_include. cbn [flat_map]. rewrite app_nil_r.
  assert (Hfst : forall li, In li (joined db l) -> fst li = l).
  { intros li. unfold joined.
    destruct (filter _ (include db)) as [|i members].
    - intros [<-|[]]. reflexivity.
    - intros Hin. apply in_map_iff in Hin. now destruct Hin as [j [<- _]]. }
  induction (joined db l) as [|li rest IH]; cbn [filter map].
  - now destruct (owner_id l =? sql_int usr_).
  - rewrite (Hfst li) by now left.
    specialize (IH (fun x Hx => Hfst x (or_intror Hx))).
    destruct (owner_id l =? sql_int usr_); cbn [map]; [|exact IH].
    rewrite (Hfst li) by now left. now rewrite IH.
Qed.

Lemma joined_nonempty (l : list_row) : joined db l <> [].
Proof.
  unfold joined. destruct (filter _ (include db)); discriminate.
Qed.

Lemma favorite_rows_of_keys (ls : list list_row) (k : string) :
  existsb (fun r => String.eqb (fst r) k) (favorite_rows_of sql_int usr_ ls db)
  = existsb (fun r => (owner_id r =? sql_int usr_) && String.eqb (lname r) k) ls.
Proof.
  induction ls as [|l ls IH]; [reflexivity|].
  rewrite favorite_rows_of_cons, existsb_app, IH, favorite_rows_of_one. cbn [existsb]. f_equal.
  destruct (owner_id l =? sql_int usr_); cbn [andb existsb]; [|reflexivity].
  pose proof (joined_nonempty l) as Hne.
  induction (joined db l) as [|li rest IHr]; [congruence|].
  cbn [map existsb fst]. destruct (String.eqb (lname l) k); [reflexivity|].
  cbn [orb]. destruct rest; [reflexivity|]. apply IHr. discriminate.
Qed.

Lemma tids_for_app (k : string) (rs1 rs2 : list (string * option Z)) :
  tids_for k (rs1 ++ rs2) = (tids_for k rs1 ++ tids_for k rs2)%list.
Proof. unfold tids_for. apply flat_map_app. Qed.

Lemma tids_for_joined (l : list_row) :
  tids_for (lname l) (map (fun li : list_row * option Z => (lname l, snd li)) (joined db l))
  = filter (fun t => negb (t =? 0))
           (map inc_tid
                (filter (fun i => (owner_id l =? inc_owner_id i)
                                  && String.eqb (lname l) (inc_lname i))
                        (include db))).
Proof.
  unfold joined.
  destruct (filter _ (include db)) as [|i members] eqn:E.
  - cbn. now rewrite String.eqb_refl.
  - clear E. generalize (i :: members). intros ms.
    induction ms as [|m ms IH]; [reflexivity|].
    cbn [map tids_for flat_map filter fst snd tid_truthy] in *.
    fold (tids_for (lname l)
            (map (fun li : list_row * option Z => (lname l, snd li))
                 (map (fun i0 => (l, Some (inc_tid i0))) ms))).
    rewrite IH, String.eqb_refl. now destruct (inc_tid m =? 0).
Qed.

Lemma favorite_rows_of_tids (ls : list list_row) (k : string) :
  NoDup (map (fun l => (owner_id l, lname l)) ls) ->
  existsb (fun r => (owner_id r =? sql_int usr_) && String.eqb (lname r) k) ls = true ->
  tids_for k (favorite_rows_of sql_int usr_ ls db)
  = filter (fun t => negb (t =? 0))
           (map inc_tid
                (filter (fun i => (inc_owner_id i =? sql_int usr_)
                                  && String.eqb (inc_lname i) k)
                        (include db))).
Proof.
  induction ls as [|l ls IH]; cbn [map existsb]; intros Hnd Hex; [discriminate|].
  apply NoDup_cons_iff in Hnd. destruct Hnd as [Hl Hls].
  rewrite favorite_rows_of_cons, tids_for_app, favorite_rows_of_one.
  destruct ((owner_id l =? sql_int usr_) && String.eqb (lname l) k) eqn:Ehere.
  - apply andb_true_iff in Ehere. destruct Ehere as [Ho En].
    rewrite Ho. apply String.eqb_eq in En. subst k.
    rewrite tids_for_joined.
    assert (Hrest : existsb (fun r => (owner_id r =? sql_int usr_)
                                      && String.eqb (lname r) (lname l)) ls = false).
    { apply not_true_is_false. intros Hin. apply existsb_exists in Hin.
      destruct Hin as [l' [Hl' Hsame]]. apply andb_true_iff in Hsame.
      destruct Hsame as [Ho' En']. apply Z.eqb_eq in Ho, Ho'.
      apply String.eqb_eq in En'. apply Hl. apply in_map_iff. exists l'.
      split; [|assumption]. congruence. }
    rewrite <- favorite_rows_of_keys in Hrest. rewrite (tids_for_absent _ _ Hrest), app_nil_r.
    apply Z.eqb_eq in Ho. f_equal. f_equal. apply filter_ext. intros i.
    now rewrite Ho, (Z.eqb_sym (sql_int usr_)), (String.eqb_sym (lname l)).
  - cbn [orb] in Hex. rewrite (IH Hls Hex).
    replace (tids_for k _) with (@nil Z); [reflexivity|]. symmetry.
    destruct (owner_id l =? sql_int usr_); [|reflexivity].
    cbn [andb] in Ehere. apply tids_for_absent.
    induction (joined db l) as [|li rest IHr]; [reflexivity|].
    cbn [map existsb fst]. now rewrite Ehere.
Qed.

Lemma favorite_rows_sorted :
  StronglySorted (fun a b => String.leb a b = true)
                 (map fst (favorite_rows sql_int usr_ db)).
Proof.
  assert (Hs : StronglySorted (fun a b => lname_leb a b = true)
                              (favorite_rows sql_int usr_ db)).
  { apply order_by_sorted.
    - intros a b. apply string_leb_total.
    - intros a b c. apply string_leb_trans. }
  induction Hs as [|r rs Hs IH Hr]; cbn [map]; constructor; [assumption|].
  apply Forall_forall. intros k Hk. apply in_map_iff in Hk. destruct Hk as [r' [<- Hr']].
  rewrite Forall_forall in Hr. now apply Hr.
Qed.

Lemma favorite_rows_keys (k : string) :
  existsb (fun r => String.eqb (fst r) k) (favorite_rows sql_int usr_ db)
  = has_list sql_int usr_ k db.
Proof.
  unfold has_list. rewrite <- favorite_rows_of_keys.
  apply eq_true_iff_eq. rewrite !existsb_exists.
  split; intros [r [Hr Hk]]; exists r; (split; [|assumption]);
    revert Hr; apply Permutation_in;
    [|symmetry]; apply favorite_rows_perm.
Qed.

Lemma favorite_rows_tids (k : string) :
  NoDup (map (fun l => (owner_id l, lname l)) (lists db)) ->
  has_list sql_int usr_ k db = true ->
  Permutation
    (tids_for k (favorite_rows sql_int usr_ db))
    (filter (fun t => negb (t =? 0))
            (map inc_tid
                 (filter (fun i => (inc_owner_id i =? sql_int usr_)
                                   && String.eqb (inc_lname i) k)
                         (include db)))).
Proof.
  intros Hnd Hhas. rewrite <- (favorite_rows_of_tids (lists db) k Hnd Hhas).
  unfold tids_for. apply Permutation_flat_map, favorite_rows_perm.
Qed.

Lemma favorite_rows_none :
  nonempty (favorite_rows sql_int usr_ db)
  = existsb (fun l => owner_id l =? sql_int usr_) (lists db).
Proof.
  assert (Hun : forall ls,
             nonempty (favorite_rows_of sql_int usr_ ls db)
             = existsb (fun l => owner_id l =? sql_int usr_) ls).
  { induction ls as [|l ls IH]; [reflexivity|].
    rewrite favorite_rows_of_cons, favorite_rows_of_one. cbn [existsb].
    destruct (owner_id l =? sql_int usr_); cbn [orb app]; [|exact IH].
    pose proof (joined_nonempty l). now destruct (joined db l). }
  rewrite <- Hun.
  pose proof (Permutation_length favorite_rows_perm) as Hlen.
  destruct (favorite_rows sql_int usr_ db), (favorite_rows_of sql_int usr_ (lists db) db);
    try reflexivity; discriminate.
Qed.

End FavoriteRows.

Lemma list_favorite_lists_returns :
  forall (results : list (string * option Z)) (c : conn),
    (if negb (nonempty results) then ret NoFavoriteLists
     else ret (FavoriteLists (group_lists results))) c
    = (Some (if negb (nonempty results) then NoFavoriteLists
             else FavoriteLists (group_lists results)), c).
Proof. intros results c. now destruct (negb (nonempty results)). Qed.

(** X25. What [list_favorite_lists] shows, on a store where a user has no
    two lists of one name.  The user is told there are no lists exactly
    when [lists] has no row of theirs.  Otherwise every list of the user
    is shown once, the empty ones included, in ascending order of the
    name; the tweets shown for a list are the tids of its rows of
    [include] other than 0 (the test [if tid:] drops a tid 0 together with
    the NULL of an empty list).  The call never writes to the store,
    whatever the store rejects. *)
Theorem list_favorite_lists_listing (sql_int : string -> Z) (db : Db) (usr_ : string) :
  NoDup (map (fun l => (owner_id l, lname l)) (lists db)) ->
  let shown := group_lists (favorite_rows sql_int usr_ db) in
  session (list_favorite_lists sql_int usr_) db []
  = (db, if existsb (fun l => owner_id l =? sql_int usr_) (lists db)
         then FavoriteLists shown else NoFavoriteLists)
  /\ (forall l, In l (map fst shown) <-> has_list sql_int usr_ l db = true)
  /\ NoDup (map fst shown)
  /\ StronglySorted (fun a b => String.compare a b <> Gt) (map fst shown)
  /\ (forall l tids,
         In (l, tids) shown ->
         Permutation tids
           (filter (fun t => negb (t =? 0))
                   (map inc_tid
                        (filter (fun i => (inc_owner_id i =? sql_int usr_)
                                          && String.eqb (inc_lname i) l)
                                (include db)))))
  /\ (forall rj, fst (session (list_favorite_lists sql_int usr_) db rj) = db).
Proof.
  intros Hkey shown.
  assert (Hnd : NoDup (map fst shown)) by (apply group_fold_keys_nodup; constructor).
  assert (Hget : forall k,
             dict_get shown k
             = if has_list sql_int usr_ k db
               then Some (tids_for k (favorite_rows sql_int usr_ db)) else None).
  { intros k. unfold shown, group_lists. rewrite group_fold_get, favorite_rows_keys.
    reflexivity. }
  split; [|split; [|split; [|split; [|split]]]].
  - unfold list_favorite_lists.
    rewrite (proj2 (listing_accepted ListsDatabaseError _ _ _
                      list_favorite_lists_returns db)).
    rewrite favorite_rows_none.
    now destruct (existsb (fun l => owner_id l =? sql_int usr_) (lists db)).
  - intros l. pose proof (dict_get_none shown l) as Hnone. rewrite Hget in Hnone.
    destruct (has_list sql_int usr_ l db).
    + split; [reflexivity|]. intros _.
      destruct (in_dec string_dec l (map fst shown)) as [Hin|Hout]; [assumption|].
      apply Hnone in Hout. discriminate.
    + split; [|discriminate]. intros Hin. exfalso. now apply (proj1 Hnone).
  - exact Hnd.
  - apply (strongly_sorted_impl (fun a b => String.leb a b = true)).
    + intros a b. apply string_leb_le.
    + apply group_fold_keys_sorted; [constructor|apply favorite_rows_sorted|].
      intros k r [].
  - intros l tids Hin. apply (dict_get_in _ _ _ Hnd) in Hin. rewrite Hget in Hin.
    destruct (has_list sql_int usr_ l db) eqn:Ehas; [|discriminate].
    injection Hin as <-. now apply favorite_rows_tids.
  - intros rj. unfold list_favorite_lists.
    exact (proj2 (listing_reads_only ListsDatabaseError _ _ _
                    list_favorite_lists_returns db rj)).
Qed.

Lemma list_favorite_lists_listing_witness :
  session (list_favorite_lists int_of_digits "3") shelf_db []
  = (shelf_db, FavoriteLists [("best"%string, []); ("todo"%string, [2])]).
Proof.
  refine (proj1 (list_favorite_lists_listing int_of_digits shelf_db "3" _)).
  repeat constructor; cbn; intuition discriminate.
Defined.

Lemma dict_get_some (d : list (string * list Z)) (k : string) (v : list Z) :
  dict_get d k = Some v -> In (k, v) d.
Proof.
  induction d as [|[k' v'] d IH]; cbn; [discriminate|].
  destruct (String.eqb_spec k' k) as [->|Hne].
  - intros [= ->]. now left.
  - intros H. right. now apply IH.
Qed.

Lemma favorite_lists_get (sql_int : string -> Z) (usr_ : string) (db : Db) (k : string) :
  dict_get (group_lists (favorite_rows sql_int usr_ db)) k
  = if has_list sql_int usr_ k db
    then Some (tids_for k (favorite_rows sql_int usr_ db)) else None.
Proof.
  unfold group_lists. rewrite group_fold_get, favorite_rows_keys. reflexivity.
Qed.

(** X26. From [add_to_favorite_list] to [list_favorite_lists].  On a store
    whose keys and links hold, whatever the store rejects during the
    addition: when the addition reports the tweet added to a list, the
    listing that follows shows that list, and the tweet is among the tweets
    shown for it exactly when its tid is not 0. *)
Theorem add_then_list
  (sql_int : string -> Z) (db : Db) (rj : list bool) (usr_ : string) (target : Z)
  (name_line choice_line : string) :
  consistent db ->
  let (db', printed) :=
    session (add_to_favorite_list sql_int usr_ target name_line choice_line) db rj in
  forall chosen,
    printed = TweetAdded chosen ->
    exists shown tids,
      session (list_favorite_lists sql_int usr_) db' [] = (db', FavoriteLists shown)
      /\ In (chosen, tids) shown
      /\ (In target tids <-> target <> 0).
Proof.
  intros Hdb.
  pose proof (add_to_favorite_list_cases sql_int db rj usr_ target name_line choice_line)
    as Hcases.
  destruct (session (add_to_favorite_list sql_int usr_ target name_line choice_line) db rj)
    as [db' printed].
  intros chosen ->. destruct Hcases as (db1 & Hdb1 & Hdb').
  destruct Hdb' as [[_ Hno]|(chosen' & [= <-] & -> & Hin & _)];
    [exfalso; now apply (Hno chosen)|].
  assert (Hc1 : consistent db1).
  { destruct Hdb1 as [->|(-> & _ & _ & Hfresh)]; [assumption|].
    now apply consistent_add_list. }
  set (db' := add_include (mkInclude (sql_int usr_) chosen target) db1).
  assert (Hkey : NoDup (map (fun l => (owner_id l, lname l)) (lists db')))
    by exact (key_lists _ Hc1).
  assert (Hrow : exists r, In r (lists db')
                           /\ owner_id r = sql_int usr_ /\ lname r = chosen).
  { unfold lists_of in Hin. apply in_map_iff in Hin. destruct Hin as [r [Hname Hr]].
    apply filter_In in Hr. destruct Hr as [Hr Howner]. apply Z.eqb_eq in Howner.
    now exists r. }
  destruct Hrow as (r & Hr & Howner & Hname).
  assert (Hhas : has_list sql_int usr_ chosen db' = true).
  { apply existsb_exists. exists r. split; [assumption|].
    now rewrite Howner, Hname, Z.eqb_refl, String.eqb_refl. }
  exists (group_lists (favorite_rows sql_int usr_ db')),
         (tids_for chosen (favorite_rows sql_int usr_ db')).
  split; [|split].
  - unfold list_favorite_lists.
    rewrite (proj2 (listing_accepted ListsDatabaseError _ _ _
                      list_favorite_lists_returns db')).
    rewrite favorite_rows_none.
    replace (existsb (fun l => owner_id l =? sql_int usr_) (lists db')) with true;
      [reflexivity|].
    symmetry. apply existsb_exists. exists r. split; [assumption|now apply Z.eqb_eq].
  - apply dict_get_some. now rewrite favorite_lists_get, Hhas.
  - pose proof (favorite_rows_tids sql_int usr_ db' chosen Hkey Hhas) as Hperm.
    split.
    + intros Ht. apply (Permutation_in _ Hperm) in Ht. apply filter_In in Ht.
      destruct Ht as [_ Hnz]. apply negb_true_iff, Z.eqb_neq in Hnz. exact Hnz.
    + intros Hnz. apply (Permutation_in _ (Permutation_sym Hperm)).
      apply filter_In. split; [|now apply negb_true_iff, Z.eqb_neq].
      apply in_map_iff. exists (mkInclude (sql_int usr_) chosen target).
      split; [reflexivity|]. apply filter_In. split.
      * unfold db', add_include. cbn. apply in_or_app. right. now left.
      * cbn. now rewrite Z.eqb_refl, String.eqb_refl.
Qed.

Lemma add_then_list_witness :
  exists shown tids,
    session (list_favorite_lists int_of_digits "3")
            (fst (session (add_to_favorite_list int_of_digits "3" 8 "" "1") example_db []))
            []
    = (fst (session (add_to_favorite_list int_of_digits "3" 8 "" "1") example_db []),
       FavoriteLists shown)
    /\ In ("favs"%string, tids) shown
    /\ (In 8 tids <-> 8 <> 0).
Proof.
  exact (add_then_list int_of_digits example_db [] "3" 8 "" "1" example_db_consistent
           "favs"%string eq_refl).
Defined.

(** ** A search, from the line typed to the rows found *)

Lemma lower_truthy (s : string) : Py.truthy (Py.lower s) = Py.truthy s.
Proof. now destruct s. Qed.

Lemma keywords_of_shape (line : string) :
  Forall (fun kw => kw <> EmptyString /\ Py.lower kw = kw) (keywords_of line).
Proof.
  unfold keywords_of. apply Forall_forall. intros kw Hkw.
  apply in_map_iff in Hkw. destruct Hkw as [piece [<- Hpiece]].
  apply filter_In in Hpiece. destruct Hpiece as [_ Htruthy].
  split; [|apply lower_twice].
  rewrite <- lower_truthy in Htruthy. now destruct (Py.lower (Py.strip piece)).
Qed.

Lemma search_geb_total (a b : search_row) : search_geb a b = false -> search_geb b a = true.
Proof. apply desc_geb_total. Qed.

Lemma search_geb_trans (a b c : search_row) :
  search_geb a b = true -> search_geb b c = true -> search_geb a c = true.
Proof. apply desc_geb_trans. Qed.

Lemma search_tweets_returns :
  forall (found : list search_row) (c : conn),
    (if negb (nonempty found) then ret NoTweetsFound else ret (SearchResults found)) c
    = (Some (if negb (nonempty found) then NoTweetsFound else SearchResults found), c).
Proof. intros found c. now destruct (negb (nonempty found)). Qed.

(** X27. [search_tweets], from the line typed to the rows found.  The
    keywords are the pieces between commas, stripped and lowered, the blank
    pieces dropped: none is empty and each is in lower case.  A line
    without a keyword is answered before the store is opened.  Otherwise
    the rows found come newest first, no row twice; when no keyword holds
    a wildcard of [LIKE], they are the rows of the tweets in whose text a
    keyword occurs (up to ASCII case) or that carry a hashtag equal to a
    keyword.  The search never writes to the store, whatever it rejects. *)
Theorem search_tweets_session (db : Db) (line : string) :
  let keywords := keywords_of line in
  let found := search_query keywords db in
  Forall (fun kw => kw <> EmptyString /\ Py.lower kw = kw) keywords
  /\ (Py.strip line = EmptyString -> keywords = [])
  /\ (keywords = [] ->
      forall rj, session (search_tweets line) db rj = (db, NoKeywordsProvided))
  /\ (keywords <> [] ->
      session (search_tweets line) db []
      = (db, match found with [] => NoTweetsFound | _ :: _ => SearchResults found end))
  /\ NoDup found
  /\ StronglySorted (fun a b => not_after (search_key a) (search_key b)) found
  /\ (Forall (fun kw => all_chars plain_char kw = true) keywords ->
      forall row,
        In row found <->
        exists t, In t (tweets db) /\ row = search_row_of t
                  /\ (existsb (fun kw => occurs_ci kw (text t)) keywords = true
                      \/ tagged_with keywords db t = true))
  /\ (forall rj, fst (session (search_tweets line) db rj) = db).
Proof.
  cbn zeta. split; [|split; [|split; [|split; [|split; [|split; [|split]]]]]].
  - apply keywords_of_shape.
  - intros Hblank. unfold keywords_of. now rewrite Hblank.
  - intros Hnone rj. unfold search_tweets. now rewrite Hnone.
  - intros Hsome. unfold search_tweets.
    destruct (keywords_of line) as [|kw kws] eqn:E; [congruence|]. cbn [nonempty negb].
    rewrite (proj2 (listing_accepted SearchDatabaseError _ _ _ search_tweets_returns db)).
    now destruct (search_query (kw :: kws) db).
  - apply order_by_nodup, NoDup_nodup.
  - apply (strongly_sorted_impl (fun a b => search_geb a b = true)).
    + intros a b. apply desc_geb_iff.
    + apply order_by_sorted; [apply search_geb_total|apply search_geb_trans].
  - intros Hplain. apply (search_plain_keywords _ db Hplain).
  - intros rj. unfold search_tweets.
    destruct (keywords_of line) as [|kw kws]; [reflexivity|]. cbn [nonempty negb].
    exact (proj2 (listing_reads_only SearchDatabaseError _ _ _ search_tweets_returns db rj)).
Qed.

Lemma search_tweets_session_witness :
  keywords_of "  " = []
  /\ session (search_tweets " , ") example_db [true] = (example_db, NoKeywordsProvided)
  /\ session (search_tweets "World, ,FIF") example_db []
     = (example_db,
        SearchResults [mkSearchRow 6 7 "fifth" "2024-03-04" "07:00:00";
                       mkSearchRow 1 7 "hello #world" "2024-03-01" "09:00:00"])
  /\ (In (mkSearchRow 6 7 "fifth" "2024-03-04" "07:00:00")
         (search_query (keywords_of "World, ,FIF") example_db)
      <-> exists t, In t (tweets example_db)
                    /\ mkSearchRow 6 7 "fifth" "2024-03-04" "07:00:00" = search_row_of t
                    /\ (existsb (fun kw => occurs_ci kw (text t))
                                (keywords_of "World, ,FIF") = true
                        \/ tagged_with (keywords_of "World, ,FIF") example_db t = true)).
Proof.
  split; [|split; [|split]].
  - exact (proj1 (proj2 (search_tweets_session example_db "  ")) eq_refl).
  - exact (proj1 (proj2 (proj2 (search_tweets_session example_db " , "))) eq_refl [true]).
  - refine (proj1 (proj2 (proj2 (proj2 (search_tweets_session example_db "World, ,FIF")))) _).
    discriminate.
  - refine (proj1 (proj2 (proj2 (proj2 (proj2 (proj2 (proj2
              (search_tweets_session example_db "World, ,FIF"))))))) _ _).
    repeat constructor.
Defined.

(** ** The listings, the selection and the details screen *)

Lemma nested_eq {A : Type} (run : conn -> A * conn) (d : Db) (rj : list bool) :
  exists rj',
    nested run (mkConn d d false rj)
    = (Some (snd (session run d rj)),
       mkConn (fst (session run d rj)) (fst (session run d rj)) false rj').
Proof.
  unfold nested, session, fresh_conn. cbn [committed rejects in_transaction].
  destruct (run _) as [o c']. now exists (rejects c').
Qed.

Lemma settles_ret {A : Type} (a : A) (d : Db) :
  settles (ret a) d (fun res d' => res = Some a /\ d' = d).
Proof. intros rj. now exists (Some a), d, rj. Qed.

Lemma settles_select {A : Type} (q : Db -> A) (d : Db) :
  settles (select q) d (fun res d' => (res = None \/ res = Some (q d)) /\ d' = d).
Proof.
  intros rj. rewrite select_eq.
  destruct (hd false rj); eexists _, d, (tl rj); (split; [reflexivity|]); auto.
Qed.

Lemma settles_nested {A : Type} (run : conn -> A * conn) (d : Db) :
  settles (nested run) d
    (fun res d' => exists rj, res = Some (snd (session run d rj))
                             /\ d' = fst (session run d rj)).
Proof.
  intros rj. destruct (nested_eq run d rj) as [rj' E].
  eexists _, _, rj'. split; [exact E|]. now exists rj.
Qed.

Lemma settles_bind {A B : Type} (m : Txn A) (k : A -> Txn B) (d : Db)
  (P1 : option A -> Db -> Prop) (Q : option B -> Db -> Prop) :
  settles m d P1 ->
  (forall d1, P1 None d1 -> Q None d1) ->
  (forall a d1, P1 (Some a) d1 -> settles (k a) d1 Q) ->
  settles (bind m k) d Q.
Proof.
  intros Hm Hnone Hk rj. destruct (Hm rj) as (res & d1 & rj1 & E & HP).
  rewrite bind_eq, E. destruct res as [a|].
  - apply (Hk a d1 HP rj1).
  - exists None, d1, rj1. split; [reflexivity|now apply Hnone].
Qed.

Lemma settles_impl {A : Type} (m : Txn A) (d : Db) (P Q : option A -> Db -> Prop) :
  settles m d P -> (forall res d', P res d' -> Q res d') -> settles m d Q.
Proof.
  intros Hm Himpl rj. destruct (Hm rj) as (res & d' & rj' & E & HP).
  exists res, d', rj'. split; [exact E|now apply Himpl].
Qed.

Lemma settles_returns {A : Type} (a : A) (d : Db) (Q : option A -> Db -> Prop) :
  Q (Some a) d -> settles (ret a) d Q.
Proof.
  intros HQ. apply (settles_impl _ _ _ _ (settles_ret a d)). now intros res d' [-> ->].
Qed.

(** A call whose body settles leaves the store it found, when the
    connection cannot be opened, or the store its body left. *)
Lemma session_settles {A : Type} (failed : A) (body : Txn A) (db : Db)
  (P : option A -> Db -> Prop) (rj : list bool) :
  settles body db P ->
  fst (session (run_with failed connect_db body) db rj) = db
  \/ exists res, P res (fst (session (run_with failed connect_db body) db rj)).
Proof.
  intros Hbody. unfold session. rewrite run_with_connect_db_eq.
  destruct (hd false rj); [now left|].
  destruct (hd false (tl rj)); [now left|].
  destruct (Hbody (tl (tl rj))) as (res & d' & rj' & E & HP). rewrite E.
  right. exists res. destruct res; rewrite ?commit_idle; exact HP.
Qed.

Lemma view_more_tweets_reads_only (target_usr : Z) (inputs : list string) (db : Db)
  (rj : list bool) :
  fst (session (view_more_tweets target_usr inputs) db rj) = db.
Proof.
  unfold view_more_tweets.
  exact (proj1 (listing_reads_only MoreTweetsDatabaseError _ _ _
                  (view_more_tweets_returns inputs) db rj)).
Qed.

Lemma view_user_details_is_details_of (target_usr : Z) (db : Db) :
  session (view_user_details target_usr) db [] = (db, Some (details_of target_usr db)).
Proof. reflexivity. Qed.

Section DetailsScreen.

Variable sql_int : string -> Z.

Lemma view_user_details_menu_store (target_usr : Z) (current_usr today : string)
  (inputs : list string) (db : Db) (rj : list bool) :
  let db' :=
    fst (session (view_user_details_menu sql_int target_usr current_usr today inputs)
                 db rj) in
  db' = db \/ followed sql_int current_usr today db target_usr db'.
Proof.
  cbn zeta. unfold view_user_details_menu.
  match goal with
  | |- fst (session (run_with ?f connect_db ?b) db rj) = db \/ _ =>
      destruct (session_settles f b db
                  (fun _ d' => d' = db \/ followed sql_int current_usr today db target_usr d') rj)
        as [H|[_ H]]; [|now left|exact H]
  end.
  eapply settles_bind; [apply settles_select| |].
  { intros d1 [_ ->]. now left. }
  intros counts d1 [_ ->].
  eapply settles_bind; [apply settles_select| |].
  { intros d1 [_ ->]. now left. }
  intros tweets_ d1 [_ ->]. cbv zeta.
  destruct inputs as [|line rest]; [apply settles_returns; now left|].
  destruct (String.eqb (Py.strip line) "1").
  - eapply settles_bind; [apply settles_nested| |].
    { intros d1 [rj0 [Hres _]]. discriminate. }
    intros printed d1 [rj0 [_ ->]]. apply settles_returns.
    pose proof (follow_user_cases sql_int db rj0 current_usr target_usr today) as Hcases.
    destruct (session (follow_user sql_int current_usr target_usr today) db rj0)
      as [db' o].
    cbn [fst]. destruct Hcases as [(_ & -> & Hne & Hnone)|[_ ->]]; [right|now left].
    repeat split; assumption.
  - destruct (String.eqb (Py.strip line) "2").
    + eapply settles_bind; [apply settles_nested| |].
      { intros d1 [rj0 [Hres _]]. discriminate. }
      intros listing d1 [rj0 [_ ->]]. apply settles_returns.
      left. apply view_more_tweets_reads_only.
    + destruct (String.eqb (Py.strip line) "3"); apply settles_returns; now left.
Qed.

Lemma view_user_details_menu_follow (target_usr : Z) (current_usr today line : string)
  (rest : list string) (db : Db) :
  Py.strip line = "1"%string ->
  session (view_user_details_menu sql_int target_usr current_usr today (line :: rest))
          db []
  = (fst (session (follow_user sql_int current_usr target_usr today) db []),
     DetailsShown (details_of target_usr db)
       (FollowChosen (snd (session (follow_user sql_int current_usr target_usr today)
                                   db [])))).
Proof.
  intros Hone. unfold session at 1, view_user_details_menu.
  rewrite run_with_connect_db_accepted, bind_eq, select_accepted, bind_eq, select_accepted.
  cbv zeta. rewrite Hone. cbn [String.eqb Ascii.eqb Bool.eqb andb].
  rewrite bind_eq.
  destruct (nested_eq (follow_user sql_int current_usr target_usr today) db []) as [rj' E].
  rewrite E, ret_eq, commit_idle. reflexivity.
Qed.

Lemma view_user_details_menu_unanswered (target_usr : Z) (current_usr today : string)
  (db : Db) :
  session (view_user_details_menu sql_int target_usr current_usr today []) db []
  = (db, DetailsShown (details_of target_usr db) NoChoice).
Proof. reflexivity. Qed.

(** The rows are on the screen and one of them is picked: the details
    screen runs on a connection of its own and the listing returns. *)
Lemma picked_then_viewed {A : Type} (K : details_result -> A)
  (selected : Z) (current_usr today : string) (inputs : list string) (db : Db) :
  exists rj',
    bind (nested (view_user_details_menu sql_int selected current_usr today inputs))
         (fun viewed => ret (K viewed))
         (mkConn db db false [])
    = (Some (K (snd (session (view_user_details_menu sql_int selected current_usr today
                                                     inputs) db []))),
       mkConn (fst (session (view_user_details_menu sql_int selected current_usr today
                                                    inputs) db []))
              (fst (session (view_user_details_menu sql_int selected current_usr today
                                                    inputs) db []))
              false rj').
Proof.
  destruct (nested_eq (view_user_details_menu sql_int selected current_usr today inputs)
                      db []) as [rj' E].
  exists rj'. now rewrite bind_eq, E.
Qed.

Lemma picked_is_listed (choice : string) (rows : list user_line) (selected : Z) :
  pick choice (map fst rows) = Picked selected ->
  exists n, In (selected, n) rows.
Proof.
  intros H. apply pick_picked in H. destruct H as (_ & _ & Hnth).
  apply nth_error_In in Hnth. apply in_map_iff in Hnth.
  destruct Hnth as [[u n] [E Hin]]. cbn in E. subst u. now exists n.
Qed.

Lemma page_of_few {A : Type} (rows : list A) (inputs : list string) :
  (0 < List.length rows <= 5)%nat -> paging rows inputs = ([batch rows 0], inputs).
Proof.
  intros Hlen. unfold paging.
  destruct (Nat.ltb_spec 0 (List.length rows)); [|lia].
  destruct (Nat.ltb_spec (Nat.min (0 + 5) (List.length rows)) (List.length rows));
    [lia|reflexivity].
Qed.

Lemma page_declined {A : Type} (rows : list A) (more : string) (rest : list string) :
  (5 < List.length rows)%nat -> choice_of more <> "y"%string ->
  paging rows (more :: rest) = ([batch rows 0], rest).
Proof.
  intros Hlen Hmore. unfold paging.
  destruct (Nat.ltb_spec 0 (List.length rows)); [|lia].
  destruct (Nat.ltb_spec (Nat.min (0 + 5) (List.length rows)) (List.length rows)); [|lia].
  replace (Nat.min (0 + 5) (List.length rows)) with 5%nat by lia.
  cbn [more_batches]. apply String.eqb_neq in Hmore. now rewrite Hmore.
Qed.

Lemma digits_are_not_q (choice : string) :
  Py.isdigit choice = true -> String.eqb choice "q" = false.
Proof.
  intros Hd. apply String.eqb_neq. intros ->. discriminate.
Qed.

Lemma list_followers_store (current_usr today : string) (inputs : list string)
  (db : Db) (rj : list bool) :
  let db' := fst (session (list_followers sql_int current_usr today inputs) db rj) in
  db' = db
  \/ exists f_usr f_name,
       In (f_usr, f_name) (followers_query sql_int current_usr db)
       /\ followed sql_int current_usr today db f_usr db'.
Proof.
  cbn zeta. unfold list_followers.
  match goal with
  | |- fst (session (run_with ?f connect_db ?b) db rj) = db \/ ?R =>
      destruct (session_settles f b db
                  (fun _ d' =>
                     d' = db
                     \/ exists f_usr f_name,
                          In (f_usr, f_name) (followers_query sql_int current_usr db)
                          /\ followed sql_int current_usr today db f_usr d') rj)
        as [H|[_ H]]; [|now left|exact H]
  end.
  eapply settles_bind; [apply settles_select| |].
  { intros d1 [_ ->]. now left. }
  intros followers d1 [[Hres|Hres] ->]; [discriminate|]. injection Hres as ->.
  destruct (negb (nonempty (followers_query sql_int current_usr db)));
    [apply settles_returns; now left|].
  destruct (paging (followers_query sql_int current_usr db) inputs) as [shown unread].
  destruct unread as [|line rest]; [apply settles_returns; now left|].
  cbv zeta.
  destruct (String.eqb (choice_of line) "q"); [apply settles_returns; now left|].
  destruct (pick (choice_of line) (map fst (followers_query sql_int current_usr db)))
    as [|selected| | |] eqn:Epick; try (apply settles_returns; now left).
  eapply settles_bind; [apply settles_nested| |].
  { intros d1 [rj0 [Hres _]]. discriminate. }
  intros viewed d1 [rj0 [_ ->]]. apply settles_returns.
  destruct (view_user_details_menu_store selected current_usr today rest db rj0)
    as [H|H]; [now left|right].
  destruct (picked_is_listed _ _ _ Epick) as [n Hn]. now exists selected, n.
Qed.

Lemma search_users_store (usr_ today keyword_line : string) (inputs : list string)
  (db : Db) (rj : list bool) :
  let db' :=
    fst (session (search_users sql_int usr_ today keyword_line inputs) db rj) in
  db' = db
  \/ exists selected n,
       In (selected, n) (users_query (Py.lower (Py.strip keyword_line)) db)
       /\ followed sql_int usr_ today db selected db'.
Proof.
  cbn zeta. unfold search_users. cbv zeta.
  match goal with
  | |- fst (session (run_with ?f connect_db ?b) db rj) = db \/ ?R =>
      destruct (session_settles f b db
                  (fun _ d' =>
                     d' = db
                     \/ exists selected n,
                          In (selected, n)
                             (users_query (Py.lower (Py.strip keyword_line)) db)
                          /\ followed sql_int usr_ today db selected d') rj)
        as [H|[_ H]]; [|now left|exact H]
  end.
  eapply settles_bind; [apply settles_select| |].
  { intros d1 [_ ->]. now left. }
  intros found d1 [[Hres|Hres] ->]; [discriminate|]. injection Hres as ->.
  destruct (negb (nonempty (users_query (Py.lower (Py.strip keyword_line)) db)));
    [apply settles_returns; now left|].
  destruct (paging (users_query (Py.lower (Py.strip keyword_line)) db) inputs)
    as [shown unread].
  destruct unread as [|line rest]; [apply settles_returns; now left|].
  cbv zeta.
  destruct (String.eqb (Py.lower (Py.strip line)) "q");
    [apply settles_returns; now left|].
  destruct (pick (Py.strip line)
                 (map fst (users_query (Py.lower (Py.strip keyword_line)) db)))
    as [|selected| | |] eqn:Epick; try (apply settles_returns; now left).
  eapply settles_bind; [apply settles_nested| |].
  { intros d1 [rj0 [Hres _]]. discriminate. }
  intros viewed d1 [rj0 [_ ->]]. apply settles_returns.
  destruct (view_user_details_menu_store selected usr_ today rest db rj0)
    as [H|H]; [now left|right].
  destruct (picked_is_listed _ _ _ Epick) as [n Hn]. now exists selected, n.
Qed.

(** One page of followers, a number, then [1] at the menu of the details. *)
Lemma list_followers_follow_back (current_usr today line one : string) (db : Db)
  (f_usr : Z) :
  (0 < List.length (followers_query sql_int current_usr db) <= 5)%nat ->
  Py.isdigit (choice_of line) = true ->
  pick (choice_of line) (map fst (followers_query sql_int current_usr db))
  = Picked f_usr ->
  Py.strip one = "1"%string ->
  session (list_followers sql_int current_usr today [line; one]) db []
  = (fst (session (follow_user sql_int current_usr f_usr today) db []),
     FollowersListed [batch (followers_query sql_int current_usr db) 0] (Picked f_usr)
       (Some (DetailsShown (details_of f_usr db)
                (FollowChosen
                   (snd (session (follow_user sql_int current_usr f_usr today) db [])))))).
Proof.
  intros Hlen Hd Hpick Hone. unfold session at 1, list_followers.
  rewrite run_with_connect_db_accepted, bind_eq, select_accepted.
  assert (Hne : nonempty (followers_query sql_int current_usr db) = true)
    by (destruct (followers_query sql_int current_usr db); [cbn in Hlen; lia|reflexivity]).
  rewrite Hne, (page_of_few _ _ Hlen). cbn [negb]. cbv beta iota zeta.
  rewrite (digits_are_not_q _ Hd), Hpick.
  destruct (picked_then_viewed
              (fun viewed =>
                 FollowersListed [batch (followers_query sql_int current_usr db) 0]
                                 (Picked f_usr) (Some viewed))
              f_usr current_usr today [one] db) as [rj' E].
  rewrite E, commit_idle, (view_user_details_menu_follow _ _ _ _ _ _ Hone). reflexivity.
Qed.

Lemma search_users_follow (usr_ today keyword_line line one : string) (db : Db)
  (selected : Z) :
  (0 < List.length (users_query (Py.lower (Py.strip keyword_line)) db) <= 5)%nat ->
  Py.isdigit (Py.strip line) = true ->
  pick (Py.strip line) (map fst (users_query (Py.lower (Py.strip keyword_line)) db))
  = Picked selected ->
  Py.strip one = "1"%string ->
  session (search_users sql_int usr_ today keyword_line [line; one]) db []
  = (fst (session (follow_user sql_int usr_ selected today) db []),
     UsersListed [batch (users_query (Py.lower (Py.strip keyword_line)) db) 0]
       (Picked selected)
       (Some (DetailsShown (details_of selected db)
                (FollowChosen
                   (snd (session (follow_user sql_int usr_ selected today) db [])))))).
Proof.
  intros Hlen Hd Hpick Hone. unfold session at 1, search_users. cbv zeta.
  rewrite run_with_connect_db_accepted, bind_eq, select_accepted.
  assert (Hne : nonempty (users_query (Py.lower (Py.strip keyword_line)) db) = true)
    by (destruct (users_query (Py.lower (Py.strip keyword_line)) db);
        [cbn in Hlen; lia|reflexivity]).
  rewrite Hne, (page_of_few _ _ Hlen). cbn [negb]. cbv beta iota zeta.
  pose proof (isdigit_not_q _ Hd) as Hq.
  rewrite Hq, Hpick.
  destruct (picked_then_viewed
              (fun viewed =>
                 UsersListed [batch (users_query (Py.lower (Py.strip keyword_line)) db) 0]
                             (Picked selected) (Some viewed))
              selected usr_ today [one] db) as [rj' E].
  rewrite E, commit_idle, (view_user_details_menu_follow _ _ _ _ _ _ Hone). reflexivity.
Qed.

End DetailsScreen.

Lemma pick_listed_row (choice : string) (rows : list user_line) :
  Py.isdigit choice = true ->
  1 <= Py.int choice <= Z.of_nat (List.length rows) ->
  exists selected n,
    nth_error rows (Z.to_nat (Py.int choice - 1)) = Some (selected, n)
    /\ pick choice (map fst rows) = Picked selected.
Proof.
  intros Hd Hrange.
  destruct (pick_in_range choice (map fst rows) Hd) as (u & Hnth & Hpick).
  { now rewrite length_map. }
  rewrite nth_error_map in Hnth.
  destruct (nth_error rows (Z.to_nat (Py.int choice - 1))) as [[selected n]|] eqn:E.
  2:{ apply nth_error_None in E. lia. }
  assert (Hu : option_map fst (nth_error rows (Z.to_nat (Py.int choice - 1))) = Some u)
    by exact Hnth.
  rewrite E in Hu. cbn in Hu. injection Hu as <-.
  now exists selected, n.
Qed.

(** X20. What [list_followers] lists, and what it can write.  A line (id,
    name) is listed exactly when [follows] has an edge from that user to
    the user of the session and [users] has a row for that user; the lines
    come in ascending order of the id; on a store whose keys hold, no id
    is listed twice.  Whatever the user answers and whatever the store
    rejects, the call leaves the store as it was or with one more row: the
    edge from the user of the session to a follower that was listed, which
    [follow_user] stores when the user picks that follower and answers [1]
    under the details.  A user with at most five followers who types the
    number of a follower they do not follow and then [1] follows that
    follower: the edge is at the end of [follows]. *)
Theorem list_followers_listing
  (sql_int : string -> Z) (db : Db) (current_usr : string) :
  let followers := followers_query sql_int current_usr db in
  (forall line,
      In line followers <->
      exists f u,
        In f (follows db) /\ In u (users db)
        /\ flwer f = usr u /\ flwee f = sql_int current_usr
        /\ line = (usr u, name u))
  /\ StronglySorted (fun a b => fst a <= fst b) followers
  /\ (consistent db -> NoDup (map fst followers))
  /\ (forall today inputs rj,
         let db' :=
           fst (session (list_followers sql_int current_usr today inputs) db rj) in
         db' = db
         \/ exists f_usr f_name,
              In (f_usr, f_name) followers
              /\ current_usr <> Py.str f_usr
              /\ edges (sql_int current_usr) f_usr db = []
              /\ db' = add_follow (mkFollow (sql_int current_usr) f_usr today) db)
  /\ (forall today line one,
         (List.length followers <= 5)%nat ->
         Py.isdigit (choice_of line) = true ->
         1 <= Py.int (choice_of line) <= Z.of_nat (List.length followers) ->
         Py.strip one = "1"%string ->
         exists f_usr f_name,
           nth_error followers (Z.to_nat (Py.int (choice_of line) - 1))
           = Some (f_usr, f_name)
           /\ (current_usr <> Py.str f_usr ->
               edges (sql_int current_usr) f_usr db = [] ->
               let (db', printed) :=
                 session (list_followers sql_int current_usr today [line; one]) db [] in
               follows db' = follows db ++ [mkFollow (sql_int current_usr) f_usr today]
               /\ printed
                  = FollowersListed [batch followers 0] (Picked f_usr)
                      (Some (DetailsShown (details_of f_usr db)
                                          (FollowChosen NowFollowing))))).
Proof.
  cbn zeta. split; [|split; [|split; [|split]]].
  - apply followers_query_in.
  - apply (strongly_sorted_impl (fun a b => usr_leb a b = true)).
    + intros a b. unfold usr_leb. apply Z.leb_le.
    + apply order_by_sorted; [apply usr_leb_total|apply usr_leb_trans].
  - apply followers_query_keys.
  - intros today inputs rj.
    destruct (list_followers_store sql_int current_usr today inputs db rj)
      as [H|(f_usr & f_name & Hin & Hne & Hnone & H)]; [now left|right].
    now exists f_usr, f_name.
  - intros today line one Hlen Hd Hrange Hone.
    destruct (pick_listed_row _ _ Hd Hrange) as (f_usr & f_name & Hnth & Hpick).
    exists f_usr, f_name. split; [exact Hnth|]. intros Hne Hnone.
    rewrite (list_followers_follow_back sql_int current_usr today line one db f_usr)
      by (try assumption; lia).
    rewrite (follow_user_new sql_int db current_usr f_usr today Hne Hnone).
    split; reflexivity.
Qed.

Lemma list_followers_listing_witness :
  NoDup (map fst (followers_query int_of_digits "7" example_db))
  /\ exists f_usr f_name,
       nth_error (followers_query int_of_digits "7" example_db) 0 = Some (f_usr, f_name)
       /\ follows (fst (session (list_followers int_of_digits "7" "2024-04-01"
                                                [" 1"; "1 "]%string)
                                example_db []))
          = follows example_db ++ [mkFollow 7 f_usr "2024-04-01"].
Proof.
  split.
  - apply (proj1 (proj2 (proj2 (list_followers_listing int_of_digits example_db "7")))).
    apply example_db_consistent.
  - destruct (proj2 (proj2 (proj2 (proj2
               (list_followers_listing int_of_digits example_db "7"))))
               "2024-04-01"%string " 1"%string "1 "%string)
      as (f_usr & f_name & Hnth & Hfollow).
    + vm_compute. lia.
    + reflexivity.
    + vm_compute. split; discriminate.
    + reflexivity.
    + exists f_usr, f_name. split; [exact Hnth|].
      assert (Hrow : Some (f_usr, f_name) = Some (3, "Ann"%string))
        by (rewrite <- Hnth; reflexivity).
      injection Hrow as -> ->.
      assert (Hne : "7"%string <> Py.str 3) by (vm_compute; discriminate).
      specialize (Hfollow Hne eq_refl).
      destruct (session (list_followers int_of_digits "7" "2024-04-01"
                                        [" 1"; "1 "]%string) example_db [])
        as [db' printed].
      exact (proj1 Hfollow).
Defined.

(** X21. Selecting by number in [list_followers].  The number typed
    selects the row of that number in the whole result, also when the row
    was never put on the screen: with more than five followers, a user who
    declines to see more and then types a number between 1 and the number
    of followers selects that follower, and the details of that follower
    are shown. *)
Theorem list_followers_selects_by_number
  (sql_int : string -> Z) (db : Db) (current_usr today more line : string) :
  let followers := followers_query sql_int current_usr db in
  (5 < List.length followers)%nat ->
  choice_of more <> "y"%string ->
  Py.isdigit (choice_of line) = true ->
  1 <= Py.int (choice_of line) <= Z.of_nat (List.length followers) ->
  exists f_usr f_name,
    nth_error followers (Z.to_nat (Py.int (choice_of line) - 1)) = Some (f_usr, f_name)
    /\ session (list_followers sql_int current_usr today [more; line]) db []
       = (db, FollowersListed [batch followers 0] (Picked f_usr)
                (Some (DetailsShown (details_of f_usr db) NoChoice))).
Proof.
  intros followers Hlen Hmore Hd Hrange.
  destruct (pick_listed_row _ _ Hd Hrange) as (f_usr & f_name & Hnth & Hpick).
  exists f_usr, f_name. split; [exact Hnth|].
  unfold session, list_followers.
  rewrite run_with_connect_db_accepted, bind_eq, select_accepted.
  fold followers.
  assert (Hne : nonempty followers = true)
    by (destruct followers; [cbn in Hlen; lia|reflexivity]).
  rewrite Hne, (page_declined _ _ _ Hlen Hmore). cbn [negb]. cbv beta iota zeta.
  rewrite (digits_are_not_q _ Hd), Hpick.
  destruct (picked_then_viewed sql_int
              (fun viewed =>
                 FollowersListed [batch followers 0] (Picked f_usr) (Some viewed))
              f_usr current_usr today [] db) as [rj' E].
  rewrite E, commit_idle, view_user_details_menu_unanswered. reflexivity.
Qed.

Lemma list_followers_selects_by_number_witness :
  exists f_usr f_name,
    nth_error (followers_query int_of_digits "1" crowd_db) 5 = Some (f_usr, f_name)
    /\ session (list_followers int_of_digits "1" "2024-04-01" ["n"; " 6 "]%string)
               crowd_db []
       = (crowd_db,
          FollowersListed [batch (followers_query int_of_digits "1" crowd_db) 0]
                          (Picked f_usr)
                          (Some (DetailsShown (details_of f_usr crowd_db) NoChoice))).
Proof.
  apply (list_followers_selects_by_number int_of_digits crowd_db "1" "2024-04-01"
           "n" " 6 ").
  - vm_compute. lia.
  - vm_compute. discriminate.
  - reflexivity.
  - vm_compute. split; discriminate.
Defined.

(** X22. What [search_users] lists, and what it can write.  For a keyword
    without the wildcards of [LIKE], a line (id, name) is listed exactly
    when the keyword occurs in the name of that user, up to ASCII case; a
    blank keyword lists every user; the keyword [_] is a wildcard and
    lists every user whose name is not empty, whether or not the name
    holds an underscore.  The lines come by ascending length of the name.
    Whatever the user answers and whatever the store rejects, the call
    leaves the store as it was or with one more row: the edge from the
    user of the session to a user that was listed, which [follow_user]
    stores when the user picks that line and answers [1] under the
    details.  With at most five lines, a user who types the number of a
    user they do not follow and then [1] follows that user: the edge is at
    the end of [follows]. *)
Theorem search_users_listing
  (sql_int : string -> Z) (db : Db) (usr_ keyword_line : string) :
  let keyword := Py.lower (Py.strip keyword_line) in
  let found := users_query keyword db in
  (all_chars plain_char keyword = true ->
   forall line,
     In line found <->
     exists u, In u (users db) /\ occurs_ci keyword (name u) = true
               /\ line = (usr u, name u))
  /\ (keyword = EmptyString ->
      Permutation found (map (fun u => (usr u, name u)) (users db)))
  /\ (keyword = "_"%string ->
      forall line,
        In line found <->
        exists u, In u (users db) /\ name u <> EmptyString /\ line = (usr u, name u))
  /\ StronglySorted
       (fun a b => (String.length (snd a) <= String.length (snd b))%nat) found
  /\ (forall today inputs rj,
         let db' :=
           fst (session (search_users sql_int usr_ today keyword_line inputs) db rj) in
         db' = db
         \/ exists selected n,
              In (selected, n) found
              /\ usr_ <> Py.str selected
              /\ edges (sql_int usr_) selected db = []
              /\ db' = add_follow (mkFollow (sql_int usr_) selected today) db)
  /\ (forall today line one,
         (List.length found <= 5)%nat ->
         Py.isdigit (Py.strip line) = true ->
         1 <= Py.int (Py.strip line) <= Z.of_nat (List.length found) ->
         Py.strip one = "1"%string ->
         exists selected n,
           nth_error found (Z.to_nat (Py.int (Py.strip line) - 1)) = Some (selected, n)
           /\ (usr_ <> Py.str selected ->
               edges (sql_int usr_) selected db = [] ->
               let (db', printed) :=
                 session (search_users sql_int usr_ today keyword_line [line; one])
                         db [] in
               follows db' = follows db ++ [mkFollow (sql_int usr_) selected today]
               /\ printed
                  = UsersListed [batch found 0] (Picked selected)
                      (Some (DetailsShown (details_of selected db)
                                          (FollowChosen NowFollowing))))).
Proof.
  cbn zeta. split; [|split; [|split; [|split; [|split]]]].
  - intros Hplain line. rewrite users_query_in.
    split; intros (u & Hu & Hm & E); exists u; repeat split; auto.
    + now rewrite <- like_substring.
    + now rewrite like_substring.
  - intros ->. unfold users_query. rewrite order_by_perm.
    rewrite filter_all; [reflexivity|].
    intros u _. rewrite like_substring by reflexivity. apply occurs_ci_empty.
  - intros -> line. rewrite users_query_in.
    split; intros (u & Hu & Hm & E); exists u; repeat split; auto.
    + change (Sql.like "%_%" (name u) = true) in Hm. rewrite like_any_character in Hm.
      now destruct (name u).
    + change (Sql.like "%_%" (name u) = true). rewrite like_any_character.
      now destruct (name u).
  - apply (strongly_sorted_impl (fun a b => name_length_leb a b = true)).
    + intros a b. unfold name_length_leb. apply Nat.leb_le.
    + apply order_by_sorted; [apply name_length_leb_total|apply name_length_leb_trans].
  - intros today inputs rj.
    destruct (search_users_store sql_int usr_ today keyword_line inputs db rj)
      as [H|(selected & n & Hin & Hne & Hnone & H)]; [now left|right].
    now exists selected, n.
  - intros today line one Hlen Hd Hrange Hone.
    destruct (pick_listed_row _ _ Hd Hrange) as (selected & n & Hnth & Hpick).
    exists selected, n. split; [exact Hnth|]. intros Hne Hnone.
    rewrite (search_users_follow sql_int usr_ today keyword_line line one db selected)
      by (try assumption; lia).
    rewrite (follow_user_new sql_int db usr_ selected today Hne Hnone).
    split; reflexivity.
Qed.

Lemma search_users_listing_witness :
  (In (5, "Cy"%string) (users_query "c" example_db)
   <-> exists u, In u (users example_db) /\ occurs_ci "c" (name u) = true
                 /\ (5, "Cy"%string) = (usr u, name u))
  /\ Permutation (users_query "" example_db)
                 (map (fun u => (usr u, name u)) (users example_db))
  /\ (In (3, "Ann"%string) (users_query "_" example_db)
      <-> exists u, In u (users example_db) /\ name u <> EmptyString
                    /\ (3, "Ann"%string) = (usr u, name u))
  /\ exists selected n,
       nth_error (users_query "" example_db) 0 = Some (selected, n)
       /\ follows (fst (session (search_users int_of_digits "7" "2024-04-01" "  "
                                              ["1"; "1"]%string)
                                example_db []))
          = follows example_db ++ [mkFollow 7 selected "2024-04-01"].
Proof.
  split; [|split; [|split]].
  - exact (proj1 (search_users_listing int_of_digits example_db "7" " C ") eq_refl
             (5, "Cy"%string)).
  - exact (proj1 (proj2 (search_users_listing int_of_digits example_db "7" "  ")) eq_refl).
  - exact (proj1 (proj2 (proj2 (search_users_listing int_of_digits example_db "7" "_")))
             eq_refl (3, "Ann"%string)).
  - destruct (proj2 (proj2 (proj2 (proj2 (proj2
               (search_users_listing int_of_digits example_db "7" "  ")))))
               "2024-04-01"%string "1"%string "1"%string)
      as (selected & n & Hnth & Hfollow).
    + vm_compute. lia.
    + reflexivity.
    + vm_compute. split; discriminate.
    + reflexivity.
    + exists selected, n. split; [exact Hnth|].
      assert (Hrow : Some (selected, n) = Some (5, "Cy"%string))
        by (rewrite <- Hnth; reflexivity).
      injection Hrow as -> ->.
      assert (Hne : "7"%string <> Py.str 5) by (vm_compute; discriminate).
      specialize (Hfollow Hne eq_refl).
      destruct (session (search_users int_of_digits "7" "2024-04-01" "  "
                                      ["1"; "1"]%string) example_db [])
        as [db' printed].
      exact (proj1 Hfollow).
Defined.
